(** * Crawl engine of the compliance scrapers: model and properties

    This development embeds in Rocq the parts of [scrap_st.py], [scraper.py]
    and [script.py] that carry the crawl-engine contract: the keyword
    classifiers, URL normalisation and the scope filter, the breadth-first
    crawl loop, the record identity used for deduplication, the release-number
    extraction of the SEC extractors and the rate limiter.

    Conventions.  A Python [str] is a [string]; its characters are read as the
    code points 0..255.  A Python [set] of strings is a [gset string], a
    [deque] is a [list] consumed at its head and extended at its tail, Python
    integers are [Z].  [None] is [None]; a call that may raise returns a sum or
    an [option] whose failure case is named in the comment of the definition.
    Functions of the Python standard library and of third-party packages
    (urllib, requests, bs4) are not part of the repository: they are either
    implemented here from their documentation (str methods, MD5) or taken as
    section variables (urljoin, urlparse, the HTTP exchange). *)

From Stdlib Require Import ZArith QArith Qminmax Lqa Ascii.
From stdpp Require Import gmap strings list sorting.
From Equations Require Import Equations.

Local Open Scope Z_scope.

(** ** Python string methods *)

Module PyStr.

Definition code (c : ascii) : N := N_of_ascii c.

(** [str.lower] on one code point below 256: the ASCII capitals and the
    Latin-1 capitals U+00C0..U+00DE, the multiplication sign excepted, move
    32 places up; nothing else changes. *)
Definition lower_char (c : ascii) : ascii :=
  let n := code c in
  if ((65 <=? n) && (n <=? 90)
      || (192 <=? n) && (n <=? 222) && negb (n =? 215))%N
  then ascii_of_N (n + 32) else c.

Fixpoint lower (s : string) : string :=
  match s with
  | EmptyString => EmptyString
  | String c s' => String (lower_char c) (lower s')
  end.

(** [s.startswith(p)] *)
Fixpoint startswith (p s : string) : bool :=
  match p, s with
  | EmptyString, _ => true
  | String _ _, EmptyString => false
  | String a p', String b s' => if ascii_dec a b then startswith p' s' else false
  end.

(** [needle in hay] *)
Fixpoint contains (needle hay : string) : bool :=
  startswith needle hay ||
  match hay with
  | EmptyString => false
  | String _ hay' => contains needle hay'
  end.

(** [s.endswith(p)] *)
Fixpoint endswith (p s : string) : bool :=
  (if String.string_dec p s then true else false) ||
  match s with
  | EmptyString => false
  | String _ s' => endswith p s'
  end.

(** [s.replace(c, r)] for a one-character pattern [c]. *)
Fixpoint replace_char (c : ascii) (r : string) (s : string) : string :=
  match s with
  | EmptyString => EmptyString
  | String a s' =>
      if ascii_dec a c then r +:+ replace_char c r s'
      else String a (replace_char c r s')
  end.

(** [s.split(c)[0]]: the part of [s] before the first [c]. *)
Fixpoint before_char (c : ascii) (s : string) : string :=
  match s with
  | EmptyString => EmptyString
  | String a s' => if ascii_dec a c then EmptyString else String a (before_char c s')
  end.

(** [s[:n]] for [n >= 0]. *)
Fixpoint take (n : nat) (s : string) : string :=
  match n, s with
  | O, _ => EmptyString
  | _, EmptyString => EmptyString
  | S n', String a s' => String a (take n' s')
  end.

(** Truthiness of a string: [if s]. *)
Definition truthy (s : string) : bool :=
  match s with EmptyString => false | _ => true end.

(** [any(f(x) for x in l)] and [sum(1 for x in l if f(x))]. *)
Definition any {A} (f : A -> bool) (l : list A) : bool := existsb f l.
Definition count {A} (f : A -> bool) (l : list A) : Z :=
  Z.of_nat (length (filter (fun x => f x = true) l)).

End PyStr.

(** ** The keyword taxonomies *)

(** [VanguardComplianceScraper.COMPLIANCE_KEYWORDS] of scrap_st.py *)
Definition COMPLIANCE_KEYWORDS : list string :=
  [ "compliance"; "regulatory"; "regulation"; "disclosure"; "legal"; "terms";
    "privacy"; "security"; "fraud"; "protection"; "rights";
    "responsibilities"; "complaint"; "dispute"; "arbitration"; "finra"; "sec";
    "cfpb"; "fiduciary"; "best interest"; "suitability"; "risk disclosure";
    "prospectus"; "form adv"; "form crs"; "customer relationship summary";
    "conflicts of interest"; "code of ethics"; "business continuity";
    "cybersecurity"; "data protection"; "anti-money laundering"; "aml"; "kyc";
    "know your customer"; "sanctions"; "ofac"; "regulation best interest";
    "reg bi" ].

(** [BaseScraper.COMPLIANCE_KEYWORDS] of scraper.py *)
Definition BASE_COMPLIANCE_KEYWORDS : list string :=
  [ "compliance"; "violation"; "enforcement"; "fraud"; "misleading";
    "failure to supervise"; "books and records"; "recordkeeping";
    "anti-money laundering"; "aml"; "kyc"; "know your customer";
    "suitability"; "best interest"; "fiduciary"; "disclosure";
    "insider trading"; "market manipulation"; "reg sho";
    "whistleblower"; "retaliation"; "custody rule"; "safeguarding";
    "advertising"; "marketing rule"; "off-channel"; "communications";
    "cybersecurity"; "data breach"; "controls"; "supervisory";
    "fcpa"; "bribery"; "corruption"; "sanctions"; "ofac" ].

(** ** Content classifiers *)

(** The test of the first loop of [is_compliance_related] (scrap_st.py): the
    keyword with its spaces turned into hyphens, or with its spaces removed,
    occurs in the lower-cased URL. *)
Definition url_keyword_hit (url_lower keyword : string) : bool :=
  PyStr.contains (PyStr.replace_char " "%char "-" keyword) url_lower
  || PyStr.contains (PyStr.replace_char " "%char "" keyword) url_lower.

(** [VanguardComplianceScraper.is_compliance_related] (scrap_st.py, 79-93) *)
Definition is_compliance_related (text url : string) : bool :=
  let text_lower := PyStr.lower text in
  let url_lower := PyStr.lower url in
  if PyStr.any (url_keyword_hit url_lower) COMPLIANCE_KEYWORDS then true
  else
    let keyword_count :=
      PyStr.count (fun keyword => PyStr.contains keyword text_lower)
                  COMPLIANCE_KEYWORDS in
    3 <=? keyword_count.

(** [BaseScraper.is_compliance_related] (scraper.py, 129-134): one argument,
    no URL. *)
Definition base_is_compliance_related (text : string) : bool :=
  if negb (PyStr.truthy text) then false
  else
    let text_lower := PyStr.lower text in
    PyStr.any (fun kw => PyStr.contains kw text_lower) BASE_COMPLIANCE_KEYWORDS.

(** ** Exceptions

    Calls that may raise return a [Result].  Only the classes the handlers of
    the source tell apart are kept. *)

Inductive Exn : Set :=
| HTTPError          (* requests.HTTPError, raised by raise_for_status *)
| RequestException   (* any other requests.RequestException: connection
                        error, timeout, too many redirects, invalid URL *)
| ValueError         (* urllib.parse on a malformed authority *)
| OtherException.    (* any other subclass of Exception *)

Inductive Result (A : Type) : Type :=
| Ok (a : A)
| Raise (e : Exn).
Arguments Ok {A} a.
Arguments Raise {A} e.

(** Sequencing: an exception raised by the first statement skips the rest.
    With this instance [x ← m; k] reads "run [m], name its value [x], go on
    with [k]". *)
#[export] Instance Result_bind : MBind Result := fun A B k m =>
  match m with
  | Ok a => k a
  | Raise e => Raise e
  end.

(** [try: body  except <class> as e: handler]: the handler runs when the
    exception raised by the body belongs to the class. *)
Definition try_except {A} (body : Result A) (catches : Exn -> bool)
    (handler : Exn -> Result A) : Result A :=
  match body with
  | Ok a => Ok a
  | Raise e => if catches e then handler e else Raise e
  end.

(** [except Exception] and [except requests.RequestException] *)
Definition is_Exception (e : Exn) : bool := true.
Definition is_RequestException (e : Exn) : bool :=
  match e with
  | HTTPError | RequestException => true
  | ValueError | OtherException => false
  end.

(** ** HTTP exchange and parsed page *)

(** What the source reads from a [BeautifulSoup] tree once the script, style,
    nav, footer and header subtrees are removed. *)
Record Soup : Type := {
  soup_text : string;                     (* get_text(separator=' ', strip=True) *)
  soup_title : option string;             (* find('title'), its stripped text *)
  soup_meta_description : option string;  (* find('meta', name=description), its content *)
  soup_hrefs : list string                (* anchor['href'] over find_all('a', href=True) *)
}.

Record Response : Type := {
  status_code : Z;
  content : Soup
}.

(** [Response.raise_for_status] of the requests package: an [HTTPError] for a
    status from 400 to 599, nothing otherwise. *)
Definition raise_for_status (r : Response) : Result unit :=
  if (400 <=? status_code r) && (status_code r <? 600) then Raise HTTPError
  else Ok tt.

(** ** The site crawler of scrap_st.py *)

(** The dictionary [page_data] built by [scrape_page]. *)
Record PageData : Type := {
  pd_url : string;
  pd_title : string;
  pd_description : string;
  pd_is_compliance_related : bool;
  pd_compliance_keywords_found : list string;
  pd_keyword_count : Z;
  pd_outbound_links : list string;
  pd_content_preview : string;
  pd_content_length : Z
}.

(** One call of [scrape_page] made by the crawl loop, kept as ghost state:
    the URL fetched, [self.visited_urls] at the moment of the call, and
    whether the call returned a page (a truthy [page_data]). *)
Record FetchEvent : Type := {
  ev_url : string;
  ev_visited : gset string;
  ev_page : bool
}.

(** The variables of [crawl] together with the two attributes of the scraper
    it mutates. *)
Record CrawlState : Type := {
  queue : list string;
  pages_crawled : Z;
  visited_urls : gset string;
  compliance_urls : list PageData;
  fetch_log : list FetchEvent
}.

(** A value together with the equation that names it, for keeping the
    tested condition in the context of a branch. *)
Definition inspect {A : Type} (x : A) : { y : A | x = y } := exist _ x eq_refl.

Section Crawler.

(** [self.base_url] *)
Variable base_url : string.

(** [urllib.parse.urljoin]; [Raise ValueError] where the library does. *)
Variable urljoin : string -> string -> Result string.

(** [urllib.parse.urlparse(url).netloc] *)
Variable urlparse_netloc : string -> Result string.

(** [requests.get(url, headers=..., timeout=30)]: the answer of the network
    to the [n]-th request of the run. *)
Variable requests_get : nat -> string -> Result Response.

(** The order in which [list(set(links))] lists a set. *)
Variable list_of_set : gset string -> list string.

(** [normalize_url] (scrap_st.py, 95-109) *)
Definition normalize_url (url : string) : Result string :=
  if negb (PyStr.truthy url) then Ok ""
  else
    let url := PyStr.before_char "#"%char url in
    if PyStr.startswith "http" url then Ok url
    else if PyStr.startswith "/" url then urljoin base_url url
    else urljoin base_url ("/" +:+ url).

Definition skip_extensions : list string :=
  [".pdf"; ".jpg"; ".png"; ".gif"; ".css"; ".js"; ".zip"; ".doc"; ".docx"].

Definition skip_patterns : list string :=
  ["/login"; "/signin"; "/signout"; "/logout"; "/account"; "/my-account";
   "/secure"; "javascript:"; "mailto:"; "tel:"].

(** [should_crawl] (scrap_st.py, 111-143) *)
Definition should_crawl (visited : gset string) (url : string) : Result bool :=
  if negb (PyStr.truthy url) || bool_decide (url ∈ visited) then Ok false
  else
    netloc ← urlparse_netloc url ;
    if negb (PyStr.any (fun domain => PyStr.contains domain netloc)
                       ["vanguard.com"; "vanguard.co.uk"])
    then Ok false
    else if PyStr.any (fun ext => PyStr.endswith ext (PyStr.lower url)) skip_extensions
    then Ok false
    else if PyStr.any (fun pattern => PyStr.contains pattern (PyStr.lower url)) skip_patterns
    then Ok false
    else Ok true.

(** The loop of [extract_links] (scrap_st.py, 149-152), [links] being the
    list built so far. *)
Fixpoint collect_links (visited : gset string) (hrefs links : list string)
    : Result (list string) :=
  match hrefs with
  | [] => Ok links
  | href :: hrefs' =>
      url ← normalize_url href ;
      if PyStr.truthy url then
        ok ← should_crawl visited url ;
        collect_links visited hrefs' (if ok : bool then links ++ [url] else links)
      else collect_links visited hrefs' links
  end.

(** [extract_links] (scrap_st.py, 145-154) *)
Definition extract_links (visited : gset string) (soup : Soup)
    : Result (list string) :=
  links ← collect_links visited (soup_hrefs soup) [] ;
  Ok (list_of_set (list_to_set links)).

(** [scrape_page] (scrap_st.py, 156-209).  [n] is the number of requests
    already made in the run.  [time.sleep(1.0)] has no effect on the
    state.  An exception raised while the page is parsed has the effect of
    one raised by [requests_get], which stands for both. *)
Definition scrape_page (visited : gset string) (n : nat) (url : string)
    : Result (option PageData) :=
  try_except
    (response ← requests_get n url ;
     _ ← raise_for_status response ;
     let soup := content response in
     let text_content := soup_text soup in
     let title_text := default "No Title" (soup_title soup) in
     let description := default "" (soup_meta_description soup) in
     let is_compliance := is_compliance_related text_content url in
     let found_keywords :=
       filter (fun keyword =>
                 PyStr.contains keyword (PyStr.lower text_content) = true)
              COMPLIANCE_KEYWORDS in
     links ← extract_links visited soup ;
     Ok (Some {| pd_url := url;
                 pd_title := title_text;
                 pd_description := description;
                 pd_is_compliance_related := is_compliance;
                 pd_compliance_keywords_found := found_keywords;
                 pd_keyword_count := Z.of_nat (length found_keywords);
                 pd_outbound_links := links;
                 pd_content_preview := PyStr.take 500 text_content;
                 pd_content_length := Z.of_nat (String.length text_content) |}))
    is_Exception
    (fun _ => Ok None).

(** The loop over [outbound_links] in [crawl] (scrap_st.py, 245-247). *)
Fixpoint enqueue_links (visited : gset string) (q links : list string)
    : Result (list string) :=
  match links with
  | [] => Ok q
  | link :: links' =>
      if negb (bool_decide (link ∈ visited)) then
        ok ← should_crawl visited link ;
        enqueue_links visited (if ok : bool then q ++ [link] else q) links'
      else enqueue_links visited q links'
  end.

(** [max_pages] *)
Variable max_pages : Z.

(** The condition of the [while] of [crawl] (scrap_st.py, 225). *)
Definition loop_cond (st : CrawlState) : bool :=
  match queue st with
  | [] => false
  | _ :: _ => pages_crawled st <? max_pages
  end.

(** The body of the [while] of [crawl] (scrap_st.py, 226-252).  On an
    empty queue [popleft] raises [IndexError]; the loop condition excludes
    it. *)
Definition crawl_body (st : CrawlState) : Result CrawlState :=
  match queue st with
  | [] => Raise OtherException
  | url :: rest =>
      if bool_decide (url ∈ visited_urls st) then
        Ok {| queue := rest;
              pages_crawled := pages_crawled st;
              visited_urls := visited_urls st;
              compliance_urls := compliance_urls st;
              fetch_log := fetch_log st |}
      else
        let visited := {[url]} ∪ visited_urls st in
        page_data ← scrape_page visited (length (fetch_log st)) url ;
        match page_data with
        | Some pd =>
            q ← enqueue_links visited rest (pd_outbound_links pd) ;
            Ok {| queue := q;
                  pages_crawled := pages_crawled st + 1;
                  visited_urls := visited;
                  compliance_urls :=
                    if pd_is_compliance_related pd
                    then compliance_urls st ++ [pd]
                    else compliance_urls st;
                  fetch_log :=
                    fetch_log st ++
                    [{| ev_url := url; ev_visited := visited; ev_page := true |}] |}
        | None =>
            Ok {| queue := rest;
                  pages_crawled := pages_crawled st;
                  visited_urls := visited;
                  compliance_urls := compliance_urls st;
                  fetch_log :=
                    fetch_log st ++
                    [{| ev_url := url; ev_visited := visited; ev_page := false |}] |}
        end
  end.

(** What decreases along the loop: the pages still allowed, then the length
    of the queue. *)
Definition crawl_measure (st : CrawlState) : nat * nat :=
  (Z.to_nat (max_pages - pages_crawled st), length (queue st)).

(** The [while] of [crawl] (scrap_st.py, 225-252): the state when the loop
    is left, or the exception that leaves it. *)
Equations? crawl_loop (st : CrawlState) : Result CrawlState
  by wf (crawl_measure st) (Subterm.lexprod nat nat lt lt) :=
  crawl_loop st with inspect (loop_cond st) := {
    | exist _ false _ => Ok st
    | exist _ true Hcond with inspect (crawl_body st) := {
        | exist _ (Ok st') Hbody => crawl_loop st'
        | exist _ (Raise e) _ => Raise e } }.
Proof.
  unfold loop_cond in Hcond. unfold crawl_body in Hbody. unfold crawl_measure.
  destruct (queue st) as [|url rest] eqn:Hq; [discriminate|].
  apply Z.ltb_lt in Hcond.
  destruct (bool_decide (url ∈ visited_urls st)).
  - inversion Hbody; subst; simpl. right. lia.
  - destruct (scrape_page _ _ url) as [[pd|]|e]; simpl in Hbody;
      [|inversion Hbody; subst; simpl; right; lia|discriminate].
    destruct (enqueue_links _ rest _) as [q|e]; simpl in Hbody; [|discriminate].
    inversion Hbody; subst; simpl. left. lia.
Qed.

(** [crawl] (scrap_st.py, 211-258), run on a scraper whose attributes are
    [visited] and [found]: the state in which the loop is left.  What Python
    returns is its field [compliance_urls]. *)
Definition crawl (visited : gset string) (found : list PageData)
    (start_urls : list string) : Result CrawlState :=
  crawl_loop {| queue := start_urls;
                pages_crawled := 0;
                visited_urls := visited;
                compliance_urls := found;
                fetch_log := [] |}.

(** [n] turns of the loop, for running it on a given web. *)
Fixpoint crawl_iter (n : nat) (st : CrawlState) : Result CrawlState :=
  match n with
  | O => Ok st
  | S n' =>
      if loop_cond st then st' ← crawl_body st; crawl_iter n' st'
      else Ok st
  end.

(** *** The three ways through the body of the loop

    The state after a turn that finds the head of the queue already visited,
    after a turn whose fetch returns [None], and after a turn whose fetch
    returns the page [pd] with every outbound link enqueued. *)
Definition after_skip (st : CrawlState) (rest : list string) : CrawlState :=
  {| queue := rest;
     pages_crawled := pages_crawled st;
     visited_urls := visited_urls st;
     compliance_urls := compliance_urls st;
     fetch_log := fetch_log st |}.

Definition after_failure (st : CrawlState) (url : string) (rest : list string)
    : CrawlState :=
  {| queue := rest;
     pages_crawled := pages_crawled st;
     visited_urls := {[url]} ∪ visited_urls st;
     compliance_urls := compliance_urls st;
     fetch_log :=
       fetch_log st ++
       [{| ev_url := url; ev_visited := {[url]} ∪ visited_urls st; ev_page := false |}] |}.

Definition after_page (st : CrawlState) (url : string) (rest : list string)
    (pd : PageData) : CrawlState :=
  {| queue := rest ++ pd_outbound_links pd;
     pages_crawled := pages_crawled st + 1;
     visited_urls := {[url]} ∪ visited_urls st;
     compliance_urls :=
       if pd_is_compliance_related pd then compliance_urls st ++ [pd]
       else compliance_urls st;
     fetch_log :=
       fetch_log st ++
       [{| ev_url := url; ev_visited := {[url]} ∪ visited_urls st; ev_page := true |}] |}.

Inductive turn (st : CrawlState) : CrawlState -> Prop :=
| turn_skip url rest :
    queue st = url :: rest ->
    url ∈ visited_urls st ->
    turn st (after_skip st rest)
| turn_failure url rest :
    queue st = url :: rest ->
    url ∉ visited_urls st ->
    scrape_page ({[url]} ∪ visited_urls st) (length (fetch_log st)) url = Ok None ->
    turn st (after_failure st url rest)
| turn_page url rest pd :
    queue st = url :: rest ->
    url ∉ visited_urls st ->
    scrape_page ({[url]} ∪ visited_urls st) (length (fetch_log st)) url = Ok (Some pd) ->
    (forall link, link ∈ pd_outbound_links pd ->
                  should_crawl ({[url]} ∪ visited_urls st) link = Ok true) ->
    turn st (after_page st url rest pd).

(** A URL passes the scope filter: [should_crawl] accepts it when nothing is
    visited yet. *)
Definition in_scope (url : string) : Prop := should_crawl ∅ url = Ok true.

(** The state in which [crawl] enters its loop. *)
Definition initial_state (visited : gset string) (found : list PageData)
    (start_urls : list string) : CrawlState :=
  {| queue := start_urls;
     pages_crawled := 0;
     visited_urls := visited;
     compliance_urls := found;
     fetch_log := [] |}.

(** The URLs fetched, in order, and the number of fetches that returned a
    page. *)
Definition fetched (st : CrawlState) : list string := ev_url <$> fetch_log st.
Definition pages_returned (st : CrawlState) : Z :=
  Z.of_nat (length (filter (fun e => ev_page e = true) (fetch_log st))).

(** *** Loop invariants *)

(** No URL is fetched twice; the visited set is the one [crawl] started from
    plus the URLs fetched; each fetch was made with its URL already in the
    visited set, and of a URL that was not visited when [crawl] started. *)
Definition log_inv (visited0 : gset string) (st : CrawlState) : Prop :=
  NoDup (fetched st)
  /\ visited_urls st = visited0 ∪ list_to_set (fetched st)
  /\ Forall (fun e => ev_url e ∈ ev_visited e /\ ev_url e ∉ visited0) (fetch_log st).

(** The counter is the number of fetches that returned a page, and stays
    within the budget. *)
Definition count_inv (st : CrawlState) : Prop :=
  pages_crawled st = pages_returned st /\ pages_crawled st <= Z.max 0 max_pages.

(** What is queued or was fetched is a start URL or passed the scope
    filter. *)
Definition scope_inv (start_urls : list string) (st : CrawlState) : Prop :=
  (forall u, u ∈ queue st -> u ∈ start_urls \/ in_scope u)
  /\ (forall u, u ∈ fetched st -> u ∈ start_urls \/ in_scope u).

(** Every start URL is still queued or already visited. *)
Definition start_inv (start_urls : list string) (st : CrawlState) : Prop :=
  forall u, u ∈ start_urls -> u ∈ queue st \/ u ∈ visited_urls st.

End Crawler.

(** ** A small web, for running the crawler

    [demo_urljoin] resolves an absolute-path reference against an origin and
    [demo_netloc] reads the authority of an http or https URL; the pages below
    need no more.  Sets are listed in the order of [elements]. *)

Definition demo_base_url : string := "https://investor.vanguard.com".

Definition demo_urljoin (base ref : string) : Result string := Ok (base +:+ ref).

Definition demo_netloc (url : string) : Result string :=
  if PyStr.startswith "https://" url
  then Ok (PyStr.before_char "/"%char (String.substring 8 (String.length url - 8) url))
  else if PyStr.startswith "http://" url
  then Ok (PyStr.before_char "/"%char (String.substring 7 (String.length url - 7) url))
  else Ok "".

Definition demo_page (text : string) (hrefs : list string) : Result Response :=
  Ok {| status_code := 200;
        content := {| soup_text := text; soup_title := Some "Demo";
                      soup_meta_description := None; soup_hrefs := hrefs |} |}.

Definition empty_soup : Soup :=
  {| soup_text := ""; soup_title := None; soup_meta_description := None;
     soup_hrefs := [] |}.

Definition demo_get (n : nat) (url : string) : Result Response :=
  if String.eqb url "https://investor.vanguard.com/a" then
    demo_page "Our compliance program: disclosure of fraud"
              ["/b"; "https://other.com/c"; "/a#top"; "/b"]
  else if String.eqb url "https://investor.vanguard.com/b" then
    demo_page "Nothing here" []
  else if String.eqb url "https://investor.vanguard.com/gone" then
    Ok {| status_code := 404; content := empty_soup |}
  else if String.eqb url "https://investor.vanguard.com/cached" then
    Ok {| status_code := 304; content := empty_soup |}
  else if String.eqb url "https://other.com/file.pdf" then
    demo_page "A document" ["/a"]
  else Raise RequestException.

Definition demo_list_of_set (s : gset string) : list string := elements s.

Definition demo_crawl (max_pages : Z) (start_urls : list string) : Result CrawlState :=
  crawl demo_base_url demo_urljoin demo_netloc demo_get demo_list_of_set max_pages
        ∅ [] start_urls.

Definition demo_iter (max_pages : Z) (n : nat) (start_urls : list string)
    : Result CrawlState :=
  crawl_iter demo_base_url demo_urljoin demo_netloc demo_get demo_list_of_set
             max_pages n (initial_state ∅ [] start_urls).

(** ** MD5 (RFC 1321), as [hashlib.md5] computes it *)

Module MD5.

Definition mask32 : Z := 0xffffffff.
Definition add32 (a b : Z) : Z := Z.land (a + b) mask32.
Definition not32 (a : Z) : Z := Z.lxor a mask32.
Definition rotl32 (x : Z) (c : Z) : Z :=
  Z.land (Z.lor (Z.shiftl x c) (Z.shiftr x (32 - c))) mask32.

(** Per-round shift amounts. *)
Definition S_TABLE : list Z :=
  [ 7; 12; 17; 22; 7; 12; 17; 22; 7; 12; 17; 22; 7; 12; 17; 22;
    5; 9; 14; 20; 5; 9; 14; 20; 5; 9; 14; 20; 5; 9; 14; 20;
    4; 11; 16; 23; 4; 11; 16; 23; 4; 11; 16; 23; 4; 11; 16; 23;
    6; 10; 15; 21; 6; 10; 15; 21; 6; 10; 15; 21; 6; 10; 15; 21 ].

(** [floor(2^32 * abs(sin(i + 1)))] for [i] from 0 to 63. *)
Definition K_TABLE : list Z :=
  [
    0xd76aa478; 0xe8c7b756; 0x242070db; 0xc1bdceee;
    0xf57c0faf; 0x4787c62a; 0xa8304613; 0xfd469501;
    0x698098d8; 0x8b44f7af; 0xffff5bb1; 0x895cd7be;
    0x6b901122; 0xfd987193; 0xa679438e; 0x49b40821;
    0xf61e2562; 0xc040b340; 0x265e5a51; 0xe9b6c7aa;
    0xd62f105d; 0x02441453; 0xd8a1e681; 0xe7d3fbc8;
    0x21e1cde6; 0xc33707d6; 0xf4d50d87; 0x455a14ed;
    0xa9e3e905; 0xfcefa3f8; 0x676f02d9; 0x8d2a4c8a;
    0xfffa3942; 0x8771f681; 0x6d9d6122; 0xfde5380c;
    0xa4beea44; 0x4bdecfa9; 0xf6bb4b60; 0xbebfbc70;
    0x289b7ec6; 0xeaa127fa; 0xd4ef3085; 0x04881d05;
    0xd9d4d039; 0xe6db99e5; 0x1fa27cf8; 0xc4ac5665;
    0xf4292244; 0x432aff97; 0xab9423a7; 0xfc93a039;
    0x655b59c3; 0x8f0ccc92; 0xffeff47d; 0x85845dd1;
    0x6fa87e4f; 0xfe2ce6e0; 0xa3014314; 0x4e0811a1;
    0xf7537e82; 0xbd3af235; 0x2ad7d2bb; 0xeb86d391 ].

(** A 32-bit word from four bytes, least significant first. *)
Definition word_of_bytes (bs : list Z) : Z :=
  fold_right (fun b acc => b + 256 * acc) 0 bs.

(** The [n] bytes of [w], least significant first. *)
Fixpoint bytes_of_word (n : nat) (w : Z) : list Z :=
  match n with
  | O => []
  | S n' => Z.land w 0xff :: bytes_of_word n' (Z.shiftr w 8)
  end.

(** The message followed by the bit 1, zeros up to 56 modulo 64 bytes and
    the length in bits on 64 bits. *)
Definition pad (msg : list Z) : list Z :=
  let len := length msg in
  let zeros := ((55 + 64 - len mod 64) mod 64)%nat in
  msg ++ [0x80] ++ replicate zeros 0
      ++ bytes_of_word 8 (Z.land (8 * Z.of_nat len) 0xffffffffffffffff).

(** The sixteen words of each 64-byte block; [n] bounds the number of
    blocks. *)
Fixpoint words (n : nat) (bs : list Z) : list Z :=
  match n, bs with
  | S n', _ :: _ => word_of_bytes (firstn 4 bs) :: words n' (skipn 4 bs)
  | _, _ => []
  end.

Fixpoint blocks (n : nat) (ws : list Z) : list (list Z) :=
  match n, ws with
  | S n', _ :: _ => firstn 16 ws :: blocks n' (skipn 16 ws)
  | _, _ => []
  end.

Definition round (m : list Z) (st : Z * Z * Z * Z) (i : nat) : Z * Z * Z * Z :=
  let '(a, b, c, d) := st in
  let '(f, g) :=
    if (i <? 16)%nat then
      (Z.lor (Z.land b c) (Z.land (not32 b) d), i)
    else if (i <? 32)%nat then
      (Z.lor (Z.land d b) (Z.land (not32 d) c), ((5 * i + 1) mod 16)%nat)
    else if (i <? 48)%nat then
      (Z.lxor (Z.lxor b c) d, ((3 * i + 5) mod 16)%nat)
    else
      (Z.lxor c (Z.lor b (not32 d)), ((7 * i) mod 16)%nat) in
  let f' := add32 (add32 (add32 f a) (nth i K_TABLE 0)) (nth g m 0) in
  (d, add32 b (rotl32 f' (nth i S_TABLE 0)), b, c).

Definition compress (st : Z * Z * Z * Z) (m : list Z) : Z * Z * Z * Z :=
  let '(a0, b0, c0, d0) := st in
  let '(a, b, c, d) := fold_left (round m) (seq 0 64) st in
  (add32 a0 a, add32 b0 b, add32 c0 c, add32 d0 d).

Definition INIT : Z * Z * Z * Z :=
  (0x67452301, 0xefcdab89, 0x98badcfe, 0x10325476).

(** The 16 bytes of the digest. *)
Definition digest (msg : list Z) : list Z :=
  let bs := pad msg in
  let ws := words (length bs) bs in
  let '(a, b, c, d) := fold_left compress (blocks (length ws) ws) INIT in
  bytes_of_word 4 a ++ bytes_of_word 4 b ++ bytes_of_word 4 c ++ bytes_of_word 4 d.

Definition hex_digit (n : Z) : ascii :=
  if n <? 10 then ascii_of_N (Z.to_N (48 + n)) else ascii_of_N (Z.to_N (87 + n)).

Fixpoint hex (bs : list Z) : string :=
  match bs with
  | [] => EmptyString
  | b :: bs' => String (hex_digit (Z.shiftr b 4)) (String (hex_digit (Z.land b 15)) (hex bs'))
  end.

(** [str.encode()]: UTF-8, for code points below 256. *)
Fixpoint encode (s : string) : list Z :=
  match s with
  | EmptyString => []
  | String ch s' =>
      let n := Z.of_N (N_of_ascii ch) in
      if n <? 128 then n :: encode s'
      else Z.lor 0xc0 (Z.shiftr n 6) :: Z.lor 0x80 (Z.land n 0x3f) :: encode s'
  end.

(** [hashlib.md5(data).hexdigest()] *)
Definition hexdigest (data : list Z) : string := hex (digest data).

End MD5.

(** ** Records and deduplication of scraper.py *)

(** The dataclass [EnforcementAction] (scraper.py, 32-51).  [violations] and
    [respondents] are Python lists. *)
Record EnforcementAction : Type := {
  source : string;
  action_type : string;
  release_number : option string;
  title : string;
  date : option string;
  url : string;
  summary : option string;
  violations : list string;
  penalties : option string;
  respondents : list string;
  raw_text : option string
}.

(** The property [unique_id] (scraper.py, 47-51) *)
Definition unique_id (a : EnforcementAction) : string :=
  let content := source a +:+ ":" +:+ url a in
  PyStr.take 12 (MD5.hexdigest (MD5.encode content)).

(** The deduplication loop of [main] (scraper.py, 718-724), from a given
    [seen_ids] and [unique_actions]. *)
Fixpoint dedup_loop (seen_ids : gset string) (unique_actions : list EnforcementAction)
    (all_actions : list EnforcementAction) : gset string * list EnforcementAction :=
  match all_actions with
  | [] => (seen_ids, unique_actions)
  | action :: rest =>
      if negb (bool_decide (unique_id action ∈ seen_ids)) then
        dedup_loop ({[unique_id action]} ∪ seen_ids) (unique_actions ++ [action]) rest
      else dedup_loop seen_ids unique_actions rest
  end.

Definition deduplicate (all_actions : list EnforcementAction) : list EnforcementAction :=
  snd (dedup_loop ∅ [] all_actions).

(** ** Regulator scrapers: page fetch and release numbers *)

(** [BaseScraper.fetch_page] (scraper.py, 96-105), given the outcome of
    [self.session.get(url, timeout=timeout)].  [self.rate_limiter.wait()],
    which precedes the [try], touches the limiter and the clock only (see
    [RateLimiter] below). *)
Definition fetch_page (session_get : Result Response) : Result (option Soup) :=
  try_except
    (response ← session_get;
     _ ← raise_for_status response;
     Ok (Some (content response)))
    is_RequestException
    (fun _ => Ok None).

Module Regex.

(** The classes [\d] and [\s] of Python's [re] on code points below 256. *)
Definition is_digit (c : ascii) : bool :=
  let n := N_of_ascii c in ((48 <=? n) && (n <=? 57))%N.

Definition is_space (c : ascii) : bool :=
  let n := N_of_ascii c in
  ((9 <=? n) && (n <=? 13) || (28 <=? n) && (n <=? 32) || (n =? 133) || (n =? 160))%N.

Definition is_char (a c : ascii) : bool := if ascii_dec a c then true else false.

(** The longest prefix made of characters of the class, and what follows:
    a greedy [class*]. *)
Fixpoint span (p : ascii -> bool) (s : string) : string * string :=
  match s with
  | EmptyString => (EmptyString, EmptyString)
  | String c s' =>
      if p c then let '(a, b) := span p s' in (String c a, b)
      else (EmptyString, s)
  end.

(** [\d+] at the head of [s]: the digits matched. *)
Definition digits1 (s : string) : option string :=
  match span is_digit s with
  | (EmptyString, _) => None
  | (ds, _) => Some ds
  end.

(** The first position of [s], from the left, where [at_pos] matches:
    [re.search]. *)
Fixpoint search {A} (at_pos : string -> option A) (s : string) : option A :=
  match at_pos s with
  | Some m => Some m
  | None =>
      match s with
      | EmptyString => None
      | String _ s' => search at_pos s'
      end
  end.

(** [LR[- ]?(\d+)] with [re.IGNORECASE], matched at the head of [s]:
    group 1.  The optional separator is tried first, then skipped. *)
Definition lr_number_at (s : string) : option string :=
  match s with
  | String l (String r rest) =>
      if (is_char "L"%char l || is_char "l"%char l) && (is_char "R"%char r || is_char "r"%char r) then
        let with_sep :=
          match rest with
          | String c rest' =>
              if is_char "-"%char c || is_char " "%char c then digits1 rest' else None
          | EmptyString => None
          end in
        match with_sep with
        | Some ds => Some ds
        | None => digits1 rest
        end
      else None
  | _ => None
  end.

(** The pattern of line 220 of script.py matched at the head of [s]: the
    literal LR or the literal Release No. with its dot, then hyphens and
    white space, then group 2: digits followed by digits and hyphens. *)
Definition release_no_at (s : string) : option string :=
  let after_prefix :=
    if PyStr.startswith "LR" s then Some (String.substring 2 (String.length s - 2) s)
    else if PyStr.startswith "Release No." s
         then Some (String.substring 11 (String.length s - 11) s)
         else None in
  match after_prefix with
  | None => None
  | Some rest =>
      let '(_, rest') := span (fun c => is_char "-"%char c || is_space c) rest in
      match rest' with
      | String d _ =>
          if is_digit d then Some (fst (span (fun c => is_char "-"%char c || is_digit c) rest'))
          else None
      | EmptyString => None
      end
  end.

End Regex.

(** The parts of a release detail page read by the SEC extractors of
    scraper.py. *)
Record DetailPage : Type := {
  dp_content_text : option string;  (* text of div.article-content, else of main *)
  dp_date_text : option string      (* text of the first time element, else of a date class *)
}.

(** [x or y] on an optional string and a string. *)
Definition or_else (x : option string) (y : string) : string :=
  match x with
  | Some s => if PyStr.truthy s then s else y
  | None => y
  end.

Section Extractors.

(** The order in which [list(set(found))] lists a set. *)
Variable list_of_set : gset string -> list string.

(** [BaseScraper.extract_violations] (scraper.py, 118-127) *)
Definition extract_violations (text : string) : list string :=
  if negb (PyStr.truthy text) then []
  else
    let text_lower := PyStr.lower text in
    let found :=
      filter (fun keyword => PyStr.contains keyword text_lower = true)
             BASE_COMPLIANCE_KEYWORDS in
    list_of_set (list_to_set found).

(** Lines 182-183 of scraper.py: the release number of a litigation
    release, from the link text and its href. *)
Definition litigation_release_num (title href : string) : option string :=
  match Regex.search Regex.lr_number_at (title +:+ href) with
  | Some g1 => Some ("LR-" +:+ g1)
  | None => None
  end.

(** The record built for one link by [SECScraper.scrape_litigation_releases]
    (scraper.py, 178-215); [full_url] is [urljoin(BASE_URL, href)] and
    [detail_soup] what [fetch_page(full_url)] returned. *)
Definition litigation_action (title href full_url : string)
    (detail_soup : option DetailPage) : EnforcementAction :=
  let release_num := litigation_release_num title href in
  let raw_text := detail_soup ≫= dp_content_text in
  let summary :=
    (fun t => if (500 <? String.length t)%nat
              then PyStr.take 500 t +:+ "..." else t) <$> raw_text in
  let date := detail_soup ≫= dp_date_text in
  {| source := "SEC";
     action_type := "litigation_release";
     release_number := release_num;
     title := title;
     date := date;
     url := full_url;
     summary := summary;
     violations := extract_violations (or_else raw_text title);
     penalties := None;
     respondents := [];
     raw_text := raw_text |}.

End Extractors.

(** The dictionary returned by [SECScraper._scrape_release_detail] of
    script.py, without its [date] and [scraped_at] entries. *)
Record ReleaseDetail : Type := {
  rd_source : string;
  rd_type : string;
  rd_release_number : string;
  rd_title : string;
  rd_url : string;
  rd_content : string;
  rd_full_content : string
}.

(** Lines 220-221 of script.py *)
Definition detail_release_number (title_text : string) : string :=
  match Regex.search Regex.release_no_at title_text with
  | Some g2 => g2
  | None => "Unknown"
  end.

(** [SECScraper._scrape_release_detail] (script.py, 195-237), given the
    outcome of [requests.get(url, ...)]; the text of the page is taken with
    newline separators. *)
Definition scrape_release_detail (get : Result Response) (url release_type : string)
    : Result (option ReleaseDetail) :=
  try_except
    (response ← get;
     _ ← raise_for_status response;
     let soup := content response in
     let title_text := default "No Title" (soup_title soup) in
     let content := soup_text soup in
     Ok (Some {| rd_source := "SEC";
                 rd_type := release_type;
                 rd_release_number := detail_release_number title_text;
                 rd_title := title_text;
                 rd_url := url;
                 rd_content := PyStr.take (Z.to_nat 10000) content;
                 rd_full_content := content |}))
    is_Exception
    (fun _ => Ok None).

(** The value of the release-number entry as Python sees it: [None] or a
    string. *)
Definition litigation_release_value (a : EnforcementAction) : option string :=
  release_number a.
Definition detail_release_value (d : ReleaseDetail) : option string :=
  Some (rd_release_number d).

(** ** The rate limiter of scraper.py

    Times are exact rationals, in seconds.  [time.time()] reads a clock;
    [time.sleep(d)] raises [ValueError] for a negative [d] and otherwise
    returns once at least [d] seconds have passed. *)

Module RateLimiter.

Local Open Scope Q_scope.

Record t : Type := {
  min_interval : Q;
  last_request_time : Q
}.

(** [RateLimiter.__init__] (scraper.py, 57-59); the division raises
    [ZeroDivisionError] for a zero rate. *)
Definition init (requests_per_second : Q) : Result t :=
  if Qeq_bool requests_per_second 0 then Raise OtherException
  else Ok {| min_interval := 1 / requests_per_second;
             last_request_time := 0 |}.

(** What one call of [wait] does, as seen from outside. *)
Record Observation : Type := {
  entered : Q;          (* the clock at the first time.time() *)
  slept : option Q;     (* the argument of time.sleep, when it is called *)
  returned : Q          (* the clock at the last time.time() *)
}.

(** [time.sleep(d)] from clock [now]; [late] is how much longer than asked
    the call takes. *)
Definition sleep (now d late : Q) : Result Q :=
  if Qlt_le_dec d 0 then Raise ValueError else Ok (now + d + late).

(** [RateLimiter.wait] (scraper.py, 61-66), entered at clock [now]. *)
Definition wait (self : t) (now late : Q) : Result (t * Observation) :=
  let elapsed := now - last_request_time self in
  if Qlt_le_dec elapsed (min_interval self) then
    now' ← sleep now (min_interval self - elapsed) late;
    Ok ({| min_interval := min_interval self; last_request_time := now' |},
        {| entered := now;
           slept := Some (min_interval self - elapsed);
           returned := now' |})
  else
    Ok ({| min_interval := min_interval self; last_request_time := now + late |},
        {| entered := now; slept := None; returned := now + late |}).

(** A sequence of calls.  Each element of [env] gives the time that passes
    between the previous return and the call, and the lateness of the
    call. *)
Fixpoint waits (self : t) (clock : Q) (env : list (Q * Q))
    : Result (list Observation) :=
  match env with
  | [] => Ok []
  | (gap, late) :: env' =>
      '(self', o) ← wait self (clock + gap) late;
      os ← waits self' (returned o) env';
      Ok (o :: os)
  end.

(** The time asked of [time.sleep] by a call; no call asks for none. *)
Definition sleep_time (o : Observation) : Q := default 0 (slept o).


End RateLimiter.

(** ** More of the scrapers

    The functions below complete the model: the URL helper and the listing
    loops of script.py, and the aggregation and ordering done by the report
    writers. *)

(** [SECScraper._normalize_url] and [FINRAScraper._normalize_url]
    (script.py, 239-246 and 449-456); [base_url] is [self.base_url]. *)
Definition _normalize_url (base_url url : string) : string :=
  if PyStr.startswith "http" url then url
  else if PyStr.startswith "/" url then base_url +:+ url
  else base_url +:+ "/" +:+ url.

(** The keys of a dictionary filled by [d[k] = v] over [keys], in the order
    in which Python lists them: assigning to a key already present leaves its
    place unchanged. *)
Definition dict_assign_key (keys : list string) (k : string) : list string :=
  if bool_decide (k ∈ keys) then keys else keys ++ [k].

Section Listings.

(** [self.base_url] of the scraper of script.py. *)
Variable base_url : string.

(** The [href] of each link gathered from the listing page by the
    [find_all] calls, in the order of the list [links]. *)
Variable listing_links : Soup -> list string.

(** The test under which a link enters [unique_links], and the [type] given
    to the records. *)
Variable keep : string -> bool.
Variable release_type : string.

(** [requests.get] for the [i]-th entry of [unique_links]. *)
Variable detail_get : nat -> string -> Result Response.

Variable max_items : Z.

(** The loop that fills [unique_links] (script.py, 109-113 and 167-172): the
    keys of the dictionary. *)
Definition unique_links (links : list string) : list string :=
  fold_left (fun keys href => if keep href then dict_assign_key keys href else keys)
            links [].

(** The loop over [enumerate(unique_links.items())] (script.py, 117-129 and
    176-188), from index [i] with [data] collected so far. *)
Fixpoint release_items (i : nat) (hrefs : list string) (data : list ReleaseDetail)
    : Result (list ReleaseDetail) :=
  match hrefs with
  | [] => Ok data
  | href :: rest =>
      if max_items <=? Z.of_nat i then Ok data
      else
        data' ← try_except
                  (let release_url := _normalize_url base_url href in
                   release_data ← scrape_release_detail
                                    (detail_get i release_url) release_url release_type;
                   Ok (match release_data with
                       | Some d => data ++ [d]
                       | None => data
                       end))
                  is_Exception
                  (fun _ => Ok data);
        release_items (S i) rest data'
  end.

(** [_scrape_litigation_releases_new] and [_scrape_admin_proceedings_new]
    (script.py, 76-134 and 136-193), given the outcome of the request for the
    listing page.  The handler of the outer [try] returns [data], which is
    empty whenever the handler can run. *)
Definition scrape_listing (listing : Result Response) : Result (list ReleaseDetail) :=
  try_except
    (response ← listing;
     _ ← raise_for_status response;
     release_items 0 (unique_links (listing_links (content response))) [])
    is_RequestException
    (fun _ => Ok []).

End Listings.

(** The tests of lines 112 and 171 of script.py. *)
Definition keep_litigation (href : string) : bool :=
  PyStr.contains "litreleases" (PyStr.lower href)
  || PyStr.contains "litrelease" (PyStr.lower href).

Definition keep_admin (href : string) : bool :=
  (PyStr.contains "admin" (PyStr.lower href)
   || PyStr.contains "alj" (PyStr.lower href)
   || PyStr.contains "opinion" (PyStr.lower href))
  && negb (PyStr.contains ".pdf" (PyStr.lower href)).

Definition _scrape_litigation_releases_new (base_url : string)
    (listing_links : Soup -> list string) (detail_get : nat -> string -> Result Response)
    (max_items : Z) (listing : Result Response) : Result (list ReleaseDetail) :=
  scrape_listing base_url listing_links keep_litigation "litigation"
                 detail_get max_items listing.

Definition _scrape_admin_proceedings_new (base_url : string)
    (listing_links : Soup -> list string) (detail_get : nat -> string -> Result Response)
    (max_items : Z) (listing : Result Response) : Result (list ReleaseDetail) :=
  scrape_listing base_url listing_links keep_admin "administrative"
                 detail_get max_items listing.

(** [SECScraper.scrape_enforcement_actions] (script.py, 40-74): the loop
    over the years from [start_year] to [end_year], the caller having
    resolved a missing [end_year] to the current year. *)
Section EnforcementActions.

Variable base_url : string.

(** The links gathered from the two listing pages. *)
Variable litigation_links : Soup -> list string.
Variable admin_links : Soup -> list string.

(** [requests.get] for the listing page of a year, and for the [i]-th detail
    page of a year and a type. *)
Variable litigation_get : Z -> Result Response.
Variable admin_get : Z -> Result Response.
Variable detail_get : Z -> string -> nat -> string -> Result Response.

(** [self._save_data], which writes the JSON file and may fail. *)
Variable _save_data : list ReleaseDetail -> string -> Result unit.

Variable max_items_per_year : Z.

Fixpoint enforcement_years (years : list Z) (enforcement_data : list ReleaseDetail)
    : Result (list ReleaseDetail) :=
  match years with
  | [] => Ok enforcement_data
  | year :: years' =>
      litig_data ← _scrape_litigation_releases_new base_url litigation_links
                     (detail_get year "litigation") max_items_per_year
                     (litigation_get year);
      admin_data ← _scrape_admin_proceedings_new base_url admin_links
                     (detail_get year "administrative") max_items_per_year
                     (admin_get year);
      enforcement_years years' (enforcement_data ++ litig_data ++ admin_data)
  end.

Definition scrape_enforcement_actions (start_year end_year : Z)
    : Result (list ReleaseDetail) :=
  enforcement_data ← enforcement_years (seqZ start_year (end_year + 1 - start_year)) [];
  _ ← _save_data enforcement_data "sec_enforcement_actions.json";
  Ok enforcement_data.

End EnforcementActions.

(** The dictionary returned by [FINRAScraper._scrape_notice_detail] of
    script.py, without its [scraped_at] entry. *)
Record NoticeDetail : Type := {
  nd_source : string;
  nd_type : string;
  nd_notice_number : string;
  nd_title : string;
  nd_url : string;
  nd_content : string;
  nd_full_content : string
}.

(** The pattern of line 431 of script.py matched at the head of [s]: two
    digits, a hyphen and two digits. *)
Definition notice_no_at (s : string) : option string :=
  match s with
  | String a (String b (String c (String d (String e _)))) =>
      if Regex.is_digit a && Regex.is_digit b && Regex.is_char "-" c
         && Regex.is_digit d && Regex.is_digit e
      then Some (String a (String b (String c (String d (String e "")))))
      else None
  | _ => None
  end.

(** Lines 431-432 of script.py *)
Definition notice_number (title_text : string) : string :=
  match Regex.search notice_no_at title_text with
  | Some g1 => g1
  | None => "Unknown"
  end.

(** [FINRAScraper._scrape_notice_detail] (script.py, 413-447), given the
    outcome of [requests.get(url, ...)]. *)
Definition _scrape_notice_detail (get : Result Response) (url : string)
    : Result (option NoticeDetail) :=
  try_except
    (response ← get;
     _ ← raise_for_status response;
     let soup := content response in
     let title_text := default "No Title" (soup_title soup) in
     let content := soup_text soup in
     Ok (Some {| nd_source := "FINRA";
                 nd_type := "regulatory_notice";
                 nd_notice_number := notice_number title_text;
                 nd_title := title_text;
                 nd_url := url;
                 nd_content := PyStr.take (Z.to_nat 10000) content;
                 nd_full_content := content |}))
    is_Exception
    (fun _ => Ok None).

(** The slice [l[:stop]] of Python: the first [stop] elements, and for a
    negative [stop] all but the last [-stop]. *)
Definition py_slice_to {A} (stop : Z) (l : list A) : list A :=
  if 0 <=? stop then take (Z.to_nat stop) l
  else take (length l - Z.to_nat (- stop)) l.

(** [FINRAScraper.scrape_regulatory_notices] (script.py, 324-361); its
    parameter [start_year] is only logged. *)
Section RegulatoryNotices.

Variable base_url : string.

(** The [href] of each link of [notice_links]. *)
Variable notice_links : Soup -> list string.

(** [requests.get] for the [i]-th link. *)
Variable detail_get : nat -> string -> Result Response.

(** [self._save_data] *)
Variable _save_data : list NoticeDetail -> string -> Result unit.

Variable max_items : Z.

Fixpoint notice_items (i : nat) (hrefs : list string) (notices_data : list NoticeDetail)
    : Result (list NoticeDetail) :=
  match hrefs with
  | [] => Ok notices_data
  | href :: rest =>
      notices_data' ←
        try_except
          (let notice_url := _normalize_url base_url href in
           notice_data ← _scrape_notice_detail (detail_get i notice_url) notice_url;
           Ok (match notice_data with
               | Some d => notices_data ++ [d]
               | None => notices_data
               end))
          is_Exception
          (fun _ => Ok notices_data);
      notice_items (S i) rest notices_data'
  end.

Definition scrape_regulatory_notices (listing : Result Response)
    : Result (list NoticeDetail) :=
  notices_data ←
    try_except
      (response ← listing;
       _ ← raise_for_status response;
       notice_items 0 (py_slice_to max_items (notice_links (content response))) [])
      is_RequestException
      (fun _ => Ok []);
  _ ← _save_data notices_data "finra_regulatory_notices.json";
  Ok notices_data.

End RegulatoryNotices.

(** [SECScraper.scrape_litigation_releases] (scraper.py, 149-219): the
    actions yielded when the generator is run to its end, as [main] does; an
    exception ends the run. *)
Section LitigationReleases.

(** [self.BASE_URL], [urljoin] and the order of [list(set(found))]. *)
Variable BASE_URL : string.
Variable urljoin : string -> string -> Result string.
Variable list_of_set : gset string -> list string.

(** [self.session.get] for the listing page of number [page], and for the
    detail page of its [i]-th anchor. *)
Variable listing_get : nat -> Result Response.
Variable detail_get : nat -> nat -> string -> Result Response.

(** The anchors of [releases]: those found by the first [find_all], or by
    the second when the first finds none; each with its [href] and its
    stripped text. *)
Variable release_anchors : Soup -> list (string * string).

(** What is read from a detail page. *)
Variable detail_page : Soup -> DetailPage.

(** The loop over [releases] (scraper.py, 173-217), from the [i]-th
    anchor. *)
Fixpoint page_actions (page i : nat) (releases : list (string * string))
    : Result (list EnforcementAction) :=
  match releases with
  | [] => Ok []
  | (href, title) :: rest =>
      if negb (PyStr.truthy href) then page_actions page (S i) rest
      else
        full_url ← urljoin BASE_URL href;
        detail_soup ← fetch_page (detail_get page i full_url);
        let action :=
          litigation_action list_of_set title href full_url
                            (detail_page <$> detail_soup) in
        actions ← page_actions page (S i) rest;
        Ok (action :: actions)
  end.

(** The loop over [range(max_pages)] (scraper.py, 155-219). *)
Fixpoint litigation_pages (pages : list nat) : Result (list EnforcementAction) :=
  match pages with
  | [] => Ok []
  | page :: pages' =>
      soup ← fetch_page (listing_get page);
      match soup with
      | None => Ok []
      | Some soup =>
          match release_anchors soup with
          | [] => Ok []
          | releases =>
              actions ← page_actions page 0 releases;
              more ← litigation_pages pages';
              Ok (actions ++ more)
          end
      end
  end.

Definition scrape_litigation_releases (max_pages : Z) : Result (list EnforcementAction) :=
  litigation_pages (seq 0 (Z.to_nat max_pages)).

(** The listing page [page] ends the scrape: it could not be fetched, or it
    holds no release link. *)
Definition last_page (page : nat) : Prop :=
  fetch_page (listing_get page) = Ok None
  \/ exists soup, fetch_page (listing_get page) = Ok (Some soup)
                  /\ release_anchors soup = [].

End LitigationReleases.

(** What holds of every action of the litigation scraper. *)
Definition litigation_action_ok (a : EnforcementAction) : Prop :=
  source a = "SEC"
  /\ action_type a = "litigation_release"
  /\ NoDup (violations a)
  /\ (summary a = None <-> raw_text a = None)
  /\ (forall s, summary a = Some s -> (String.length s <= 503)%nat).

(** [counts[k] = counts.get(k, 0) + 1], the step of the counting loops of
    [generate_summary_report] (scraper.py, 611-619) and of
    [_create_summary_report] (scrap_st.py, 301-304). *)
Definition count_key (counts : gmap string Z) (k : string) : gmap string Z :=
  <[k := default 0 (counts !! k) + 1]> counts.

Definition tally (keys : list string) : gmap string Z :=
  fold_left count_key keys ∅.

(** [by_source], [by_type] and [violation_counts] of
    [generate_summary_report] (scraper.py, 607-619). *)
Definition by_source (actions : list EnforcementAction) : gmap string Z :=
  tally (source <$> actions).
Definition by_type (actions : list EnforcementAction) : gmap string Z :=
  tally (action_type <$> actions).
Definition violation_counts (actions : list EnforcementAction) : gmap string Z :=
  tally (concat (violations <$> actions)).

(** [all_keywords] of [_create_summary_report] (scrap_st.py, 301-304). *)
Definition all_keywords (results : list PageData) : gmap string Z :=
  tally (concat (pd_compliance_keywords_found <$> results)).

(** [sorted(l, key=key, reverse=True)]: descending keys, elements of equal
    key in their original order, which is what Python's stable sort
    returns. *)
Fixpoint insert_reverse {A} (key : A -> Z) (x : A) (l : list A) : list A :=
  match l with
  | [] => [x]
  | y :: l' => if key x <? key y then y :: insert_reverse key x l' else x :: y :: l'
  end.

Definition sorted_reverse {A} (key : A -> Z) (l : list A) : list A :=
  foldr (insert_reverse key) [] l.

(** What [save_results] (scrap_st.py, 260-288) writes, the crawl date left
    out: the JSON document and the lines of the URL list. *)
Record SavedResults : Type := {
  total_compliance_pages : Z;
  pages : list PageData;
  url_list : list string
}.

Definition save_results (compliance_urls : list PageData) : SavedResults :=
  let sorted_results := sorted_reverse pd_keyword_count compliance_urls in
  {| total_compliance_pages := Z.of_nat (length sorted_results);
     pages := sorted_results;
     url_list := pd_url <$> sorted_results |}.

(** [s] is made of lower-case hexadecimal digits. *)
Fixpoint is_hex (s : string) : bool :=
  match s with
  | EmptyString => true
  | String c s' =>
      let n := N_of_ascii c in
      ((48 <=? n) && (n <=? 57) || (97 <=? n) && (n <=? 102))%N && is_hex s'
  end.

(** Every character of [s] passes the test [p]; [s] is made of decimal
    digits, and of decimal digits and hyphens. *)
Fixpoint str_all (p : ascii -> bool) (s : string) : bool :=
  match s with
  | EmptyString => true
  | String c s' => p c && str_all p s'
  end.

Definition all_digits (s : string) : bool := str_all Regex.is_digit s.

Definition all_digits_or_hyphens (s : string) : bool :=
  str_all (fun c => Regex.is_char "-" c || Regex.is_digit c) s.

(** ** Vocabulary of the properties *)

(** [sub] occurs in [s]. *)
Definition substring_of (sub s : string) : Prop :=
  exists pre post, s = pre +:+ sub +:+ post.

(** The lower-case [term] occurs in [text] when case is ignored. *)
Definition occurs_ignoring_case (term text : string) : Prop :=
  exists mid, substring_of mid text /\ PyStr.lower mid = term.

(** At least [n] distinct elements of [taxonomy] satisfy [P]. *)
Definition at_least_distinct (n : nat) (taxonomy : list string)
    (P : string -> Prop) : Prop :=
  exists ts, NoDup ts /\ length ts = n /\ Forall (fun t => t ∈ taxonomy /\ P t) ts.

(** A term with its spaces turned into hyphens, and with its spaces removed. *)
Definition hyphenated (term : string) : string := PyStr.replace_char " "%char "-" term.
Definition concatenated (term : string) : string := PyStr.replace_char " "%char "" term.

(** Some term of the taxonomy occurs in the URL, hyphenated or concatenated,
    case being ignored. *)
Definition url_names_term (taxonomy : list string) (url : string) : Prop :=
  exists term, term ∈ taxonomy /\
    (occurs_ignoring_case (hyphenated term) url
     \/ occurs_ignoring_case (concatenated term) url).

(** The rule of the specification with body threshold [n]: a term in the URL,
    or at least [n] distinct terms in the body. *)
Definition relevance_rule (n : nat) (taxonomy : list string) (text url : string) : Prop :=
  url_names_term taxonomy url
  \/ at_least_distinct n taxonomy (fun term => occurs_ignoring_case term text).

(** Some character of [s] is a decimal digit. *)
Fixpoint has_digit (s : string) : bool :=
  match s with
  | EmptyString => false
  | String c s' => Regex.is_digit c || has_digit s'
  end.

(** The pages found are the ones [crawl] started from followed by pages of
    this run: each is flagged compliance-related and is the page of a URL
    fetched in this run, and there are no more of them than the page counter
    says. *)
Definition found_inv (found : list PageData) (st : CrawlState) : Prop :=
  exists new,
    compliance_urls st = found ++ new
    /\ Forall (fun pd => pd_is_compliance_related pd = true
                         /\ pd_url pd ∈ fetched st) new
    /\ Z.of_nat (length new) <= pages_crawled st.

(** ** Fixtures of the examples *)

(** URLs of the small web. *)
Definition url_a : string := "https://investor.vanguard.com/a".
Definition url_b : string := "https://investor.vanguard.com/b".
Definition url_gone : string := "https://investor.vanguard.com/gone".
Definition url_cached : string := "https://investor.vanguard.com/cached".
Definition url_pdf : string := "https://other.com/file.pdf".

(** A record of the SEC scraper at a given URL. *)
Definition action_at (u : string) : EnforcementAction :=
  {| source := "SEC";
     action_type := "litigation_release";
     release_number := None;
     title := "SEC v. Example";
     date := None;
     url := u;
     summary := None;
     violations := [];
     penalties := None;
     respondents := [];
     raw_text := None |}.

(** Two listing pages of litigation releases, the second out of reach, and
    how their anchors and the detail pages are read. *)
Definition demo_listing_get (page : nat) : Result Response :=
  match page with
  | O => demo_page "Litigation releases"
                   ["/litigation-releases/lr-26001"; "/litigation-releases/lr-26002"]
  | _ => Raise RequestException
  end.

Definition demo_release_anchors (soup : Soup) : list (string * string) :=
  (fun href => (href, "SEC v. Example Corp")) <$> soup_hrefs soup.

Definition demo_detail_page (soup : Soup) : DetailPage :=
  {| dp_content_text := Some (soup_text soup); dp_date_text := None |}.

(** A release page whose title holds no release number. *)
Definition demo_release_page : Response :=
  {| status_code := 200;
     content := {| soup_text := "The Commission today charged Example Corp.";
                   soup_title := Some "SEC Charges Example Corp";
                   soup_meta_description := None;
                   soup_hrefs := [] |} |}.


(** * Properties *)

(** ** Substrings *)

Lemma append_cons (x : ascii) (a b : string) :
  String x a +:+ b = String x (a +:+ b).
Proof. reflexivity. Qed.

Lemma append_nil_l (b : string) : "" +:+ b = b.
Proof. reflexivity. Qed.

Lemma append_assoc (a b c : string) : (a +:+ b) +:+ c = a +:+ b +:+ c.
Proof.
  induction a as [|x a IH]; [reflexivity|].
  rewrite !append_cons. now f_equal.
Qed.

Lemma append_nil_r (a : string) : a +:+ "" = a.
Proof.
  induction a as [|x a IH]; [reflexivity|].
  rewrite append_cons. now f_equal.
Qed.

Lemma startswith_spec (p s : string) :
  PyStr.startswith p s = true <-> exists post, s = p +:+ post.
Proof.
  revert s. induction p as [|a p IH]; intros s; simpl.
  - split; [intros _; now exists s | reflexivity].
  - destruct s as [|b s].
    + split; [discriminate | intros [post H]; rewrite append_cons in H; discriminate].
    + destruct (ascii_dec a b) as [->|Hne].
      * rewrite IH. split; intros [post H]; exists post;
          rewrite ?append_cons in *; congruence.
      * split; [discriminate | intros [post H]; rewrite append_cons in H; congruence].
Qed.

Lemma contains_spec (needle hay : string) :
  PyStr.contains needle hay = true <-> substring_of needle hay.
Proof.
  unfold substring_of. induction hay as [|c hay IH].
  - simpl. rewrite orb_false_r, startswith_spec. split.
    + intros [post H]. now exists "", post.
    + intros (pre & post & H). destruct pre; [now exists post |].
      rewrite append_cons in H. discriminate.
  - cbn [PyStr.contains]. rewrite orb_true_iff, startswith_spec, IH. split.
    + intros [[post H] | (pre & post & H)].
      * now exists "", post.
      * exists (String c pre), post. rewrite append_cons. now rewrite H.
    + intros (pre & post & H). destruct pre as [|x pre].
      * left. now exists post.
      * right. exists pre, post. rewrite append_cons in H. congruence.
Qed.

Lemma lower_append (a b : string) :
  PyStr.lower (a +:+ b) = PyStr.lower a +:+ PyStr.lower b.
Proof.
  induction a as [|x a IH]; [reflexivity|].
  rewrite append_cons. simpl. rewrite append_cons. now f_equal.
Qed.

Lemma lower_split (s a b : string) :
  PyStr.lower s = a +:+ b ->
  exists a' b', s = a' +:+ b' /\ PyStr.lower a' = a /\ PyStr.lower b' = b.
Proof.
  revert s. induction a as [|x a IH]; intros s H.
  - now exists "", s.
  - rewrite append_cons in H. destruct s as [|c s]; [discriminate|].
    simpl in H. injection H as Hx Hs.
    destruct (IH _ Hs) as (a' & b' & -> & Ha & Hb).
    exists (String c a'), b'. rewrite append_cons. simpl. now rewrite Hx, Ha.
Qed.

(** The test of the source, [keyword in text.lower()], is the occurrence of
    the keyword in the text up to case. *)
Lemma contains_lower_spec (term text : string) :
  PyStr.contains term (PyStr.lower text) = true <-> occurs_ignoring_case term text.
Proof.
  rewrite contains_spec. unfold occurs_ignoring_case, substring_of. split.
  - intros (pre & post & H).
    apply lower_split in H as (pre' & rest & -> & _ & H).
    apply lower_split in H as (mid & post' & -> & Hm & _).
    exists mid. split; [now exists pre', post' | exact Hm].
  - intros (mid & (pre & post & ->) & <-).
    exists (PyStr.lower pre), (PyStr.lower post).
    now rewrite !lower_append.
Qed.

Lemma any_spec {A} (f : A -> bool) (l : list A) :
  PyStr.any f l = true <-> exists x, x ∈ l /\ f x = true.
Proof.
  unfold PyStr.any. rewrite existsb_exists.
  split; intros (x & Hx & Hf); exists x; split; auto; now apply list_elem_of_In.
Qed.

(** Counting the members of a duplicate-free list that pass a test is
    counting distinct members. *)
Lemma count_at_least (n : nat) (f : string -> bool) (taxonomy : list string) :
  NoDup taxonomy ->
  (Z.of_nat n <= PyStr.count f taxonomy
   <-> at_least_distinct n taxonomy (fun t => f t = true)).
Proof.
  intros Hnd. unfold PyStr.count, at_least_distinct.
  set (hits := filter (fun x => f x = true) taxonomy).
  assert (Hhits : NoDup hits).
  { eapply sublist_NoDup; [exact Hnd | apply sublist_filter]. }
  split.
  - intros Hle. exists (take n hits). split; [|split].
    + eapply sublist_NoDup; [exact Hhits | apply sublist_take].
    + rewrite length_take. lia.
    + apply Forall_forall. intros t Ht.
      apply (elem_of_sublist _ hits) in Ht; [|apply sublist_take].
      apply list_elem_of_filter in Ht. tauto.
  - intros (ts & Hts & Hlen & Hall).
    assert (Hsub : ts ⊆+ hits).
    { apply NoDup_submseteq; [exact Hts|]. intros t Ht.
      rewrite Forall_forall in Hall. destruct (Hall t Ht) as [Hin Hf].
      apply list_elem_of_filter. tauto. }
    apply submseteq_length in Hsub. lia.
Qed.

Lemma COMPLIANCE_KEYWORDS_NoDup : NoDup COMPLIANCE_KEYWORDS.
Proof. apply (bool_decide_unpack _). vm_compute. exact I. Qed.

Lemma BASE_COMPLIANCE_KEYWORDS_NoDup : NoDup BASE_COMPLIANCE_KEYWORDS.
Proof. apply (bool_decide_unpack _). vm_compute. exact I. Qed.

(** ** The relevance rule (C1) *)

Lemma url_names_term_bool (taxonomy : list string) (url : string) :
  PyStr.any (url_keyword_hit (PyStr.lower url)) taxonomy = true
  <-> url_names_term taxonomy url.
Proof.
  rewrite any_spec. unfold url_names_term, url_keyword_hit, hyphenated, concatenated.
  split; intros (term & Hin & H); exists term; split; auto.
  - apply orb_true_iff in H. now rewrite <- !contains_lower_spec.
  - apply orb_true_iff. now rewrite !contains_lower_spec.
Qed.

Lemma body_terms_bool (n : nat) (taxonomy : list string) (text : string) :
  NoDup taxonomy ->
  (Z.of_nat n <= PyStr.count (fun keyword => PyStr.contains keyword (PyStr.lower text)) taxonomy
   <-> at_least_distinct n taxonomy (fun term => occurs_ignoring_case term text)).
Proof.
  intros Hnd. rewrite count_at_least by exact Hnd.
  unfold at_least_distinct.
  split; intros (ts & H1 & H2 & H3); exists ts; repeat split; auto;
    eapply Forall_impl; try exact H3; simpl; intros t [Hin Ht]; split; auto;
    now apply contains_lower_spec.
Qed.

Lemma is_compliance_related_rule (text url : string) :
  is_compliance_related text url = true
  <-> relevance_rule 3 COMPLIANCE_KEYWORDS text url.
Proof.
  unfold is_compliance_related, relevance_rule.
  rewrite <- url_names_term_bool.
  rewrite <- (body_terms_bool 3) by exact COMPLIANCE_KEYWORDS_NoDup.
  destruct (PyStr.any _ COMPLIANCE_KEYWORDS).
  - split; auto.
  - rewrite Z.leb_le. change (Z.of_nat 3) with 3. split; [auto | intros [H|H]; [discriminate|exact H]].
Qed.

Lemma base_is_compliance_related_rule (text : string) :
  base_is_compliance_related text = true
  <-> at_least_distinct 1 BASE_COMPLIANCE_KEYWORDS
        (fun term => occurs_ignoring_case term text).
Proof.
  rewrite <- (body_terms_bool 1) by exact BASE_COMPLIANCE_KEYWORDS_NoDup.
  unfold base_is_compliance_related.
  destruct text as [|c text]; simpl negb; cbv iota.
  - split; [discriminate|]. vm_compute. intros H. exfalso. now apply H.
  - set (t := PyStr.lower (String c text)).
    rewrite any_spec. unfold PyStr.count.
    set (hits := filter _ BASE_COMPLIANCE_KEYWORDS).
    split.
    + intros (kw & Hin & Hkw).
      assert (Hh : kw ∈ hits) by (apply list_elem_of_filter; tauto).
      destruct hits; [inversion Hh | simpl; lia].
    + intros Hlen. destruct hits as [|kw hits'] eqn:Hhits; [simpl in Hlen; lia|].
      assert (Hh : kw ∈ filter (fun x => PyStr.contains x t = true) BASE_COMPLIANCE_KEYWORDS).
      { fold hits. rewrite Hhits. left. }
      apply list_elem_of_filter in Hh. exists kw. tauto.
Qed.

(** C1, amended.  The classifier of the site crawler (scrap_st.py) returns
    true exactly when some taxonomy term occurs in the URL, hyphenated or
    concatenated, or at least 3 distinct taxonomy terms occur in the body,
    case being ignored in both; so a body with exactly 2 distinct terms and
    no URL match is rejected and a body with 3 distinct terms is accepted.
    The classifier of the regulator scrapers (scraper.py) takes no URL and
    returns true exactly when at least 1 term of its taxonomy occurs in the
    text. *)
Theorem C1_classifier_rules :
  (forall text url,
      is_compliance_related text url = true
      <-> relevance_rule 3 COMPLIANCE_KEYWORDS text url)
  /\ (forall text url,
         ~ url_names_term COMPLIANCE_KEYWORDS url ->
         at_least_distinct 2 COMPLIANCE_KEYWORDS
           (fun term => occurs_ignoring_case term text) ->
         ~ at_least_distinct 3 COMPLIANCE_KEYWORDS
             (fun term => occurs_ignoring_case term text) ->
         is_compliance_related text url = false)
  /\ (forall text url,
         at_least_distinct 3 COMPLIANCE_KEYWORDS
           (fun term => occurs_ignoring_case term text) ->
         is_compliance_related text url = true)
  /\ (forall text,
         base_is_compliance_related text = true
         <-> at_least_distinct 1 BASE_COMPLIANCE_KEYWORDS
               (fun term => occurs_ignoring_case term text)).
Proof.
  split; [exact is_compliance_related_rule|].
  split; [|split].
  - intros text url Hurl _ Hbody.
    destruct (is_compliance_related text url) eqn:E; [|reflexivity].
    apply is_compliance_related_rule in E. destruct E; contradiction.
  - intros text url H. apply is_compliance_related_rule. now right.
  - exact base_is_compliance_related_rule.
Qed.

(** C1 as stated fails on the classifier of scraper.py: the text "fraud"
    holds one term of its taxonomy, the URL none, and the page is accepted. *)
Lemma C1_counterexample_base_threshold :
  ~ (forall text url,
        base_is_compliance_related text = true
        <-> relevance_rule 3 BASE_COMPLIANCE_KEYWORDS text url).
Proof.
  intros H.
  destruct (H "fraud" "https://www.sec.gov/newsroom") as [Hrule _].
  destruct (Hrule eq_refl) as [Hurl | Hbody].
  - apply url_names_term_bool in Hurl. vm_compute in Hurl. discriminate.
  - apply (body_terms_bool 3) in Hbody; [|exact BASE_COMPLIANCE_KEYWORDS_NoDup].
    vm_compute in Hbody. now apply Hbody.
Qed.

(** ** The crawl loop *)

Section CrawlerProperties.

#[local] Set Warnings "-clear-no-such-hyp".

Variable base_url : string.
Variable urljoin : string -> string -> Result string.
Variable urlparse_netloc : string -> Result string.
Variable requests_get : nat -> string -> Result Response.
Variable list_of_set : gset string -> list string.
Variable max_pages : Z.

(** [list(set(links))] lists each member of the set once, in some order. *)
Hypothesis list_of_set_perm : forall s, list_of_set s ≡ₚ elements s.

Local Abbreviation normalize_url' := (normalize_url base_url urljoin).
Local Abbreviation should_crawl' := (should_crawl urlparse_netloc).
Local Abbreviation collect_links' := (collect_links base_url urljoin urlparse_netloc).
Local Abbreviation scrape_page' :=
  (scrape_page base_url urljoin urlparse_netloc requests_get list_of_set).
Local Abbreviation enqueue_links' := (enqueue_links urlparse_netloc).
Local Abbreviation crawl_body' :=
  (crawl_body base_url urljoin urlparse_netloc requests_get list_of_set).
Local Abbreviation loop_cond' := (loop_cond max_pages).
Local Abbreviation crawl_loop' :=
  (crawl_loop base_url urljoin urlparse_netloc requests_get list_of_set max_pages).
Local Abbreviation crawl_iter' :=
  (crawl_iter base_url urljoin urlparse_netloc requests_get list_of_set max_pages).
Local Abbreviation crawl' :=
  (crawl base_url urljoin urlparse_netloc requests_get list_of_set max_pages).
Local Abbreviation turn' :=
  (turn base_url urljoin urlparse_netloc requests_get list_of_set).
Local Abbreviation in_scope' := (in_scope urlparse_netloc).

Lemma bind_Ok {A B} (m : Result A) (k : A -> Result B) (b : B) :
  (m ≫= k) = Ok b -> exists a, m = Ok a /\ k a = Ok b.
Proof. destruct m as [a|e]; [eauto | discriminate]. Qed.

(** Whatever the body of [scrape_page] raises is caught. *)
Lemma scrape_page_returns (visited : gset string) (n : nat) (url : string) :
  exists r, scrape_page' visited n url = Ok r.
Proof.
  unfold scrape_page, try_except.
  match goal with |- context [match ?b with Ok _ => _ | Raise _ => _ end] =>
    destruct b as [r|e] end; simpl; eauto.
Qed.

Lemma should_crawl_true_inv (visited : gset string) (url : string) :
  should_crawl' visited url = Ok true ->
  (url ∉ visited) /\ in_scope' url.
Proof using Type.
  clear list_of_set_perm.
  unfold in_scope, should_crawl. intros H.
  destruct (negb (PyStr.truthy url)); [discriminate|].
  simpl in *. destruct (bool_decide (url ∈ visited)) eqn:Hv; [discriminate|].
  apply bool_decide_eq_false in Hv. split; [exact Hv|].
  rewrite bool_decide_eq_false_2 by set_solver. exact H.
Qed.

Lemma should_crawl_fresh (visited : gset string) (url : string) :
  in_scope' url -> url ∉ visited -> should_crawl' visited url = Ok true.
Proof using Type.
  clear list_of_set_perm.
  unfold in_scope, should_crawl. intros H Hv.
  destruct (negb (PyStr.truthy url)); [discriminate|].
  simpl in *. rewrite bool_decide_eq_false_2 in H by set_solver.
  rewrite bool_decide_eq_false_2 by exact Hv. exact H.
Qed.

Lemma collect_links_accepted (visited : gset string) (hrefs links links' : list string) :
  collect_links' visited hrefs links = Ok links' ->
  (forall l, l ∈ links -> should_crawl' visited l = Ok true) ->
  forall l, l ∈ links' -> should_crawl' visited l = Ok true.
Proof.
  revert links. induction hrefs as [|href hrefs IH]; intros links H Hacc; simpl in H.
  - injection H as <-. exact Hacc.
  - apply bind_Ok in H as (url & Hn & H).
    destruct (PyStr.truthy url); [|eauto].
    apply bind_Ok in H as (ok & Hs & H).
    apply (IH _ H). destruct ok; [|exact Hacc].
    intros l Hl. apply elem_of_app in Hl as [Hl|Hl]; [auto|].
    apply list_elem_of_singleton in Hl as ->. exact Hs.
Qed.

(** Every outbound link of a returned page was accepted by [should_crawl]
    under the visited set the page was scraped with. *)
Lemma scrape_page_links (visited : gset string) (n : nat) (url : string) (pd : PageData) :
  scrape_page' visited n url = Ok (Some pd) ->
  forall l, l ∈ pd_outbound_links pd -> should_crawl' visited l = Ok true.
Proof.
  unfold scrape_page, try_except. intros H.
  match type of H with context [match ?b with Ok _ => _ | Raise _ => _ end] =>
    destruct b as [r|e] eqn:Hb end; simpl in H; [|discriminate].
  injection H as ->.
  apply bind_Ok in Hb as (response & _ & Hb).
  apply bind_Ok in Hb as (? & _ & Hb).
  apply bind_Ok in Hb as (links & Hl & Hb).
  injection Hb as <-. simpl.
  unfold extract_links in Hl. apply bind_Ok in Hl as (ls & Hc & Hl).
  injection Hl as <-. intros l Hin.
  rewrite list_of_set_perm in Hin. apply elem_of_elements in Hin.
  apply elem_of_list_to_set in Hin.
  eapply collect_links_accepted; [exact Hc | | exact Hin].
  intros ? Hnil. inversion Hnil.
Qed.

Lemma enqueue_links_accepted (visited : gset string) (q links : list string) :
  (forall l, l ∈ links -> should_crawl' visited l = Ok true) ->
  enqueue_links' visited q links = Ok (q ++ links).
Proof.
  revert q. induction links as [|link links IH]; intros q Hacc; simpl.
  - now rewrite app_nil_r.
  - assert (Hl : should_crawl' visited link = Ok true) by (apply Hacc; left).
    destruct (should_crawl_true_inv _ _ Hl) as [Hv _].
    rewrite bool_decide_eq_false_2 by exact Hv. simpl.
    rewrite Hl. simpl. rewrite IH.
    + now rewrite <- app_assoc.
    + intros l Hin. apply Hacc. now right.
Qed.

(** The body of the loop never raises on a non-empty queue, and what it does
    is one of the three turns. *)
Lemma crawl_body_turn (st : CrawlState) :
  queue st <> [] ->
  exists st', crawl_body' st = Ok st' /\ turn' st st'.
Proof.
  intros Hq. unfold crawl_body.
  destruct (queue st) as [|url rest] eqn:Eq; [congruence|].
  destruct (bool_decide (url ∈ visited_urls st)) eqn:Hv.
  - apply bool_decide_eq_true in Hv. eexists. split; [reflexivity|].
    eapply turn_skip; eauto.
  - apply bool_decide_eq_false in Hv.
    destruct (scrape_page_returns ({[url]} ∪ visited_urls st)
                (length (fetch_log st)) url) as [[pd|] Hs]; rewrite Hs; simpl.
    + pose proof (scrape_page_links _ _ _ _ Hs) as Hlinks.
      rewrite (enqueue_links_accepted _ _ _ Hlinks). simpl.
      eexists. split; [reflexivity|]. eapply turn_page; eauto.
    + eexists. split; [reflexivity|]. eapply turn_failure; eauto.
Qed.

Lemma loop_cond_true (st : CrawlState) :
  loop_cond' st = true <-> queue st <> [] /\ pages_crawled st < max_pages.
Proof.
  unfold loop_cond. destruct (queue st).
  - split; [discriminate | intros [H _]; congruence].
  - rewrite Z.ltb_lt. split; [intros H; split; [discriminate|exact H] | tauto].
Qed.

Lemma loop_cond_false (st : CrawlState) :
  loop_cond' st = false <-> queue st = [] \/ max_pages <= pages_crawled st.
Proof.
  unfold loop_cond. destruct (queue st).
  - split; auto.
  - rewrite Z.ltb_ge. split; [auto | intros [H|H]; [discriminate|exact H]].
Qed.

Lemma crawl_body_inv (st st' : CrawlState) :
  loop_cond' st = true -> crawl_body' st = Ok st' -> turn' st st'.
Proof.
  intros Hc Hb. apply loop_cond_true in Hc as [Hq _].
  destruct (crawl_body_turn st Hq) as (st'' & Hb' & Ht). congruence.
Qed.

Lemma crawl_loop_while (st : CrawlState) :
  crawl_loop' st =
  if loop_cond' st then st' ← crawl_body' st; crawl_loop' st' else Ok st.
Proof.
  funelim (crawl_loop' st).
  - now rewrite e.
  - rewrite Hcond, Hbody. simpl. congruence.
  - rewrite Hcond, e1. reflexivity.
Qed.

(** The loop is left, and left normally. *)
Lemma crawl_loop_returns (st : CrawlState) :
  exists st', crawl_loop' st = Ok st'.
Proof.
  funelim (crawl_loop' st).
  - eauto.
  - destruct H as [st'' H]. exists st''. congruence.
  - destruct (proj1 (loop_cond_true st) Hcond) as [Hq _].
    destruct (crawl_body_turn st Hq) as (st' & Hb & _). congruence.
Qed.

(** Loop invariants: what holds on entry and is kept by every turn holds on
    exit, where the loop condition is false. *)
Lemma crawl_loop_invariant (Inv : CrawlState -> Prop) :
  (forall st st', loop_cond' st = true -> Inv st -> turn' st st' -> Inv st') ->
  forall st st', Inv st -> crawl_loop' st = Ok st' ->
                 Inv st' /\ loop_cond' st' = false.
Proof.
  intros Hstep st. funelim (crawl_loop' st); intros st1 Hinv Hrun.
  - injection Hrun as <-. auto.
  - apply (H Inv Hstep); [|exact Hrun].
    eapply Hstep; eauto. now apply crawl_body_inv.
  - discriminate.
Qed.

Local Abbreviation count_inv' := (count_inv max_pages).
Local Abbreviation scope_inv' := (scope_inv urlparse_netloc).

(** Running the loop with fuel: if [n] turns reach a state where the
    condition fails, that state is the result of the loop. *)
Lemma crawl_iter_loop (n : nat) (st st' : CrawlState) :
  crawl_iter' n st = Ok st' -> loop_cond' st' = false -> crawl_loop' st = Ok st'.
Proof.
  revert st. induction n as [|n IH]; simpl; intros st H Hc.
  - injection H as ->. now rewrite crawl_loop_while, Hc.
  - rewrite crawl_loop_while. destruct (loop_cond' st) eqn:E.
    + apply bind_Ok in H as (st1 & Hb & H). rewrite Hb. simpl. auto.
    + exact H.
Qed.


Lemma turn_visited_mono (st st' : CrawlState) :
  turn' st st' -> visited_urls st ⊆ visited_urls st'.
Proof. intros []; simpl; set_solver. Qed.

Lemma log_inv_turn (visited0 : gset string) (st st' : CrawlState) :
  log_inv visited0 st -> turn' st st' -> log_inv visited0 st'.
Proof.
  unfold log_inv, fetched. intros (Hnd & Hv & Hall) Ht.
  destruct Ht as [url rest Hq Hin | url rest Hq Hin Hs | url rest pd Hq Hin Hs Hl];
    simpl; [auto | |].
  all: rewrite fmap_app; simpl; split; [|split].
  all: try (apply NoDup_app; split; [exact Hnd|]; split;
            [intros x Hx Hx'; apply list_elem_of_singleton in Hx' as ->;
             apply Hin; rewrite Hv; set_solver
            | apply NoDup_singleton]).
  all: try (rewrite Hv; set_solver).
  all: apply Forall_app; split; [exact Hall|];
    apply Forall_singleton; simpl; split; [set_solver|];
    intros Hx; apply Hin; rewrite Hv; set_solver.
Qed.

Lemma pages_returned_snoc (st : CrawlState) (log : list FetchEvent) (e : FetchEvent) :
  Z.of_nat (length (filter (fun e => ev_page e = true) (log ++ [e])))
  = Z.of_nat (length (filter (fun e => ev_page e = true) log))
    + (if ev_page e then 1 else 0).
Proof.
  rewrite filter_app, length_app.
  destruct (ev_page e) eqn:E.
  - rewrite filter_cons_True by exact E. simpl. lia.
  - rewrite filter_cons_False by (rewrite E; discriminate). simpl. lia.
Qed.

Lemma count_inv_turn (st st' : CrawlState) :
  loop_cond' st = true -> count_inv' st -> turn' st st' -> count_inv' st'.
Proof.
  unfold count_inv, pages_returned. intros Hc [Hp Hb] Ht.
  apply loop_cond_true in Hc as [_ Hlt].
  destruct Ht; simpl; [auto | |].
  all: rewrite (pages_returned_snoc st); simpl; lia.
Qed.

Lemma scope_inv_turn (start_urls : list string) (st st' : CrawlState) :
  scope_inv' start_urls st -> turn' st st' -> scope_inv' start_urls st'.
Proof.
  unfold scope_inv, fetched. intros [Hq Hf] Ht.
  destruct Ht as [url rest E Hin | url rest E Hin Hs | url rest pd E Hin Hs Hl];
    simpl; rewrite E in Hq.
  - split; [|exact Hf]. intros u Hu. apply Hq. now right.
  - split; [intros u Hu; apply Hq; now right|].
    rewrite fmap_app. intros u Hu. apply elem_of_app in Hu as [Hu|Hu]; [auto|].
    apply list_elem_of_singleton in Hu as ->. apply Hq. left.
  - split.
    + intros u Hu. apply elem_of_app in Hu as [Hu|Hu]; [apply Hq; now right|].
      right. exact (proj2 (should_crawl_true_inv _ _ (Hl u Hu))).
    + rewrite fmap_app. intros u Hu. apply elem_of_app in Hu as [Hu|Hu]; [auto|].
      apply list_elem_of_singleton in Hu as ->. apply Hq. left.
Qed.

Lemma start_inv_turn (start_urls : list string) (st st' : CrawlState) :
  start_inv start_urls st -> turn' st st' -> start_inv start_urls st'.
Proof.
  unfold start_inv. intros Hinv Ht u Hu.
  destruct (Hinv u Hu) as [Hq|Hv].
  - destruct Ht as [url rest E Hin | url rest E Hin Hs | url rest pd E Hin Hs Hl];
      simpl; rewrite E in Hq; apply elem_of_cons in Hq as [->|Hq];
      try (now left); try (right; set_solver).
    left. apply elem_of_app. now left.
  - right. now apply (turn_visited_mono _ _ Ht).
Qed.

(** The invariants together, at the exit of [crawl]. *)
Lemma crawl_exit (visited : gset string) (found : list PageData)
    (start_urls : list string) :
  exists st', crawl' visited found start_urls = Ok st'
    /\ loop_cond' st' = false
    /\ log_inv visited st'
    /\ count_inv' st'
    /\ scope_inv' start_urls st'
    /\ start_inv start_urls st'.
Proof.
  unfold crawl. fold (initial_state visited found start_urls).
  set (st0 := initial_state visited found start_urls).
  destruct (crawl_loop_returns st0) as [st' Hrun].
  exists st'. split; [exact Hrun|].
  pose (Inv := fun st => log_inv visited st /\ count_inv' st
                         /\ scope_inv' start_urls st /\ start_inv start_urls st).
  destruct (crawl_loop_invariant Inv) with (st := st0) (st' := st')
    as [(H1 & H2 & H3 & H4) Hc]; auto.
  - intros st st1 Hcond (H1 & H2 & H3 & H4) Ht. split; [|split; [|split]].
    + eapply log_inv_turn; eauto.
    + eapply count_inv_turn; eauto.
    + eapply scope_inv_turn; eauto.
    + eapply start_inv_turn; eauto.
  - unfold Inv, log_inv, count_inv, scope_inv, start_inv, fetched, pages_returned.
    subst st0. simpl. repeat split; try constructor; try set_solver; try lia.
Qed.




Lemma fetch_page_failure (get : Result Response) :
  (exists e, get = Raise e /\ is_RequestException e = true)
  \/ (exists r, get = Ok r /\ 400 <= status_code r < 600) ->
  fetch_page get = Ok None.
Proof.
  unfold fetch_page, try_except.
  intros [(e & -> & He) | (r & -> & Hr)]; simpl.
  - now rewrite He.
  - unfold raise_for_status.
    replace ((400 <=? status_code r) && (status_code r <? 600)) with true; [reflexivity|].
    symmetry. apply andb_true_iff. split; [apply Z.leb_le | apply Z.ltb_lt]; lia.
Qed.

Lemma scrape_page_failure (visited : gset string) (n : nat) (url : string) :
  (exists e, requests_get n url = Raise e)
  \/ (exists r, requests_get n url = Ok r /\ 400 <= status_code r < 600) ->
  scrape_page' visited n url = Ok None.
Proof.
  unfold scrape_page, try_except.
  intros [(e & ->) | (r & -> & Hr)]; simpl; [reflexivity|].
  unfold raise_for_status.
  replace ((400 <=? status_code r) && (status_code r <? 600)) with true; [reflexivity|].
  symmetry. apply andb_true_iff. split; [apply Z.leb_le | apply Z.ltb_lt]; lia.
Qed.

Lemma crawl_body_failure (st : CrawlState) (url : string) (rest : list string) :
  queue st = url :: rest ->
  url ∉ visited_urls st ->
  scrape_page' ({[url]} ∪ visited_urls st) (length (fetch_log st)) url = Ok None ->
  crawl_body' st = Ok (after_failure st url rest).
Proof.
  intros Hq Hv Hs. unfold crawl_body. rewrite Hq.
  rewrite bool_decide_eq_false_2 by exact Hv. rewrite Hs. reflexivity.
Qed.

(** C6, amended.  When the HTTP exchange raises a request exception or
    answers with a status from 400 to 599, [fetch_page] and [scrape_page]
    return [None] and raise nothing ([scrape_page] does so for any
    exception).  In the crawl loop a fetch that returns [None] ends the turn
    with the rest of the queue, the URL visited and one more entry in the
    log; [crawl] itself always returns, every URL whose fetch returned
    nothing is in the final visited set, and no URL is fetched twice. *)
Theorem C6_fetch_failures_are_contained :
  (forall get,
      (exists e, get = Raise e /\ is_RequestException e = true)
      \/ (exists r, get = Ok r /\ 400 <= status_code r < 600) ->
      fetch_page get = Ok None)
  /\ (forall visited n url,
         (exists e, requests_get n url = Raise e)
         \/ (exists r, requests_get n url = Ok r /\ 400 <= status_code r < 600) ->
         scrape_page' visited n url = Ok None)
  /\ (forall st url rest,
         queue st = url :: rest ->
         url ∉ visited_urls st ->
         scrape_page' ({[url]} ∪ visited_urls st) (length (fetch_log st)) url = Ok None ->
         crawl_body' st = Ok (after_failure st url rest))
  /\ (forall visited found start_urls,
         exists st', crawl' visited found start_urls = Ok st'
           /\ NoDup (fetched st')
           /\ (forall e, e ∈ fetch_log st' -> ev_page e = false ->
                         ev_url e ∈ visited_urls st')).
Proof.
  split; [exact fetch_page_failure|].
  split; [exact scrape_page_failure|].
  split; [exact crawl_body_failure|].
  intros visited found start_urls.
  destruct (crawl_exit visited found start_urls)
    as (st' & Hrun & _ & (Hnd & Hv & _) & _).
  exists st'. split; [exact Hrun|]. split; [exact Hnd|].
  intros e He _. rewrite Hv. apply elem_of_union_r, elem_of_list_to_set.
  unfold fetched. apply list_elem_of_fmap. now exists e.
Qed.


End CrawlerProperties.

(** ** Runs on the small web *)

Lemma demo_list_of_set_perm (s : gset string) : demo_list_of_set s ≡ₚ elements s.
Proof. reflexivity. Qed.

(** A run with fuel that ends where the loop condition fails is the run of
    [crawl]. *)
Lemma demo_run (max_pages : Z) (n : nat) (start_urls : list string) (st' : CrawlState) :
  demo_iter max_pages n start_urls = Ok st' ->
  loop_cond max_pages st' = false ->
  demo_crawl max_pages start_urls = Ok st'.
Proof. intros Hi Hc. unfold demo_crawl, crawl. eapply crawl_iter_loop; eauto. Qed.

(** The scenario of the specification: one start page with an in-scope link,
    an out-of-scope link and three keywords; two pages are fetched, the
    start page is kept. *)
Example demo_end_to_end :
  exists st', demo_crawl 10 [url_a] = Ok st'
    /\ fetched st' = [url_a; url_b]
    /\ pages_crawled st' = 2
    /\ pd_url <$> compliance_urls st' = [url_a]
    /\ pd_keyword_count <$> compliance_urls st' = [3].
Proof.
  eexists. split.
  - apply (demo_run 10 5); vm_compute; reflexivity.
  - vm_compute. repeat split; reflexivity.
Qed.






Lemma C6_witness :
  (forall s, demo_list_of_set s ≡ₚ elements s)
  /\ fetch_page (Ok {| status_code := 404; content := empty_soup |}) = Ok None
  /\ scrape_page demo_base_url demo_urljoin demo_netloc demo_get demo_list_of_set
       {[url_gone]} 0 url_gone = Ok None
  /\ exists st',
       crawl demo_base_url demo_urljoin demo_netloc demo_get demo_list_of_set 10
             ∅ [] [url_gone; url_a] = Ok st'
       /\ NoDup (fetched st')
       /\ (forall e, e ∈ fetch_log st' -> ev_page e = false ->
                     ev_url e ∈ visited_urls st').
Proof.
  pose proof (C6_fetch_failures_are_contained
                demo_base_url demo_urljoin demo_netloc demo_get demo_list_of_set 10
                demo_list_of_set_perm) as (Hfetch & Hscrape & _ & Hcrawl).
  split; [exact demo_list_of_set_perm|].
  split; [|split].
  - apply Hfetch. right. eexists. split; [reflexivity|]. simpl. lia.
  - apply Hscrape. right. eexists. split; [reflexivity|]. simpl. lia.
  - apply Hcrawl.
Defined.

(** C6 as stated fails on a status outside 200-299 that is not an error for
    [raise_for_status]: a page answered with status 304 is returned as a page
    by both fetchers. *)
Lemma C6_counterexample_status_304 :
  fetch_page (Ok {| status_code := 304; content := empty_soup |})
  = Ok (Some empty_soup)
  /\ exists pd,
       scrape_page demo_base_url demo_urljoin demo_netloc demo_get demo_list_of_set
         {[url_cached]} 0 url_cached = Ok (Some pd)
       /\ pd_url pd = url_cached.
Proof.
  split; [reflexivity|].
  eexists. split; [vm_compute; reflexivity | reflexivity].
Qed.


(** A start URL on a foreign host and with a skipped extension is rejected by
    [should_crawl] and fetched all the same; the links of its page go through
    the filter. *)
Example demo_out_of_scope_start_is_fetched :
  should_crawl demo_netloc ∅ url_pdf = Ok false
  /\ exists st', demo_crawl 10 [url_pdf] = Ok st'
       /\ fetched st' = [url_pdf; url_a; url_b].
Proof.
  split; [vm_compute; reflexivity|].
  eexists. split.
  - apply (demo_run 10 6); vm_compute; reflexivity.
  - vm_compute. reflexivity.
Qed.

(** ** Normalisation and the scope filter (C7) *)

Lemma contains_char_cons (c x : ascii) (s : string) :
  PyStr.contains (String c "") (String x s)
  = (if ascii_dec c x then true else false) || PyStr.contains (String c "") s.
Proof. cbn [PyStr.contains PyStr.startswith]. now destruct (ascii_dec c x). Qed.

Lemma before_char_clean (c : ascii) (s : string) :
  PyStr.contains (String c "") (PyStr.before_char c s) = false.
Proof.
  induction s as [|x s IH]; [reflexivity|]. simpl.
  destruct (ascii_dec x c) as [->|Hne]; [reflexivity|].
  rewrite contains_char_cons, IH.
  destruct (ascii_dec c x); [congruence | reflexivity].
Qed.

Lemma before_char_id (c : ascii) (s : string) :
  PyStr.contains (String c "") s = false -> PyStr.before_char c s = s.
Proof.
  induction s as [|x s IH]; [reflexivity|].
  rewrite contains_char_cons. intros H. apply orb_false_iff in H as [Hx Hs].
  simpl. destruct (ascii_dec x c) as [->|Hne].
  - destruct (ascii_dec c c); [discriminate | congruence].
  - now rewrite IH.
Qed.

Section NormalizeProperties.

Variable base_url : string.
Variable urljoin : string -> string -> Result string.
Variable urlparse_netloc : string -> Result string.

(** What is used of [urllib.parse.urljoin]: joining [self.base_url] with a
    reference that starts with a slash and has no fragment gives a URL that
    starts with http and has no fragment.  For an http or https base URL
    the library takes the scheme of the result from the base and its fragment
    from the reference. *)
Hypothesis urljoin_absolute :
  forall ref r,
    PyStr.startswith "/" ref = true ->
    PyStr.contains "#" ref = false ->
    urljoin base_url ref = Ok r ->
    PyStr.startswith "http" r = true /\ PyStr.contains "#" r = false.

Local Abbreviation normalize_url' := (normalize_url base_url urljoin).
Local Abbreviation should_crawl' := (should_crawl urlparse_netloc).

Lemma normalize_url_fixed (r : string) :
  PyStr.startswith "http" r = true ->
  PyStr.contains "#" r = false ->
  normalize_url' r = Ok r.
Proof.
  intros Hh Hc. unfold normalize_url.
  destruct r as [|x r]; [discriminate|]. cbn [PyStr.truthy negb].
  rewrite (before_char_id "#"%char _ Hc). now rewrite Hh.
Qed.

Lemma normalize_url_join (ref : string) :
  PyStr.startswith "/" ref = true ->
  PyStr.contains "#" ref = false ->
  (urljoin base_url ref ≫= normalize_url') = urljoin base_url ref.
Proof.
  intros Hs Hc. destruct (urljoin base_url ref) as [r|e] eqn:E; [|reflexivity].
  simpl. destruct (urljoin_absolute ref r Hs Hc E) as [H1 H2].
  now apply normalize_url_fixed.
Qed.

Lemma normalize_url_idempotent (link : string) :
  (normalize_url' link ≫= normalize_url') = normalize_url' link.
Proof.
  unfold normalize_url at 2 3.
  destruct (negb (PyStr.truthy link)); [reflexivity|].
  pose proof (before_char_clean "#"%char link) as Hc.
  set (u := PyStr.before_char "#"%char link) in *.
  destruct (PyStr.startswith "http" u) eqn:Hh.
  - simpl. now apply normalize_url_fixed.
  - destruct (PyStr.startswith "/" u) eqn:Hs.
    + now apply normalize_url_join.
    + apply normalize_url_join; [reflexivity|].
      change ("/" +:+ u) with (String "/"%char u).
      rewrite contains_char_cons, Hc. reflexivity.
Qed.

Lemma should_crawl_again (v1 v2 : gset string) (url : string) :
  should_crawl' v1 url = Ok true -> url ∉ v2 -> should_crawl' v2 url = Ok true.
Proof.
  intros H Hv. destruct (should_crawl_true_inv _ _ _ H) as [_ Hs].
  now apply should_crawl_fresh.
Qed.

(** C7.  Normalising twice is normalising once, an exception of the first
    call included; so the scope filter gives the same answer on the link
    normalised once and twice; and a URL the filter accepted is accepted
    again as long as it is not visited. *)
Theorem C7_normalization_and_scope_idempotent :
  (forall link,
      (normalize_url base_url urljoin link ≫= normalize_url base_url urljoin)
      = normalize_url base_url urljoin link)
  /\ (forall visited link,
         ((normalize_url base_url urljoin link ≫= normalize_url base_url urljoin)
          ≫= should_crawl urlparse_netloc visited)
         = (normalize_url base_url urljoin link ≫= should_crawl urlparse_netloc visited))
  /\ (forall v1 v2 url,
         should_crawl urlparse_netloc v1 url = Ok true -> url ∉ v2 ->
         should_crawl urlparse_netloc v2 url = Ok true).
Proof.
  split; [exact normalize_url_idempotent|].
  split; [|exact should_crawl_again].
  intros visited link. now rewrite normalize_url_idempotent.
Qed.

End NormalizeProperties.

Lemma demo_urljoin_absolute (ref r : string) :
  PyStr.startswith "/" ref = true ->
  PyStr.contains "#" ref = false ->
  demo_urljoin demo_base_url ref = Ok r ->
  PyStr.startswith "http" r = true /\ PyStr.contains "#" r = false.
Proof.
  intros _ Hc H. injection H as <-. split; [reflexivity|].
  unfold demo_base_url.
  repeat (rewrite append_cons, contains_char_cons; cbn [orb]).
  cbn. exact Hc.
Qed.

Lemma C7_witness :
  (forall ref r,
      PyStr.startswith "/" ref = true ->
      PyStr.contains "#" ref = false ->
      demo_urljoin demo_base_url ref = Ok r ->
      PyStr.startswith "http" r = true /\ PyStr.contains "#" r = false)
  /\ (normalize_url demo_base_url demo_urljoin "privacy/policy#top"
      ≫= normalize_url demo_base_url demo_urljoin)
     = normalize_url demo_base_url demo_urljoin "privacy/policy#top"
  /\ ((normalize_url demo_base_url demo_urljoin "privacy/policy#top"
       ≫= normalize_url demo_base_url demo_urljoin) ≫= should_crawl demo_netloc ∅)
     = (normalize_url demo_base_url demo_urljoin "privacy/policy#top"
        ≫= should_crawl demo_netloc ∅).
Proof.
  pose proof (C7_normalization_and_scope_idempotent
                demo_base_url demo_urljoin demo_netloc demo_urljoin_absolute)
    as (H1 & H2 & _).
  split; [exact demo_urljoin_absolute|].
  split; [apply H1 | apply H2].
Defined.

Example demo_normalize :
  normalize_url demo_base_url demo_urljoin "privacy/policy#top"
  = Ok "https://investor.vanguard.com/privacy/policy".
Proof. reflexivity. Qed.

(** ** Record identity and deduplication (C3) *)

(** Known answers of the MD5 implementation (RFC 1321, appendix A.5). *)
Example md5_known_answers :
  MD5.hexdigest (MD5.encode "") = "d41d8cd98f00b204e9800998ecf8427e"
  /\ MD5.hexdigest (MD5.encode "abc") = "900150983cd24fb0d6963f7d28e17f72"
  /\ MD5.hexdigest (MD5.encode "message digest") = "f96b697d7cb7938d525a2f31aaf161d0".
Proof. vm_compute. repeat split; reflexivity. Qed.

Lemma unique_id_source_url (a b : EnforcementAction) :
  source a = source b -> url a = url b -> unique_id a = unique_id b.
Proof. unfold unique_id. now intros -> ->. Qed.

Lemma dedup_loop_spec (all_actions unique_actions : list EnforcementAction)
    (seen_ids : gset string) :
  seen_ids = list_to_set (unique_id <$> unique_actions) ->
  NoDup (unique_id <$> unique_actions) ->
  let result := snd (dedup_loop seen_ids unique_actions all_actions) in
  NoDup (unique_id <$> result)
  /\ (forall a, a ∈ unique_actions ++ all_actions ->
                exists b, b ∈ result /\ unique_id b = unique_id a)
  /\ (forall b, b ∈ result -> b ∈ unique_actions ++ all_actions).
Proof.
  revert unique_actions seen_ids.
  induction all_actions as [|action rest IH]; intros unique_actions seen_ids Hs Hnd; simpl.
  - rewrite app_nil_r. repeat split; eauto.
  - destruct (bool_decide (unique_id action ∈ seen_ids)) eqn:Hin; simpl.
    + apply bool_decide_eq_true in Hin.
      destruct (IH unique_actions seen_ids Hs Hnd) as (H1 & H2 & H3).
      split; [exact H1|]. split.
      * intros a Ha. apply elem_of_app in Ha as [Ha|Ha].
        -- apply H2. apply elem_of_app. now left.
        -- apply elem_of_cons in Ha as [->|Ha].
           ++ rewrite Hs in Hin. apply elem_of_list_to_set in Hin.
              apply list_elem_of_fmap in Hin as (c & Hc & Hcin).
              destruct (H2 c) as (b & Hb & Hbc); [apply elem_of_app; now left|].
              exists b. split; [exact Hb | congruence].
           ++ apply H2. apply elem_of_app. now right.
      * intros b Hb. apply H3 in Hb. apply elem_of_app in Hb as [Hb|Hb];
          apply elem_of_app; [now left | right; now right].
    + apply bool_decide_eq_false in Hin.
      destruct (IH (unique_actions ++ [action]) ({[unique_id action]} ∪ seen_ids))
        as (H1 & H2 & H3).
      * rewrite Hs, fmap_app. simpl. set_solver.
      * rewrite fmap_app. simpl. apply NoDup_app. split; [exact Hnd|].
        split; [|apply NoDup_singleton].
        intros x Hx Hx'. apply list_elem_of_singleton in Hx' as ->.
        apply Hin. rewrite Hs. now apply elem_of_list_to_set.
      * rewrite <- app_assoc in H2, H3. simpl in H2, H3. auto.
Qed.

Lemma deduplicate_pair_same (a b : EnforcementAction) :
  unique_id a = unique_id b -> deduplicate [a; b] = [a].
Proof.
  intros H. unfold deduplicate. simpl.
  rewrite bool_decide_eq_false_2 by set_solver. simpl.
  rewrite bool_decide_eq_true_2 by (rewrite H; set_solver). reflexivity.
Qed.

(** C3, amended.  The identity of a record is a function of its source and
    of its URL string as stored: records that agree on both have the same
    identity, and of two such records the deduplication keeps the first.
    Deduplication leaves one record per identity and loses no identity.
    URLs are taken as they are; nothing removes a fragment. *)
Theorem C3_identity_of_source_and_stored_url :
  (forall a b, source a = source b -> url a = url b -> unique_id a = unique_id b)
  /\ (forall a b, unique_id a = unique_id b -> deduplicate [a; b] = [a])
  /\ (forall l,
         NoDup (unique_id <$> deduplicate l)
         /\ (forall a, a ∈ l -> exists b, b ∈ deduplicate l /\ unique_id b = unique_id a)
         /\ (forall b, b ∈ deduplicate l -> b ∈ l)).
Proof.
  split; [exact unique_id_source_url|].
  split; [exact deduplicate_pair_same|].
  intros l. unfold deduplicate.
  apply (dedup_loop_spec l [] ∅); [reflexivity | constructor].
Qed.

(** C3 as stated fails: two records of the same source whose URLs differ by
    a fragment only have different identities, and both are kept. *)
Lemma C3_counterexample_fragment_changes_identity :
  unique_id (action_at "https://www.sec.gov/page#x") = "1f86ecf9d4a8"
  /\ unique_id (action_at "https://www.sec.gov/page") = "263e48bf9120"
  /\ deduplicate [action_at "https://www.sec.gov/page#x";
                  action_at "https://www.sec.gov/page"]
     = [action_at "https://www.sec.gov/page#x"; action_at "https://www.sec.gov/page"].
Proof. vm_compute. repeat split; reflexivity. Qed.

(** ** Release numbers of the SEC extractors (C8) *)

Lemma has_digit_append (a b : string) :
  has_digit (a +:+ b) = has_digit a || has_digit b.
Proof.
  induction a as [|x a IH]; [reflexivity|].
  rewrite append_cons. simpl. now rewrite IH, orb_assoc.
Qed.

Lemma span_suffix_digit (p : ascii -> bool) (s a b : string) :
  Regex.span p s = (a, b) -> has_digit b = true -> has_digit s = true.
Proof.
  revert a b. induction s as [|c s IH]; intros a b H Hb; simpl in H.
  - injection H as <- <-. exact Hb.
  - destruct (p c).
    + destruct (Regex.span p s) as [a' b'] eqn:E. injection H as <- <-.
      simpl. rewrite (IH _ _ eq_refl Hb). apply orb_true_r.
    + injection H as <- <-. exact Hb.
Qed.

Lemma digits1_has_digit (s ds : string) :
  Regex.digits1 s = Some ds -> has_digit s = true.
Proof.
  unfold Regex.digits1. destruct s as [|c s]; simpl; [discriminate|].
  destruct (Regex.is_digit c); [reflexivity|discriminate].
Qed.

Lemma substring_has_digit (n m : nat) (s : string) :
  has_digit (String.substring n m s) = true -> has_digit s = true.
Proof.
  revert n m. induction s as [|c s IH]; intros n m H.
  - destruct n, m; simpl in H; discriminate.
  - destruct n as [|n].
    + destruct m as [|m]; simpl in H; [discriminate|].
      simpl. apply orb_true_iff in H as [H|H]; [now rewrite H|].
      rewrite (IH 0%nat m H). apply orb_true_r.
    + simpl in H. simpl. rewrite (IH n m H). apply orb_true_r.
Qed.

Lemma lr_number_at_has_digit (s g : string) :
  Regex.lr_number_at s = Some g -> has_digit s = true.
Proof.
  unfold Regex.lr_number_at.
  destruct s as [|l [|r rest]]; try discriminate.
  destruct (_ && _); [|discriminate].
  intros H. simpl. rewrite !orb_true_iff. right. right.
  destruct rest as [|c rest'].
  - simpl in H. discriminate.
  - destruct (Regex.is_char "-" c || Regex.is_char " " c).
    + destruct (Regex.digits1 rest') as [ds|] eqn:E.
      * simpl. rewrite (digits1_has_digit _ _ E). apply orb_true_r.
      * now apply digits1_has_digit in H.
    + now apply digits1_has_digit in H.
Qed.

Lemma release_no_at_has_digit (s g : string) :
  Regex.release_no_at s = Some g -> has_digit s = true.
Proof.
  unfold Regex.release_no_at.
  set (after := if PyStr.startswith "LR" s then _ else _).
  assert (Hafter : forall rest, after = Some rest -> has_digit rest = true ->
                                has_digit s = true).
  { subst after. intros rest.
    destruct (PyStr.startswith "LR" s);
      [|destruct (PyStr.startswith "Release No." s); [|discriminate]];
      intros H; injection H as <-; apply substring_has_digit. }
  destruct after as [rest|]; [|discriminate].
  destruct (Regex.span _ rest) as [skipped rest'] eqn:E.
  destruct rest' as [|d tail]; [discriminate|].
  destruct (Regex.is_digit d) eqn:Hd; [|discriminate].
  intros _. apply (Hafter rest eq_refl).
  apply (span_suffix_digit _ _ _ _ E). simpl. now rewrite Hd.
Qed.

Lemma search_none {A} (at_pos : string -> option A) (s : string) :
  has_digit s = false ->
  (forall t g, at_pos t = Some g -> has_digit t = true) ->
  Regex.search at_pos s = None.
Proof.
  intros Hs Hat. induction s as [|c s IH]; simpl.
  - destruct (at_pos "") as [g|] eqn:E; [|reflexivity].
    apply Hat in E. discriminate.
  - destruct (at_pos (String c s)) as [g|] eqn:E.
    + apply Hat in E. congruence.
    + apply IH. simpl in Hs. now apply orb_false_iff in Hs.
Qed.

(** Where the title and the href hold no digit, neither pattern finds a
    release number. *)
Lemma no_digit_no_release_number (title href : string) :
  has_digit title = false ->
  has_digit href = false ->
  Regex.search Regex.lr_number_at (title +:+ href) = None
  /\ Regex.search Regex.release_no_at title = None.
Proof.
  intros Ht Hh. split; apply search_none.
  - now rewrite has_digit_append, Ht, Hh.
  - exact lr_number_at_has_digit.
  - exact Ht.
  - exact release_no_at_has_digit.
Qed.

(** C8, amended.  Each extractor has its own fixed value for a release whose
    number its pattern does not find: the record of
    [scrape_litigation_releases] (scraper.py) carries [None], the dictionary
    of [_scrape_release_detail] (script.py) carries the string "Unknown".
    Both patterns fail, in particular, where title and href hold no digit. *)
Theorem C8_sentinel_per_extractor
    (list_of_set : gset string -> list string)
    (title href full_url : string) (detail_soup : option DetailPage)
    (response : Response) (title_text page_url release_type : string) :
  Regex.search Regex.lr_number_at (title +:+ href) = None ->
  Regex.search Regex.release_no_at title_text = None ->
  raise_for_status response = Ok tt ->
  soup_title (content response) = Some title_text ->
  litigation_release_value
    (litigation_action list_of_set title href full_url detail_soup) = None
  /\ exists d,
       scrape_release_detail (Ok response) page_url release_type = Ok (Some d)
       /\ detail_release_value d = Some "Unknown".
Proof.
  intros Hlr Hrel Hstatus Htitle. split.
  - unfold litigation_release_value, litigation_action, litigation_release_num.
    simpl. now rewrite Hlr.
  - unfold scrape_release_detail, try_except. simpl. rewrite Hstatus. simpl.
    eexists. split; [reflexivity|].
    unfold detail_release_value. simpl. rewrite Htitle. simpl.
    unfold detail_release_number. now rewrite Hrel.
Qed.

Lemma C8_witness :
  Regex.search Regex.lr_number_at
    ("SEC Charges Example Corp" +:+ "/litigation/litreleases/example-corp") = None
  /\ Regex.search Regex.release_no_at "SEC Charges Example Corp" = None
  /\ raise_for_status demo_release_page = Ok tt
  /\ soup_title (content demo_release_page) = Some "SEC Charges Example Corp"
  /\ litigation_release_value
       (litigation_action demo_list_of_set "SEC Charges Example Corp"
          "/litigation/litreleases/example-corp"
          "https://www.sec.gov/litigation/litreleases/example-corp" None) = None
  /\ exists d,
       scrape_release_detail (Ok demo_release_page)
         "https://www.sec.gov/litigation/litreleases/example-corp" "litigation"
       = Ok (Some d)
       /\ detail_release_value d = Some "Unknown".
Proof.
  split; [reflexivity|]. split; [reflexivity|].
  split; [reflexivity|]. split; [reflexivity|].
  apply (C8_sentinel_per_extractor demo_list_of_set
           "SEC Charges Example Corp" "/litigation/litreleases/example-corp"
           "https://www.sec.gov/litigation/litreleases/example-corp" None
           demo_release_page "SEC Charges Example Corp");
    reflexivity.
Defined.

(** C8 as stated fails: for one and the same release without a number, the
    extractor of scraper.py stores [None] and the extractor of script.py
    stores "Unknown". *)
Lemma C8_counterexample_two_sentinels :
  exists d,
    scrape_release_detail (Ok demo_release_page)
      "https://www.sec.gov/litigation/litreleases/example-corp" "litigation"
    = Ok (Some d)
    /\ litigation_release_value
         (litigation_action demo_list_of_set "SEC Charges Example Corp"
            "/litigation/litreleases/example-corp"
            "https://www.sec.gov/litigation/litreleases/example-corp" None)
       <> detail_release_value d.
Proof.
  eexists. split; [reflexivity|]. vm_compute. discriminate.
Qed.

(** ** The rate limiter (C9) *)

Section RateLimiterProperties.

Import RateLimiter.
Local Open Scope Q_scope.




End RateLimiterProperties.


(** Three calls at rate 2: the first does not sleep, the second, entered as
    the first returns, asks for 1/2, the third, entered 3 seconds later, does
    not sleep. *)
Example demo_waits :
  exists self obs,
    RateLimiter.init 2 = Ok self
    /\ RateLimiter.waits self 1000 [(0, 0); (0, 1 # 10); (3, 0)]%Q = Ok obs
    /\ Forall2 Qeq (RateLimiter.sleep_time <$> obs) [0; 1 # 2; 0]%Q.
Proof.
  do 2 eexists. split; [reflexivity|]. split; [vm_compute; reflexivity|].
  repeat constructor; vm_compute; reflexivity.
Qed.

(** * Further properties *)

(** ** More on the crawl loop *)

Section CrawlerFurther.

#[local] Set Warnings "-clear-no-such-hyp".

Variable base_url : string.
Variable urljoin : string -> string -> Result string.
Variable urlparse_netloc : string -> Result string.
Variable requests_get : nat -> string -> Result Response.
Variable list_of_set : gset string -> list string.
Variable max_pages : Z.

Hypothesis list_of_set_perm : forall s, list_of_set s ≡ₚ elements s.

Local Abbreviation should_crawl' := (should_crawl urlparse_netloc).
Local Abbreviation scrape_page' :=
  (scrape_page base_url urljoin urlparse_netloc requests_get list_of_set).
Local Abbreviation loop_cond' := (loop_cond max_pages).
Local Abbreviation crawl_loop' :=
  (crawl_loop base_url urljoin urlparse_netloc requests_get list_of_set max_pages).
Local Abbreviation crawl' :=
  (crawl base_url urljoin urlparse_netloc requests_get list_of_set max_pages).
Local Abbreviation turn' :=
  (turn base_url urljoin urlparse_netloc requests_get list_of_set).

(** With no page allowed or nothing to start from, [crawl] leaves its loop
    at once: it fetches nothing and changes nothing. *)
Theorem crawl_nothing_to_do
    (visited : gset string) (found : list PageData) (start_urls : list string) :
  max_pages <= 0 \/ start_urls = [] ->
  crawl base_url urljoin urlparse_netloc requests_get list_of_set max_pages
        visited found start_urls
  = Ok (initial_state visited found start_urls).
Proof using Type.
  clear list_of_set_perm.
  intros H. unfold crawl. fold (initial_state visited found start_urls).
  rewrite crawl_loop_while.
  replace (loop_cond' (initial_state visited found start_urls)) with false;
    [reflexivity|].
  symmetry. apply loop_cond_false. simpl. destruct H; [right; lia | now left].
Qed.

(** A second [crawl] over URLs that are all visited already fetches nothing:
    the visited set, the pages found and the counter stay as they were. *)
Theorem crawl_visited_start_urls_fetch_nothing
    (visited : gset string) (found : list PageData) (start_urls : list string) :
  (forall u, u ∈ start_urls -> u ∈ visited) ->
  exists st',
    crawl base_url urljoin urlparse_netloc requests_get list_of_set max_pages
          visited found start_urls = Ok st'
    /\ fetch_log st' = []
    /\ visited_urls st' = visited
    /\ compliance_urls st' = found
    /\ pages_crawled st' = 0.
Proof.
  intros Hstart. unfold crawl. fold (initial_state visited found start_urls).
  set (st0 := initial_state visited found start_urls).
  destruct (crawl_loop_returns base_url urljoin urlparse_netloc requests_get
              list_of_set max_pages list_of_set_perm st0) as [st' Hrun].
  exists st'. split; [exact Hrun|].
  pose (Inv := fun st =>
    (forall u, u ∈ queue st -> u ∈ visited) /\ fetch_log st = []
    /\ visited_urls st = visited /\ compliance_urls st = found
    /\ pages_crawled st = 0).
  destruct (crawl_loop_invariant base_url urljoin urlparse_netloc requests_get
              list_of_set max_pages list_of_set_perm Inv) with (st := st0) (st' := st')
    as [(_ & H1 & H2 & H3 & H4) _]; auto.
  - intros st st1 _ (Hq & H1 & H2 & H3 & H4) Ht.
    destruct Ht as [url rest E Hin | url rest E Hin Hs | url rest pd E Hin Hs Hl];
      rewrite E in Hq.
    + unfold Inv. simpl. repeat split; auto. intros u Hu. apply Hq. now right.
    + exfalso. apply Hin. rewrite H2. apply Hq. left.
    + exfalso. apply Hin. rewrite H2. apply Hq. left.
  - unfold Inv. subst st0. simpl. auto.
Qed.

Lemma scrape_page_url (visited : gset string) (n : nat) (url : string) (pd : PageData) :
  scrape_page' visited n url = Ok (Some pd) -> pd_url pd = url.
Proof using Type.
  clear list_of_set_perm.
  unfold scrape_page, try_except. intros H.
  match type of H with context [match ?b with Ok _ => _ | Raise _ => _ end] =>
    destruct b as [r|e] eqn:Hb end; simpl in H; [|discriminate].
  injection H as ->.
  apply bind_Ok in Hb as (response & _ & Hb).
  apply bind_Ok in Hb as (? & _ & Hb).
  apply bind_Ok in Hb as (links & Hl & Hb).
  now injection Hb as <-.
Qed.

Lemma found_inv_turn (found : list PageData) (st st' : CrawlState) :
  found_inv found st -> turn' st st' -> found_inv found st'.
Proof using Type.
  clear list_of_set_perm.
  unfold found_inv, fetched. intros (new & Hc & Hall & Hlen) Ht.
  destruct Ht as [url rest E Hin | url rest E Hin Hs | url rest pd E Hin Hs Hl];
    simpl.
  - exists new. auto.
  - exists new. repeat split; auto.
    eapply Forall_impl; [exact Hall|]. simpl. intros pd [H1 H2].
    split; [exact H1|]. rewrite fmap_app. apply elem_of_app. now left.
  - assert (Hall' : Forall (fun pd0 => pd_is_compliance_related pd0 = true
                     /\ pd_url pd0 ∈ (ev_url <$> fetch_log st ++
                          [{| ev_url := url; ev_visited := {[url]} ∪ visited_urls st;
                              ev_page := true |}])) new).
    { eapply Forall_impl; [exact Hall|]. simpl. intros pd0 [H1 H2].
      split; [exact H1|]. rewrite fmap_app. apply elem_of_app. now left. }
    destruct (pd_is_compliance_related pd) eqn:Hrel.
    + exists (new ++ [pd]). rewrite Hc, app_assoc. split; [reflexivity|].
      split.
      * apply Forall_app. split; [exact Hall'|]. apply Forall_singleton.
        split; [exact Hrel|]. rewrite fmap_app. apply elem_of_app. right.
        simpl. rewrite (scrape_page_url _ _ _ _ Hs). left.
      * rewrite length_app. simpl. lia.
    + exists new. repeat split; auto. lia.
Qed.

(** At the exit of [crawl] the visited set is the one it started from plus
    the URLs fetched, and the pages found are the ones it started from
    followed by pages of this run: each is flagged compliance-related, is
    the page of a URL fetched in this run, and there are no more of them
    than the page counter says. *)
Theorem crawl_visited_and_found
    (visited : gset string) (found : list PageData) (start_urls : list string) :
  exists st',
    crawl base_url urljoin urlparse_netloc requests_get list_of_set max_pages
          visited found start_urls = Ok st'
    /\ visited_urls st' = visited ∪ list_to_set (fetched st')
    /\ exists new,
         compliance_urls st' = found ++ new
         /\ Forall (fun pd => pd_is_compliance_related pd = true
                              /\ pd_url pd ∈ fetched st') new
         /\ Z.of_nat (length new) <= pages_crawled st'.
Proof.
  unfold crawl. fold (initial_state visited found start_urls).
  set (st0 := initial_state visited found start_urls).
  destruct (crawl_loop_returns base_url urljoin urlparse_netloc requests_get
              list_of_set max_pages list_of_set_perm st0) as [st' Hrun].
  exists st'. split; [exact Hrun|].
  pose (Inv := fun st => log_inv visited st /\ found_inv found st).
  destruct (crawl_loop_invariant base_url urljoin urlparse_netloc requests_get
              list_of_set max_pages list_of_set_perm Inv) with (st := st0) (st' := st')
    as [[(_ & Hv & _) Hf] _]; auto.
  - intros st st1 _ [H1 H2] Ht. split.
    + eapply log_inv_turn; eauto.
    + eapply found_inv_turn; eauto.
  - unfold Inv, log_inv, found_inv, fetched. subst st0. simpl. split.
    + repeat split; try constructor. set_solver.
    + exists []. rewrite app_nil_r. repeat split; [constructor | simpl; lia].
Qed.

End CrawlerFurther.

Lemma crawl_nothing_to_do_witness :
  (0 <= 0 \/ [url_a; url_b] = [])
  /\ crawl demo_base_url demo_urljoin demo_netloc demo_get demo_list_of_set 0
           ∅ [] [url_a; url_b]
     = Ok (initial_state ∅ [] [url_a; url_b]).
Proof.
  split; [left; lia|].
  apply (crawl_nothing_to_do demo_base_url demo_urljoin demo_netloc demo_get
           demo_list_of_set 0).
  left. lia.
Defined.

Lemma crawl_visited_start_urls_fetch_nothing_witness :
  (forall s, demo_list_of_set s ≡ₚ elements s)
  /\ (forall u, u ∈ [url_a; url_b; url_a] -> u ∈ ({[url_a; url_b]} : gset string))
  /\ exists st',
       crawl demo_base_url demo_urljoin demo_netloc demo_get demo_list_of_set 10
             {[url_a; url_b]} [] [url_a; url_b; url_a] = Ok st'
       /\ fetch_log st' = []
       /\ visited_urls st' = {[url_a; url_b]}
       /\ compliance_urls st' = []
       /\ pages_crawled st' = 0.
Proof.
  assert (H : forall u, u ∈ [url_a; url_b; url_a] -> u ∈ ({[url_a; url_b]} : gset string)).
  { intros u Hu. set_solver. }
  split; [exact demo_list_of_set_perm|]. split; [exact H|].
  apply (crawl_visited_start_urls_fetch_nothing
           demo_base_url demo_urljoin demo_netloc demo_get demo_list_of_set 10
           demo_list_of_set_perm {[url_a; url_b]} [] [url_a; url_b; url_a] H).
Defined.

Lemma crawl_visited_and_found_witness :
  (forall s, demo_list_of_set s ≡ₚ elements s)
  /\ exists st',
       crawl demo_base_url demo_urljoin demo_netloc demo_get demo_list_of_set 10
             {[url_b]} [] [url_gone; url_a; url_b] = Ok st'
       /\ visited_urls st' = {[url_b]} ∪ list_to_set (fetched st')
       /\ exists new,
            compliance_urls st' = [] ++ new
            /\ Forall (fun pd => pd_is_compliance_related pd = true
                                 /\ pd_url pd ∈ fetched st') new
            /\ Z.of_nat (length new) <= pages_crawled st'.
Proof.
  split; [exact demo_list_of_set_perm|].
  apply (crawl_visited_and_found
           demo_base_url demo_urljoin demo_netloc demo_get demo_list_of_set 10
           demo_list_of_set_perm).
Defined.

(** ** More on the scope filter and on [scrape_page] *)

Section ScrapeFurther.

#[local] Set Warnings "-clear-no-such-hyp".

Variable base_url : string.
Variable urljoin : string -> string -> Result string.
Variable urlparse_netloc : string -> Result string.
Variable requests_get : nat -> string -> Result Response.
Variable list_of_set : gset string -> list string.
Variable max_pages : Z.

Hypothesis list_of_set_perm : forall s, list_of_set s ≡ₚ elements s.

Lemma any_false {A} (f : A -> bool) (l : list A) :
  PyStr.any f l = false <-> forall x, x ∈ l -> f x = false.
Proof using Type.
  clear list_of_set_perm.
  unfold PyStr.any. induction l as [|y l IH]; simpl.
  - split; [intros _ x Hx; inversion Hx | reflexivity].
  - rewrite orb_false_iff, IH. split.
    + intros [Hy Hl] x Hx. apply elem_of_cons in Hx as [->|Hx]; auto.
    + intros H. split; [apply H; left | intros x Hx; apply H; now right].
Qed.

(** [should_crawl] accepts a URL exactly when it is not empty and not
    visited, [urlparse] gives it an authority that contains vanguard.com or
    vanguard.co.uk, and its lower-case form ends with none of the skipped
    extensions and contains none of the skipped patterns. *)
Theorem should_crawl_accepts (visited : gset string) (url : string) :
  should_crawl urlparse_netloc visited url = Ok true
  <-> url <> ""
      /\ (url ∉ visited)
      /\ (exists netloc,
             urlparse_netloc url = Ok netloc
             /\ (substring_of "vanguard.com" netloc
                 \/ substring_of "vanguard.co.uk" netloc))
      /\ (forall ext, ext ∈ skip_extensions ->
                      PyStr.endswith ext (PyStr.lower url) = false)
      /\ (forall pattern, pattern ∈ skip_patterns ->
                          ~ substring_of pattern (PyStr.lower url)).
Proof using Type.
  clear list_of_set_perm.
  unfold should_crawl.
  destruct url as [|c url]; cbn [PyStr.truthy negb orb].
  { split; [discriminate | intros [H _]; congruence]. }
  set (u := String c url).
  destruct (bool_decide (u ∈ visited)) eqn:Hv.
  { apply bool_decide_eq_true in Hv.
    split; [discriminate | intros (_ & H & _); contradiction]. }
  apply bool_decide_eq_false in Hv.
  destruct (urlparse_netloc u) as [netloc|e] eqn:Hn;
    unfold mbind, Result_bind; cbv beta iota.
  2:{ split; [discriminate | intros (_ & _ & (n & H & _) & _); discriminate]. }
  destruct (PyStr.any (fun domain => PyStr.contains domain netloc)
              ["vanguard.com"; "vanguard.co.uk"]) eqn:Hd; cbv beta iota delta [negb].
  2:{ split; [discriminate|]. intros (_ & _ & (n & H & Hdom) & _).
      injection H as <-. rewrite any_false in Hd.
      destruct Hdom as [Hdom|Hdom]; apply contains_spec in Hdom.
      - rewrite (Hd "vanguard.com") in Hdom; [discriminate | left].
      - rewrite (Hd "vanguard.co.uk") in Hdom; [discriminate | right; left]. }
  assert (Hdom : substring_of "vanguard.com" netloc
                 \/ substring_of "vanguard.co.uk" netloc).
  { apply any_spec in Hd as (d & Hin & Hc). apply contains_spec in Hc.
    apply elem_of_cons in Hin as [->|Hin]; [now left|].
    apply list_elem_of_singleton in Hin as ->. now right. }
  destruct (PyStr.any (fun ext => PyStr.endswith ext (PyStr.lower u)) skip_extensions)
    eqn:He.
  { split; [discriminate|]. intros (_ & _ & _ & Hext & _).
    apply any_spec in He as (ext & Hin & Hend). rewrite (Hext ext Hin) in Hend.
    discriminate. }
  destruct (PyStr.any (fun pattern => PyStr.contains pattern (PyStr.lower u)) skip_patterns)
    eqn:Hp.
  { split; [discriminate|]. intros (_ & _ & _ & _ & Hpat).
    apply any_spec in Hp as (pattern & Hin & Hc). apply contains_spec in Hc.
    now apply Hpat in Hc. }
  split; [|reflexivity]. intros _.
  split; [discriminate|]. split; [exact Hv|]. split; [eauto|].
  rewrite any_false in He, Hp. split; [exact He|].
  intros pattern Hin Hc. apply contains_spec in Hc. rewrite (Hp pattern Hin) in Hc.
  discriminate.
Qed.

(** The outbound links of a page returned by [scrape_page] are pairwise
    distinct, none of them is in the visited set the page was scraped with,
    so none is the page itself once the crawl loop has marked it, and each
    passes the scope filter. *)
Theorem scrape_page_outbound_links
    (visited : gset string) (n : nat) (url : string) (pd : PageData) :
  scrape_page base_url urljoin urlparse_netloc requests_get list_of_set
              visited n url = Ok (Some pd) ->
  pd_url pd = url
  /\ NoDup (pd_outbound_links pd)
  /\ (forall link, link ∈ pd_outbound_links pd ->
                   (link ∉ visited) /\ in_scope urlparse_netloc link)
  /\ (url ∈ visited -> url ∉ pd_outbound_links pd).
Proof.
  intros H.
  pose proof (scrape_page_links _ _ _ _ _ list_of_set_perm _ _ _ _ H) as Hlinks.
  assert (Hacc : forall link, link ∈ pd_outbound_links pd ->
                              (link ∉ visited) /\ in_scope urlparse_netloc link).
  { intros link Hin. apply should_crawl_true_inv. now apply Hlinks. }
  split; [|split; [|split; [exact Hacc|]]].
  - unfold scrape_page, try_except in H.
    match type of H with context [match ?b with Ok _ => _ | Raise _ => _ end] =>
      destruct b as [r|e] eqn:Hb end; simpl in H; [|discriminate].
    injection H as ->.
    apply bind_Ok in Hb as (response & _ & Hb).
    apply bind_Ok in Hb as (? & _ & Hb).
    apply bind_Ok in Hb as (links & Hl & Hb).
    now injection Hb as <-.
  - unfold scrape_page, try_except in H.
    match type of H with context [match ?b with Ok _ => _ | Raise _ => _ end] =>
      destruct b as [r|e] eqn:Hb end; simpl in H; [|discriminate].
    injection H as ->.
    apply bind_Ok in Hb as (response & _ & Hb).
    apply bind_Ok in Hb as (? & _ & Hb).
    apply bind_Ok in Hb as (links & Hl & Hb).
    injection Hb as <-. simpl.
    unfold extract_links in Hl. apply bind_Ok in Hl as (ls & _ & Hl).
    injection Hl as <-. rewrite list_of_set_perm. apply NoDup_elements.
  - intros Hv Hin. now destruct (Hacc url Hin).
Qed.

(** [scrape_page] returns [None] in exactly three cases: the request raises,
    the status is from 400 to 599, or the normalisation or the scope test of
    one of the anchors of the page raises.  One malformed link loses the
    page. *)
Theorem scrape_page_none_cases (visited : gset string) (n : nat) (url : string) :
  scrape_page base_url urljoin urlparse_netloc requests_get list_of_set
              visited n url = Ok None
  <-> (exists e, requests_get n url = Raise e)
      \/ (exists r, requests_get n url = Ok r
                    /\ (400 <= status_code r < 600
                        \/ exists e,
                             collect_links base_url urljoin urlparse_netloc visited
                               (soup_hrefs (content r)) [] = Raise e)).
Proof using Type.
  clear list_of_set_perm.
  unfold scrape_page, try_except, extract_links.
  destruct (requests_get n url) as [r|e]; simpl.
  2:{ split; [intros _; left; eauto | reflexivity]. }
  unfold raise_for_status.
  destruct ((400 <=? status_code r) && (status_code r <? 600)) eqn:Hs; simpl.
  { apply andb_true_iff in Hs as [H1 H2].
    apply Z.leb_le in H1. apply Z.ltb_lt in H2.
    split; [|reflexivity]. intros _. right. exists r. split; [reflexivity|].
    left. lia. }
  assert (Hok : ~ 400 <= status_code r < 600).
  { intros [H1 H2]. apply andb_false_iff in Hs as [Hs|Hs].
    - apply Z.leb_gt in Hs. lia.
    - apply Z.ltb_ge in Hs. lia. }
  destruct (collect_links base_url urljoin urlparse_netloc visited
              (soup_hrefs (content r)) []) as [links|e] eqn:Hc; simpl.
  - split; [discriminate|].
    intros [(e & H) | (r' & H & [Hst | (e & He)])]; try discriminate.
    + injection H as <-. contradiction.
    + injection H as <-. rewrite Hc in He. discriminate.
  - split; [|reflexivity]. intros _. right. exists r. split; [reflexivity|].
    right. eauto.
Qed.

(** An absolute http link is returned as it is, less its fragment, without
    [urljoin]; and, when [urljoin] keeps references free of fragments so,
    no URL returned by [normalize_url] has a fragment. *)
Theorem normalize_url_strips_fragment :
  (forall ref r,
      PyStr.startswith "/" ref = true ->
      PyStr.contains "#" ref = false ->
      urljoin base_url ref = Ok r ->
      PyStr.contains "#" r = false) ->
  (forall url,
      PyStr.startswith "http" url = true ->
      normalize_url base_url urljoin url = Ok (PyStr.before_char "#" url))
  /\ (forall url r,
         normalize_url base_url urljoin url = Ok r ->
         ~ substring_of "#" r).
Proof using Type.
  clear list_of_set_perm.
  intros Hjoin.
  assert (Hpre : forall c p url,
             PyStr.startswith p url = true ->
             PyStr.contains (String c "") p = false ->
             PyStr.startswith p (PyStr.before_char c url) = true).
  { intros c p. induction p as [|a p IH]; intros url H Hc; [reflexivity|].
    destruct url as [|b url]; [discriminate|]. cbn [PyStr.startswith] in H.
    destruct (ascii_dec a b) as [<-|]; [|discriminate].
    rewrite contains_char_cons in Hc. apply orb_false_iff in Hc as [Hne Hc].
    cbn [PyStr.before_char].
    destruct (ascii_dec a c) as [->|Hac].
    - destruct (ascii_dec c c); [discriminate | congruence].
    - cbn [PyStr.startswith]. destruct (ascii_dec a a); [|congruence]. auto. }
  assert (Hhttp : forall url, PyStr.startswith "http" url = true ->
                    PyStr.startswith "http" (PyStr.before_char "#" url) = true).
  { intros url H. now apply Hpre. }
  split.
  - intros url H. unfold normalize_url.
    destruct url as [|c url]; [discriminate|]. cbn [PyStr.truthy negb].
    now rewrite (Hhttp _ H).
  - intros url r H Hsub. apply contains_spec in Hsub.
    unfold normalize_url in H.
    destruct (negb (PyStr.truthy url)).
    { injection H as <-. discriminate. }
    pose proof (before_char_clean "#" url) as Hc.
    set (u := PyStr.before_char "#" url) in *.
    destruct (PyStr.startswith "http" u).
    { injection H as <-. congruence. }
    destruct (PyStr.startswith "/" u) eqn:Hs.
    + rewrite (Hjoin _ _ Hs Hc H) in Hsub. discriminate.
    + assert (Hc' : PyStr.contains "#" ("/" +:+ u) = false).
      { change ("/" +:+ u) with (String "/" u).
        rewrite contains_char_cons, Hc. reflexivity. }
      assert (Hs' : PyStr.startswith "/" ("/" +:+ u) = true) by reflexivity.
      rewrite (Hjoin _ _ Hs' Hc' H) in Hsub. discriminate.
Qed.

End ScrapeFurther.

Lemma scrape_page_outbound_links_witness :
  (forall s, demo_list_of_set s ≡ₚ elements s)
  /\ exists pd,
       scrape_page demo_base_url demo_urljoin demo_netloc demo_get demo_list_of_set
                   {[url_a]} 0 url_a = Ok (Some pd)
       /\ pd_outbound_links pd = [url_b]
       /\ pd_url pd = url_a
       /\ NoDup (pd_outbound_links pd)
       /\ (forall link, link ∈ pd_outbound_links pd ->
                        (link ∉ ({[url_a]} : gset string)) /\ in_scope demo_netloc link)
       /\ (url_a ∈ ({[url_a]} : gset string) -> url_a ∉ pd_outbound_links pd).
Proof.
  split; [exact demo_list_of_set_perm|].
  eexists. split; [vm_compute; reflexivity|]. split; [reflexivity|].
  apply (scrape_page_outbound_links
           demo_base_url demo_urljoin demo_netloc demo_get demo_list_of_set
           demo_list_of_set_perm {[url_a]} 0 url_a).
  vm_compute. reflexivity.
Defined.

Lemma contains_char_append (c : ascii) (a b : string) :
  PyStr.contains (String c "") (a +:+ b)
  = PyStr.contains (String c "") a || PyStr.contains (String c "") b.
Proof.
  induction a as [|x a IH].
  - rewrite append_nil_l. reflexivity.
  - rewrite append_cons, !contains_char_cons, IH. now rewrite orb_assoc.
Qed.

Lemma demo_urljoin_no_fragment (ref r : string) :
  PyStr.startswith "/" ref = true ->
  PyStr.contains "#" ref = false ->
  demo_urljoin demo_base_url ref = Ok r ->
  PyStr.contains "#" r = false.
Proof.
  intros _ Hc H. injection H as <-.
  rewrite contains_char_append, Hc. reflexivity.
Qed.

Lemma normalize_url_strips_fragment_witness :
  (forall ref r,
      PyStr.startswith "/" ref = true ->
      PyStr.contains "#" ref = false ->
      demo_urljoin demo_base_url ref = Ok r ->
      PyStr.contains "#" r = false)
  /\ normalize_url demo_base_url demo_urljoin "funds#fees"
     = Ok "https://investor.vanguard.com/funds"
  /\ (forall url,
         PyStr.startswith "http" url = true ->
         normalize_url demo_base_url demo_urljoin url = Ok (PyStr.before_char "#" url))
  /\ (forall url r,
         normalize_url demo_base_url demo_urljoin url = Ok r ->
         ~ substring_of "#" r).
Proof.
  split; [exact demo_urljoin_no_fragment|]. split; [reflexivity|].
  apply (normalize_url_strips_fragment demo_base_url demo_urljoin
           demo_urljoin_no_fragment).
Defined.

(** ** More on the classifiers *)

Lemma lower_char_idempotent (c : ascii) :
  PyStr.lower_char (PyStr.lower_char c) = PyStr.lower_char c.
Proof. destruct c as [[] [] [] [] [] [] [] []]; reflexivity. Qed.

Lemma lower_idempotent (s : string) : PyStr.lower (PyStr.lower s) = PyStr.lower s.
Proof.
  induction s as [|c s IH]; [reflexivity|].
  simpl. now rewrite lower_char_idempotent, IH.
Qed.

Lemma substring_of_wider (sub s pre post : string) :
  substring_of sub s -> substring_of sub (pre +:+ s +:+ post).
Proof.
  intros (a & b & ->). exists (pre +:+ a), (b +:+ post).
  now rewrite !append_assoc.
Qed.

Lemma at_least_distinct_impl (n : nat) (taxonomy : list string) (P Q : string -> Prop) :
  (forall t, P t -> Q t) ->
  at_least_distinct n taxonomy P -> at_least_distinct n taxonomy Q.
Proof.
  intros HPQ (ts & H1 & H2 & H3). exists ts. repeat split; auto.
  eapply Forall_impl; [exact H3|]. simpl. intros t [Hin Ht]. auto.
Qed.

(** Text around a relevant text keeps it relevant: once a page is accepted
    by the classifier of the site crawler, more text before or after changes
    nothing. *)
Theorem is_compliance_related_monotone (text url pre post : string) :
  is_compliance_related text url = true ->
  is_compliance_related (pre +:+ text +:+ post) url = true.
Proof.
  rewrite !is_compliance_related_rule. intros [Hurl|Hbody]; [now left|].
  right. eapply at_least_distinct_impl; [|exact Hbody].
  intros t (mid & Hsub & Hlow). exists mid. split; [|exact Hlow].
  now apply substring_of_wider.
Qed.

Lemma is_compliance_related_monotone_witness :
  is_compliance_related "fraud, privacy and disclosure" "https://example.org/p" = true
  /\ is_compliance_related
       ("Notes: " +:+ "fraud, privacy and disclosure" +:+ " (end)")
       "https://example.org/p" = true.
Proof.
  split; [reflexivity|].
  apply (is_compliance_related_monotone "fraud, privacy and disclosure"
           "https://example.org/p" "Notes: " " (end)").
  reflexivity.
Defined.

(** The classifier of the site crawler does not see the case of letters, in
    the text or in the URL. *)
Theorem is_compliance_related_ignores_case (text url : string) :
  is_compliance_related (PyStr.lower text) (PyStr.lower url)
  = is_compliance_related text url.
Proof. unfold is_compliance_related. now rewrite !lower_idempotent. Qed.

Section ViolationsProperties.

Variable list_of_set : gset string -> list string.
Hypothesis list_of_set_perm : forall s, list_of_set s ≡ₚ elements s.

(** [extract_violations] lists, without repetition, exactly the terms of the
    taxonomy of scraper.py that occur in the text, case ignored; and
    [is_compliance_related] of scraper.py holds exactly when that list is
    not empty. *)
Theorem extract_violations_spec (text : string) :
  NoDup (extract_violations list_of_set text)
  /\ (forall term,
         term ∈ extract_violations list_of_set text
         <-> term ∈ BASE_COMPLIANCE_KEYWORDS /\ occurs_ignoring_case term text)
  /\ (base_is_compliance_related text = true
      <-> extract_violations list_of_set text <> []).
Proof.
  assert (Hmem : forall term,
             term ∈ extract_violations list_of_set text
             <-> term ∈ BASE_COMPLIANCE_KEYWORDS /\ occurs_ignoring_case term text).
  { intros term. unfold extract_violations.
    destruct text as [|c text]; cbn [PyStr.truthy negb].
    - split; [intros H; inversion H|].
      intros [Hin (mid & (pre & post & Hsub) & Hlow)].
      destruct pre; [|discriminate]. destruct mid; [|discriminate].
      simpl in Hlow. subst term. exfalso. revert Hin. vm_compute.
      intros Hin. repeat (apply elem_of_cons in Hin as [Hin|Hin]; [discriminate|]).
      inversion Hin.
    - rewrite list_of_set_perm, elem_of_elements, elem_of_list_to_set,
        list_elem_of_filter, contains_lower_spec. tauto. }
  split; [|split; [exact Hmem|]].
  - unfold extract_violations.
    destruct (negb (PyStr.truthy text)); [constructor|].
    rewrite list_of_set_perm. apply NoDup_elements.
  - rewrite base_is_compliance_related_rule. split.
    + intros (ts & _ & Hlen & Hall) Hnil.
      destruct ts as [|t ts]; [discriminate|].
      apply Forall_cons in Hall as [Ht _].
      apply Hmem in Ht. rewrite Hnil in Ht. inversion Ht.
    + intros Hne. destruct (extract_violations list_of_set text) as [|t ts] eqn:E;
        [congruence|].
      assert (Ht : t ∈ t :: ts) by left.
      apply Hmem in Ht. exists [t]. repeat split; auto.
      apply NoDup_singleton.
Qed.

End ViolationsProperties.

Lemma extract_violations_spec_witness :
  (forall s, demo_list_of_set s ≡ₚ elements s)
  /\ NoDup (extract_violations demo_list_of_set "Fraud and insider trading")
  /\ (forall term,
         term ∈ extract_violations demo_list_of_set "Fraud and insider trading"
         <-> term ∈ BASE_COMPLIANCE_KEYWORDS
             /\ occurs_ignoring_case term "Fraud and insider trading")
  /\ (base_is_compliance_related "Fraud and insider trading" = true
      <-> extract_violations demo_list_of_set "Fraud and insider trading" <> []).
Proof.
  split; [exact demo_list_of_set_perm|].
  apply (extract_violations_spec demo_list_of_set demo_list_of_set_perm).
Defined.

(** ** More on deduplication *)

Lemma dedup_loop_app (all_actions unique_actions : list EnforcementAction)
    (seen_ids : gset string) :
  snd (dedup_loop seen_ids unique_actions all_actions)
  = unique_actions ++ snd (dedup_loop seen_ids [] all_actions).
Proof.
  revert unique_actions seen_ids.
  induction all_actions as [|a rest IH]; intros unique_actions seen_ids; simpl.
  - now rewrite app_nil_r.
  - destruct (bool_decide (unique_id a ∈ seen_ids)); simpl.
    + apply IH.
    + rewrite (IH (unique_actions ++ [a])), (IH [a]). now rewrite <- app_assoc.
Qed.

Lemma dedup_loop_sublist (all_actions : list EnforcementAction) (seen_ids : gset string) :
  snd (dedup_loop seen_ids [] all_actions) `sublist_of` all_actions.
Proof.
  revert seen_ids. induction all_actions as [|a rest IH]; intros seen_ids; simpl.
  - constructor.
  - destruct (bool_decide (unique_id a ∈ seen_ids)); simpl.
    + apply sublist_cons. apply IH.
    + rewrite dedup_loop_app. simpl. apply sublist_skip. apply IH.
Qed.

Lemma dedup_loop_distinct (all_actions : list EnforcementAction) (seen_ids : gset string) :
  NoDup (unique_id <$> all_actions) ->
  (forall a, a ∈ all_actions -> unique_id a ∉ seen_ids) ->
  snd (dedup_loop seen_ids [] all_actions) = all_actions.
Proof.
  revert seen_ids. induction all_actions as [|a rest IH]; intros seen_ids Hnd Hs; simpl.
  - reflexivity.
  - rewrite fmap_cons in Hnd. apply NoDup_cons in Hnd as [Ha Hnd].
    rewrite bool_decide_eq_false_2 by (apply Hs; left). simpl.
    rewrite dedup_loop_app. simpl. f_equal. apply IH; [exact Hnd|].
    intros b Hb Hin. apply elem_of_union in Hin as [Hin|Hin].
    + apply elem_of_singleton in Hin. apply Ha. rewrite <- Hin.
      apply list_elem_of_fmap. now exists b.
    + revert Hin. apply Hs. now right.
Qed.

(** Deduplication keeps the records in their order of arrival, dropping
    later ones; it changes nothing in a list whose identities are distinct,
    so applying it twice is applying it once. *)
Theorem deduplicate_keeps_first_occurrences :
  (forall l, deduplicate l `sublist_of` l)
  /\ (forall l, NoDup (unique_id <$> l) -> deduplicate l = l)
  /\ (forall l, deduplicate (deduplicate l) = deduplicate l).
Proof.
  assert (Hdistinct : forall l, NoDup (unique_id <$> l) -> deduplicate l = l).
  { intros l Hnd. apply dedup_loop_distinct; [exact Hnd | set_solver]. }
  split; [intros l; apply dedup_loop_sublist|].
  split; [exact Hdistinct|].
  intros l. apply Hdistinct. unfold deduplicate.
  apply (dedup_loop_spec l [] ∅); [reflexivity | constructor].
Qed.

(** ** More on [fetch_page] *)

(** [fetch_page] returns the parsed page for a response whose status is not
    from 400 to 599; it returns [None] for a request exception or such a
    status; and, unlike [scrape_page], it lets any other exception through
    to its caller. *)
Theorem fetch_page_cases (get : Result Response) :
  (forall soup,
      fetch_page get = Ok (Some soup)
      <-> exists r, get = Ok r /\ ~ 400 <= status_code r < 600 /\ content r = soup)
  /\ (fetch_page get = Ok None
      <-> (exists e, get = Raise e /\ is_RequestException e = true)
          \/ (exists r, get = Ok r /\ 400 <= status_code r < 600))
  /\ (forall e,
         fetch_page get = Raise e
         <-> get = Raise e /\ is_RequestException e = false).
Proof.
  unfold fetch_page, try_except, raise_for_status.
  destruct get as [r|e0]; simpl.
  - destruct ((400 <=? status_code r) && (status_code r <? 600)) eqn:Hs; simpl.
    + apply andb_true_iff in Hs as [H1 H2].
      apply Z.leb_le in H1. apply Z.ltb_lt in H2.
      split; [|split].
      * intros soup. split; [discriminate|].
        intros (r' & Hr & Hn & _). injection Hr as <-. lia.
      * split; [|reflexivity]. intros _. right. exists r. split; [reflexivity|lia].
      * intros e. split; [discriminate | intros [H _]; discriminate].
    + assert (Hn : ~ 400 <= status_code r < 600).
      { intros [H1 H2]. apply andb_false_iff in Hs as [Hs|Hs].
        - apply Z.leb_gt in Hs. lia.
        - apply Z.ltb_ge in Hs. lia. }
      split; [|split].
      * intros soup. split.
        -- intros H. injection H as <-. exists r. auto.
        -- intros (r' & Hr & _ & Hc). injection Hr as <-. now rewrite Hc.
      * split; [discriminate|].
        intros [(e & H & _) | (r' & Hr & Hst)]; [discriminate|].
        injection Hr as <-. contradiction.
      * intros e. split; [discriminate | intros [H _]; discriminate].
  - destruct (is_RequestException e0) eqn:He.
    + split; [|split].
      * intros soup. split; [discriminate | intros (r & H & _); discriminate].
      * split; [|reflexivity]. intros _. left. exists e0. auto.
      * intros e. split; [discriminate|]. intros [H Hf]. injection H as <-. congruence.
    + split; [|split].
      * intros soup. split; [discriminate | intros (r & H & _); discriminate].
      * split; [discriminate|].
        intros [(e & H & Ht) | (r & H & _)]; [|discriminate].
        injection H as <-. congruence.
      * intros e. split.
        -- intros H. injection H as <-. auto.
        -- intros [H _]. injection H as <-. reflexivity.
Qed.

(** ** The form of the release numbers *)

Lemma span_append (p : ascii -> bool) (s a b : string) :
  Regex.span p s = (a, b) -> s = a +:+ b.
Proof.
  revert a b. induction s as [|c s IH]; intros a b H; simpl in H.
  - now injection H as <- <-.
  - destruct (p c).
    + destruct (Regex.span p s) as [a' b'] eqn:E. injection H as <- <-.
      rewrite append_cons. f_equal. now apply IH.
    + now injection H as <- <-.
Qed.

Lemma span_all (p : ascii -> bool) (s a b : string) :
  Regex.span p s = (a, b) -> str_all p a = true.
Proof.
  revert a b. induction s as [|c s IH]; intros a b H; simpl in H.
  - now injection H as <- <-.
  - destruct (p c) eqn:Hc.
    + destruct (Regex.span p s) as [a' b'] eqn:E. injection H as <- <-.
      simpl. rewrite Hc. simpl. eapply IH. reflexivity.
    + now injection H as <- <-.
Qed.

Lemma digits1_spec (s ds : string) :
  Regex.digits1 s = Some ds ->
  ds <> "" /\ all_digits ds = true /\ exists rest, s = ds +:+ rest.
Proof.
  unfold Regex.digits1. destruct (Regex.span Regex.is_digit s) as [a b] eqn:E.
  destruct a as [|c a]; [discriminate|]. intros H. injection H as <-.
  split; [discriminate|]. split.
  - exact (span_all _ _ _ _ E).
  - exists b. exact (span_append _ _ _ _ E).
Qed.

Lemma lr_number_at_spec (s g : string) :
  Regex.lr_number_at s = Some g ->
  g <> "" /\ all_digits g = true /\ substring_of g s.
Proof.
  unfold Regex.lr_number_at.
  destruct s as [|l [|r rest]]; try discriminate.
  destruct (_ && _); [|discriminate].
  assert (Hplain : forall ds, Regex.digits1 rest = Some ds ->
            ds <> "" /\ all_digits ds = true
            /\ substring_of ds (String l (String r rest))).
  { intros ds H. apply digits1_spec in H as (H1 & H2 & tail & ->).
    split; [exact H1|]. split; [exact H2|].
    now exists (String l (String r "")), tail. }
  destruct rest as [|c rest'].
  - intros H. now apply Hplain.
  - destruct (Regex.is_char "-" c || Regex.is_char " " c).
    + destruct (Regex.digits1 rest') as [ds|] eqn:E.
      * intros H. injection H as <-.
        apply digits1_spec in E as (H1 & H2 & tail & ->).
        split; [exact H1|]. split; [exact H2|].
        now exists (String l (String r (String c ""))), tail.
      * intros H. now apply Hplain.
    + intros H. now apply Hplain.
Qed.

Lemma search_spec {A} (at_pos : string -> option A) (s : string) (g : A) :
  Regex.search at_pos s = Some g ->
  exists pre suf, s = pre +:+ suf /\ at_pos suf = Some g.
Proof.
  induction s as [|c s IH]; simpl.
  - destruct (at_pos "") eqn:E; [|discriminate].
    intros H. injection H as <-. now exists "", "".
  - destruct (at_pos (String c s)) eqn:E.
    + intros H. injection H as <-. now exists "", (String c s).
    + intros H. destruct (IH H) as (pre & suf & -> & Hat).
      now exists (String c pre), suf.
Qed.

Lemma substring_of_suffix (sub pre suf : string) :
  substring_of sub suf -> substring_of sub (pre +:+ suf).
Proof.
  intros (a & b & ->). exists (pre +:+ a), b. now rewrite append_assoc.
Qed.

(** The release number of a litigation release is [None] or the letters LR,
    a hyphen and a non-empty run of decimal digits taken from the link text
    followed by the href. *)
Theorem litigation_release_num_format (title href : string) :
  litigation_release_num title href = None
  \/ exists ds,
       litigation_release_num title href = Some ("LR-" +:+ ds)
       /\ ds <> ""
       /\ all_digits ds = true
       /\ substring_of ds (title +:+ href).
Proof.
  unfold litigation_release_num.
  destruct (Regex.search Regex.lr_number_at (title +:+ href)) as [g|] eqn:E;
    [right | now left].
  apply search_spec in E as (pre & suf & Heq & Hat).
  apply lr_number_at_spec in Hat as (H1 & H2 & H3).
  exists g. repeat split; auto. rewrite Heq. now apply substring_of_suffix.
Qed.

Lemma substring_all (s : string) : String.substring 0 (String.length s) s = s.
Proof. induction s as [|c s IH]; simpl; [reflexivity | now rewrite IH]. Qed.

Lemma release_no_at_spec (s g : string) :
  Regex.release_no_at s = Some g ->
  exists d g', g = String d g' /\ Regex.is_digit d = true
               /\ all_digits_or_hyphens g = true /\ substring_of g s.
Proof.
  unfold Regex.release_no_at.
  set (after := if PyStr.startswith "LR" s then _ else _).
  assert (Hafter : forall rest, after = Some rest -> exists pre, s = pre +:+ rest).
  { subst after. intros rest.
    destruct (PyStr.startswith "LR" s) eqn:H1;
      [|destruct (PyStr.startswith "Release No." s) eqn:H2; [|discriminate]];
      intros H; injection H as <-.
    - apply startswith_spec in H1 as [post ->]. exists "LR". f_equal.
      change (String.length ("LR" +:+ post) - 2)%nat
        with (String.length post - 0)%nat.
      rewrite Nat.sub_0_r. simpl. now rewrite substring_all.
    - apply startswith_spec in H2 as [post ->]. exists "Release No.". f_equal.
      change (String.length ("Release No." +:+ post) - 11)%nat
        with (String.length post - 0)%nat.
      rewrite Nat.sub_0_r. simpl. now rewrite substring_all. }
  destruct after as [rest|]; [|discriminate].
  destruct (Hafter rest eq_refl) as [pre Hs].
  destruct (Regex.span _ rest) as [skipped rest'] eqn:E.
  apply span_append in E.
  destruct rest' as [|d tail]; [discriminate|].
  destruct (Regex.is_digit d) eqn:Hd; [|discriminate].
  intros H. injection H as <-.
  destruct (Regex.span (fun c => Regex.is_char "-" c || Regex.is_digit c)
              (String d tail)) as [g b] eqn:Eg.
  pose proof (span_all _ _ _ _ Eg) as Hall.
  pose proof (span_append _ _ _ _ Eg) as Happ.
  simpl in Eg. rewrite Hd, orb_true_r in Eg.
  destruct (Regex.span _ tail) as [g1 b1]. injection Eg as <- <-.
  rewrite Hd, orb_true_r. cbn [fst].
  exists d, g1. split; [reflexivity|]. split; [exact Hd|]. split; [exact Hall|].
  rewrite Hs, E, Happ. apply substring_of_suffix, substring_of_suffix.
  now exists "", b1.
Qed.

(** The release number of a release detail page is the string "Unknown" or
    a run of decimal digits and hyphens that starts with a digit and is
    taken from the title of the page. *)
Theorem detail_release_number_format (title_text : string) :
  detail_release_number title_text = "Unknown"
  \/ exists d g,
       detail_release_number title_text = String d g
       /\ Regex.is_digit d = true
       /\ all_digits_or_hyphens (String d g) = true
       /\ substring_of (String d g) title_text.
Proof.
  unfold detail_release_number.
  destruct (Regex.search Regex.release_no_at title_text) as [g|] eqn:E;
    [right | now left].
  apply search_spec in E as (pre & suf & Heq & Hat).
  apply release_no_at_spec in Hat as (d & g' & -> & H1 & H2 & H3).
  exists d, g'. repeat split; auto. rewrite Heq. now apply substring_of_suffix.
Qed.

(** ** The form of the record identity *)

Lemma length_bytes_of_word (n : nat) (w : Z) : length (MD5.bytes_of_word n w) = n.
Proof. revert w. induction n as [|n IH]; intros w; simpl; [reflexivity | now rewrite IH]. Qed.

Lemma bytes_of_word_range (n : nat) (w : Z) :
  Forall (fun b => 0 <= b < 256) (MD5.bytes_of_word n w).
Proof.
  revert w. induction n as [|n IH]; intros w; simpl; constructor; [|apply IH].
  change 255 with (Z.ones 8). rewrite Z.land_ones by lia.
  apply Z.mod_pos_bound. lia.
Qed.

Lemma digest_bytes (msg : list Z) :
  length (MD5.digest msg) = 16%nat /\ Forall (fun b => 0 <= b < 256) (MD5.digest msg).
Proof.
  unfold MD5.digest.
  destruct (fold_left MD5.compress _ MD5.INIT) as [[[a b] c] d].
  split.
  - rewrite !length_app, !length_bytes_of_word. reflexivity.
  - repeat (apply Forall_app; split); apply bytes_of_word_range.
Qed.

Lemma hex_digit_is_hex (n : Z) :
  0 <= n < 16 -> is_hex (String (MD5.hex_digit n) "") = true.
Proof.
  intros H.
  assert (Hm : (Z.to_nat n < 16)%nat) by lia.
  rewrite <- (Z2Nat.id n) by lia.
  revert Hm. generalize (Z.to_nat n). intros m Hm.
  do 16 (destruct m as [|m]; [reflexivity|]). lia.
Qed.

Lemma hex_spec (bs : list Z) :
  Forall (fun b => 0 <= b < 256) bs ->
  String.length (MD5.hex bs) = (2 * length bs)%nat /\ is_hex (MD5.hex bs) = true.
Proof.
  induction 1 as [|b bs Hb _ [IH1 IH2]]; [split; reflexivity|].
  cbn [MD5.hex String.length length]. split; [rewrite IH1; lia|].
  assert (H1 : 0 <= Z.shiftr b 4 < 16).
  { rewrite Z.shiftr_div_pow2 by lia. change (2 ^ 4) with 16.
    split; [apply Z.div_pos; lia | apply Z.div_lt_upper_bound; lia]. }
  assert (H2 : 0 <= Z.land b 15 < 16).
  { change 15 with (Z.ones 4). rewrite Z.land_ones by lia.
    apply Z.mod_pos_bound. lia. }
  apply hex_digit_is_hex in H1, H2.
  cbn [is_hex] in *. rewrite andb_true_r in H1, H2. now rewrite H1, H2, IH2.
Qed.

Lemma take_spec (n : nat) (s : string) :
  String.length (PyStr.take n s) = Nat.min n (String.length s)
  /\ (is_hex s = true -> is_hex (PyStr.take n s) = true).
Proof.
  revert s. induction n as [|n IH]; intros s; [split; reflexivity|].
  destruct s as [|c s]; [split; reflexivity|].
  destruct (IH s) as [IH1 IH2]. cbn [PyStr.take String.length is_hex]. split.
  - rewrite IH1. reflexivity.
  - intros H. apply andb_true_iff in H as [Hc Hs]. now rewrite Hc, IH2.
Qed.

(** The identity of a record is always a string of exactly 12 lower-case
    hexadecimal digits. *)
Theorem unique_id_format (a : EnforcementAction) :
  String.length (unique_id a) = 12%nat /\ is_hex (unique_id a) = true.
Proof.
  unfold unique_id, MD5.hexdigest.
  destruct (digest_bytes (MD5.encode (source a +:+ ":" +:+ url a))) as [Hlen Hrange].
  destruct (hex_spec _ Hrange) as [H1 H2]. rewrite Hlen in H1.
  destruct (take_spec 12 (MD5.hex (MD5.digest (MD5.encode (source a +:+ ":" +:+ url a)))))
    as [H3 H4].
  split; [now rewrite H3, H1 | now apply H4].
Qed.

(** ** The URL helper of script.py *)

Lemma startswith_append (p a b : string) :
  PyStr.startswith p a = true -> PyStr.startswith p (a +:+ b) = true.
Proof.
  rewrite !startswith_spec. intros [post ->]. exists (post +:+ b).
  now rewrite append_assoc.
Qed.

(** With a base URL that starts with http, [_normalize_url] always returns a
    URL that starts with http, leaves such a URL unchanged, fragment
    included, and so returns its own results unchanged. *)
Theorem script_normalize_url_absolute (base_url : string) :
  PyStr.startswith "http" base_url = true ->
  (forall url, PyStr.startswith "http" url = true -> _normalize_url base_url url = url)
  /\ (forall url, PyStr.startswith "http" (_normalize_url base_url url) = true)
  /\ (forall url,
         _normalize_url base_url (_normalize_url base_url url)
         = _normalize_url base_url url).
Proof.
  intros Hbase.
  assert (H1 : forall url, PyStr.startswith "http" url = true ->
                           _normalize_url base_url url = url).
  { intros url H. unfold _normalize_url. now rewrite H. }
  assert (H2 : forall url, PyStr.startswith "http" (_normalize_url base_url url) = true).
  { intros url. unfold _normalize_url.
    destruct (PyStr.startswith "http" url) eqn:E; [exact E|].
    destruct (PyStr.startswith "/" url); now apply startswith_append. }
  split; [exact H1|]. split; [exact H2|].
  intros url. apply H1, H2.
Qed.

Lemma script_normalize_url_absolute_witness :
  PyStr.startswith "http" "https://www.sec.gov" = true
  /\ _normalize_url "https://www.sec.gov" "litigation/lr-1.htm#top"
     = "https://www.sec.gov/litigation/lr-1.htm#top"
  /\ (forall url, PyStr.startswith "http" url = true ->
                  _normalize_url "https://www.sec.gov" url = url)
  /\ (forall url, PyStr.startswith "http" (_normalize_url "https://www.sec.gov" url) = true)
  /\ (forall url,
         _normalize_url "https://www.sec.gov" (_normalize_url "https://www.sec.gov" url)
         = _normalize_url "https://www.sec.gov" url).
Proof.
  split; [reflexivity|]. split; [reflexivity|].
  apply (script_normalize_url_absolute "https://www.sec.gov"). reflexivity.
Defined.

(** ** The counts of the reports *)

Lemma count_key_lookup (counts : gmap string Z) (k k' : string) :
  count_key counts k !! k'
  = if decide (k = k') then Some (default 0 (counts !! k) + 1) else counts !! k'.
Proof.
  unfold count_key. destruct (decide (k = k')) as [->|Hne].
  - apply lookup_insert_eq.
  - now apply lookup_insert_ne.
Qed.

Lemma tally_fold (keys : list string) (counts : gmap string Z) (k : string) :
  default 0 (fold_left count_key keys counts !! k)
  = default 0 (counts !! k) + Z.of_nat (length (filter (fun x => x = k) keys))
  /\ (fold_left count_key keys counts !! k = None
      <-> counts !! k = None /\ k ∉ keys).
Proof.
  revert counts. induction keys as [|x keys IH]; intros counts; simpl.
  - split; [lia|]. split; [intros H; split; [exact H | intros Hin; inversion Hin] | tauto].
  - destruct (IH (count_key counts x)) as [IH1 IH2].
    rewrite IH1, IH2, count_key_lookup.
    destruct (decide (x = k)) as [->|Hne].
    + rewrite filter_cons_True by reflexivity. simpl. split; [lia|].
      split; [intros [H _]; discriminate|].
      intros [_ H]. exfalso. apply H. left.
    + rewrite filter_cons_False by exact Hne. split; [reflexivity|].
      rewrite not_elem_of_cons. split; [intros [H1 H2]; auto | tauto].
Qed.

Lemma tally_sum (keys : list string) (counts : gmap string Z) :
  map_fold (fun _ n total => n + total) 0 (fold_left count_key keys counts)
  = map_fold (fun _ n total => n + total) 0 counts + Z.of_nat (length keys).
Proof.
  revert counts. induction keys as [|x keys IH]; intros counts; simpl; [lia|].
  rewrite IH. unfold count_key.
  destruct (counts !! x) as [v|] eqn:E; simpl.
  - rewrite <- (insert_delete_eq counts x (v + 1)).
    rewrite map_fold_insert_L; [|intros; lia | apply lookup_delete_eq].
    rewrite <- (insert_id counts x v E) at 2.
    rewrite <- (insert_delete_eq counts x v).
    rewrite map_fold_insert_L; [|intros; lia | apply lookup_delete_eq].
    lia.
  - rewrite map_fold_insert_L; [|intros; lia | exact E]. lia.
Qed.

Lemma length_filter_fmap {A} (f : A -> string) (s : string) (l : list A) :
  length (filter (fun x => x = s) (f <$> l)) = length (filter (fun a => f a = s) l).
Proof.
  induction l as [|a l IH]; [reflexivity|].
  rewrite fmap_cons. destruct (decide (f a = s)) as [Hs|Hs].
  - rewrite !filter_cons_True by exact Hs. simpl. now rewrite IH.
  - now rewrite !filter_cons_False by exact Hs.
Qed.

Lemma tally_counts {A} (f : A -> string) (l : list A) :
  (forall s,
      default 0 (tally (f <$> l) !! s)
      = Z.of_nat (length (filter (fun a => f a = s) l)))
  /\ (forall s, tally (f <$> l) !! s = None <-> forall a, a ∈ l -> f a <> s)
  /\ map_fold (fun _ n total => n + total) 0 (tally (f <$> l)) = Z.of_nat (length l).
Proof.
  unfold tally. split; [|split].
  - intros s. destruct (tally_fold (f <$> l) ∅ s) as [H _].
    rewrite H, lookup_empty, length_filter_fmap. reflexivity.
  - intros s. destruct (tally_fold (f <$> l) ∅ s) as [_ H].
    rewrite H, lookup_empty. split.
    + intros [_ Hn] a Ha Hs. apply Hn. apply list_elem_of_fmap. now exists a.
    + intros Hn. split; [reflexivity|]. intros Hin.
      apply list_elem_of_fmap in Hin as (a & Hs & Ha). now apply (Hn a Ha).
  - rewrite tally_sum, map_fold_empty, length_fmap. lia.
Qed.

Lemma elem_of_concat {A} (x : A) (ls : list (list A)) :
  x ∈ concat ls <-> exists l, x ∈ l /\ l ∈ ls.
Proof.
  induction ls as [|l ls IH]; simpl.
  - split; [intros H; inversion H | intros (l & _ & H); inversion H].
  - rewrite elem_of_app, IH. split.
    + intros [H | (l' & H1 & H2)]; [exists l; split; [exact H | left]|].
      exists l'. split; [exact H1 | now right].
    + intros (l' & H1 & H2). apply elem_of_cons in H2 as [->|H2]; [now left|].
      right. now exists l'.
Qed.

Lemma count_once (keyword : string) (l : list string) :
  NoDup l ->
  length (filter (fun x => x = keyword) l) = if decide (keyword ∈ l) then 1%nat else 0%nat.
Proof.
  induction 1 as [|x l Hx Hl IH]; [reflexivity|].
  destruct (decide (x = keyword)) as [->|Hne].
  - rewrite filter_cons_True by reflexivity. simpl. rewrite IH.
    rewrite decide_False by exact Hx. rewrite decide_True by left. reflexivity.
  - rewrite filter_cons_False by exact Hne. rewrite IH.
    destruct (decide (keyword ∈ l)) as [Hin|Hin].
    + rewrite decide_True by now right. reflexivity.
    + rewrite decide_False; [reflexivity|].
      intros H. apply elem_of_cons in H as [H|H]; [congruence | contradiction].
Qed.

Lemma count_in_lists {A} (f : A -> list string) (keyword : string) (l : list A) :
  (forall a, a ∈ l -> NoDup (f a)) ->
  length (filter (fun x => x = keyword) (concat (f <$> l)))
  = length (filter (fun a => keyword ∈ f a) l).
Proof.
  induction l as [|a l IH]; intros Hnd; [reflexivity|].
  rewrite fmap_cons, concat_cons, filter_app, length_app.
  rewrite IH by (intros p Hp; apply Hnd; now right).
  rewrite count_once by (apply Hnd; left).
  destruct (decide (keyword ∈ f a)) as [Hin|Hin].
  - rewrite filter_cons_True by exact Hin. reflexivity.
  - rewrite filter_cons_False by exact Hin. reflexivity.
Qed.

Lemma tally_concat_counts {A} (f : A -> list string) (keyword : string) (l : list A) :
  (forall a, a ∈ l -> NoDup (f a)) ->
  default 0 (tally (concat (f <$> l)) !! keyword)
  = Z.of_nat (length (filter (fun a => keyword ∈ f a) l))
  /\ (tally (concat (f <$> l)) !! keyword = None
      <-> forall a, a ∈ l -> keyword ∉ f a).
Proof.
  intros Hnd. unfold tally.
  destruct (tally_fold (concat (f <$> l)) ∅ keyword) as [H1 H2].
  rewrite H1, H2, lookup_empty, (count_in_lists _ _ _ Hnd). split; [reflexivity|].
  split.
  - intros [_ Hn] a Ha Hin. apply Hn. apply elem_of_concat.
    exists (f a). split; [exact Hin|]. apply list_elem_of_fmap. now exists a.
  - intros Hn. split; [reflexivity|]. intros Hin.
    apply elem_of_concat in Hin as (ks & Hk & Hl).
    apply list_elem_of_fmap in Hl as (a & -> & Ha). now apply (Hn a Ha).
Qed.

(** The tables of [generate_summary_report].  The table by source holds, for
    each source, the number of actions of that source, has no entry for a
    source without action, and its counts add up to the number of actions;
    so does the table by type.  When no action lists a violation keyword
    twice, as with the lists of [extract_violations], the count of a keyword
    is the number of actions that list it. *)
Theorem generate_summary_report_counts (actions : list EnforcementAction) :
  ((forall s,
       default 0 (by_source actions !! s)
       = Z.of_nat (length (filter (fun a => source a = s) actions)))
   /\ (forall s, by_source actions !! s = None
                 <-> forall a, a ∈ actions -> source a <> s)
   /\ map_fold (fun _ n total => n + total) 0 (by_source actions)
      = Z.of_nat (length actions))
  /\ ((forall t,
         default 0 (by_type actions !! t)
         = Z.of_nat (length (filter (fun a => action_type a = t) actions)))
      /\ (forall t, by_type actions !! t = None
                    <-> forall a, a ∈ actions -> action_type a <> t)
      /\ map_fold (fun _ n total => n + total) 0 (by_type actions)
         = Z.of_nat (length actions))
  /\ ((forall a, a ∈ actions -> NoDup (violations a)) ->
      forall v,
        default 0 (violation_counts actions !! v)
        = Z.of_nat (length (filter (fun a => v ∈ violations a) actions))
        /\ (violation_counts actions !! v = None
            <-> forall a, a ∈ actions -> v ∉ violations a)).
Proof.
  split; [apply tally_counts|]. split; [apply tally_counts|].
  intros Hnd v. now apply tally_concat_counts.
Qed.

(** In the table of top keywords of the site report, the count of a keyword
    is the number of pages in whose list of found keywords it stands; a
    keyword found on no page has no entry. *)
Theorem all_keywords_counts (results : list PageData) (keyword : string) :
  (forall page, page ∈ results -> NoDup (pd_compliance_keywords_found page)) ->
  default 0 (all_keywords results !! keyword)
  = Z.of_nat (length (filter (fun page => keyword ∈ pd_compliance_keywords_found page)
                             results))
  /\ (all_keywords results !! keyword = None
      <-> forall page, page ∈ results -> keyword ∉ pd_compliance_keywords_found page).
Proof. intros Hnd. now apply tally_concat_counts. Qed.

Lemma all_keywords_counts_witness :
  (forall page,
      page ∈ [{| pd_url := url_a; pd_title := "A"; pd_description := "";
                 pd_is_compliance_related := true;
                 pd_compliance_keywords_found := ["fraud"; "privacy"; "legal"];
                 pd_keyword_count := 3; pd_outbound_links := [];
                 pd_content_preview := ""; pd_content_length := 0 |}] ->
      NoDup (pd_compliance_keywords_found page))
  /\ default 0
       (all_keywords
          [{| pd_url := url_a; pd_title := "A"; pd_description := "";
              pd_is_compliance_related := true;
              pd_compliance_keywords_found := ["fraud"; "privacy"; "legal"];
              pd_keyword_count := 3; pd_outbound_links := [];
              pd_content_preview := ""; pd_content_length := 0 |}] !! "privacy")
     = 1.
Proof.
  assert (H : forall page,
      page ∈ [{| pd_url := url_a; pd_title := "A"; pd_description := "";
                 pd_is_compliance_related := true;
                 pd_compliance_keywords_found := ["fraud"; "privacy"; "legal"];
                 pd_keyword_count := 3; pd_outbound_links := [];
                 pd_content_preview := ""; pd_content_length := 0 |}] ->
      NoDup (pd_compliance_keywords_found page)).
  { intros page Hp. apply list_elem_of_singleton in Hp as ->. simpl.
    apply (bool_decide_unpack _). vm_compute. exact I. }
  split; [exact H|].
  rewrite (proj1 (all_keywords_counts _ "privacy" H)). reflexivity.
Defined.

(** ** The order of the saved results *)

Lemma insert_reverse_perm {A} (key : A -> Z) (x : A) (l : list A) :
  insert_reverse key x l ≡ₚ x :: l.
Proof.
  induction l as [|y l IH]; simpl; [reflexivity|].
  destruct (key x <? key y); [|reflexivity].
  rewrite IH. apply Permutation_swap.
Qed.

Lemma sorted_reverse_perm {A} (key : A -> Z) (l : list A) :
  sorted_reverse key l ≡ₚ l.
Proof.
  induction l as [|x l IH]; simpl; [reflexivity|].
  now rewrite insert_reverse_perm, IH.
Qed.

Lemma insert_reverse_sorted {A} (key : A -> Z) (x : A) (l : list A) :
  StronglySorted (fun a b => key b <= key a) l ->
  StronglySorted (fun a b => key b <= key a) (insert_reverse key x l).
Proof.
  induction 1 as [|y l Hl IH Hy]; simpl.
  - repeat constructor.
  - destruct (key x <? key y) eqn:E.
    + apply Z.ltb_lt in E. constructor; [exact IH|].
      rewrite insert_reverse_perm. constructor; [lia | exact Hy].
    + apply Z.ltb_ge in E. constructor; [now constructor|].
      constructor; [exact E|].
      eapply Forall_impl; [exact Hy|]. simpl. intros b Hb. lia.
Qed.

Lemma insert_reverse_filter {A} (key : A -> Z) (k : Z) (x : A) (l : list A) :
  StronglySorted (fun a b => key b <= key a) l ->
  filter (fun a => key a = k) (insert_reverse key x l)
  = filter (fun a => key a = k) (x :: l).
Proof.
  induction 1 as [|y l Hl IH Hy]; simpl; [reflexivity|].
  destruct (key x <? key y) eqn:E; [|reflexivity].
  apply Z.ltb_lt in E.
  rewrite (filter_cons _ y), IH, !filter_cons.
  repeat case_decide; try reflexivity; lia.
Qed.

Lemma sorted_reverse_sorted {A} (key : A -> Z) (l : list A) :
  StronglySorted (fun a b => key b <= key a) (sorted_reverse key l).
Proof.
  induction l as [|x l IH]; simpl; [constructor|].
  now apply insert_reverse_sorted.
Qed.

Lemma sorted_reverse_stable {A} (key : A -> Z) (k : Z) (l : list A) :
  filter (fun a => key a = k) (sorted_reverse key l) = filter (fun a => key a = k) l.
Proof.
  induction l as [|x l IH]; simpl; [reflexivity|].
  rewrite insert_reverse_filter by apply sorted_reverse_sorted.
  rewrite !filter_cons, IH. reflexivity.
Qed.

(** [save_results] loses and invents no page: the saved pages are the pages
    found, rearranged; they stand in descending order of keyword count,
    pages with the same count in the order in which they were found; the
    total written is their number and the URL list follows the same
    order. *)
Theorem save_results_sorted (compliance_urls : list PageData) :
  pages (save_results compliance_urls) ≡ₚ compliance_urls
  /\ StronglySorted (fun p q => pd_keyword_count q <= pd_keyword_count p)
       (pages (save_results compliance_urls))
  /\ (forall k,
         filter (fun p => pd_keyword_count p = k) (pages (save_results compliance_urls))
         = filter (fun p => pd_keyword_count p = k) compliance_urls)
  /\ total_compliance_pages (save_results compliance_urls)
     = Z.of_nat (length compliance_urls)
  /\ url_list (save_results compliance_urls)
     = pd_url <$> pages (save_results compliance_urls).
Proof.
  unfold save_results. simpl. split; [apply sorted_reverse_perm|].
  split; [apply sorted_reverse_sorted|].
  split; [intros k; apply sorted_reverse_stable|].
  split; [|reflexivity].
  now rewrite (Permutation_length (sorted_reverse_perm pd_keyword_count compliance_urls)).
Qed.

(** ** The listing loops of script.py *)

Lemma scrape_release_detail_returns (get : Result Response) (url release_type : string) :
  exists r,
    scrape_release_detail get url release_type = Ok r
    /\ forall d, r = Some d ->
         rd_url d = url /\ rd_source d = "SEC" /\ rd_type d = release_type.
Proof.
  unfold scrape_release_detail, try_except.
  destruct get as [response|e]; simpl.
  - destruct (raise_for_status response) as [[]|e]; simpl.
    + eexists. split; [reflexivity|]. intros d H. injection H as <-. auto.
    + exists None. split; [reflexivity | discriminate].
  - exists None. split; [reflexivity | discriminate].
Qed.

Section ListingsProperties.

Variable base_url : string.
Variable listing_links : Soup -> list string.
Variable keep : string -> bool.
Variable release_type : string.
Variable detail_get : nat -> string -> Result Response.
Variable max_items : Z.

Lemma unique_links_fold (links keys : list string) :
  NoDup keys ->
  NoDup (fold_left (fun keys href =>
                      if keep href then dict_assign_key keys href else keys)
                   links keys)
  /\ forall h,
       h ∈ fold_left (fun keys href =>
                        if keep href then dict_assign_key keys href else keys)
                     links keys
       <-> h ∈ keys \/ (h ∈ links /\ keep h = true).
Proof.
  revert keys. induction links as [|href links IH]; intros keys Hnd; simpl.
  - split; [exact Hnd|]. intros h. split; [now left|].
    intros [H | [H _]]; [exact H | inversion H].
  - destruct (keep href) eqn:Hk.
    + unfold dict_assign_key. destruct (bool_decide (href ∈ keys)) eqn:Hin.
      * apply bool_decide_eq_true in Hin. destruct (IH keys Hnd) as [H1 H2].
        split; [exact H1|]. intros h. rewrite H2, elem_of_cons. split.
        -- intros [H | [H Hh]]; [now left | right; auto].
        -- intros [H | [[-> | H] Hh]]; [now left | now left | right; auto].
      * apply bool_decide_eq_false in Hin.
        destruct (IH (keys ++ [href])) as [H1 H2].
        { apply NoDup_app. split; [exact Hnd|]. split; [|apply NoDup_singleton].
          intros x Hx Hx'. apply list_elem_of_singleton in Hx' as ->. contradiction. }
        split; [exact H1|]. intros h.
        rewrite H2, elem_of_app, list_elem_of_singleton, elem_of_cons. split.
        -- intros [[H | ->] | [H Hh]]; [now left | right; auto | right; auto].
        -- intros [H | [[-> | H] Hh]]; [left; now left | left; now right | right; auto].
    + destruct (IH keys Hnd) as [H1 H2]. split; [exact H1|].
      intros h. rewrite H2, elem_of_cons. split.
      * intros [H | [H Hh]]; [now left | right; auto].
      * intros [H | [[-> | H] Hh]]; [now left | congruence | right; auto].
Qed.

Lemma release_items_spec (hrefs : list string) (i : nat) (data : list ReleaseDetail) :
  exists new,
    release_items base_url release_type detail_get max_items i hrefs data
    = Ok (data ++ new)
    /\ (rd_url <$> new)
       `sublist_of` (_normalize_url base_url
                       <$> take (Z.to_nat (max_items - Z.of_nat i)) hrefs)
    /\ Forall (fun d => rd_source d = "SEC" /\ rd_type d = release_type) new.
Proof.
  revert i data. induction hrefs as [|href rest IH]; intros i data; simpl.
  - exists []. rewrite app_nil_r, take_nil. repeat split; constructor.
  - destruct (max_items <=? Z.of_nat i) eqn:E.
    + apply Z.leb_le in E. exists []. rewrite app_nil_r.
      replace (Z.to_nat (max_items - Z.of_nat i)) with 0%nat by lia.
      repeat split; constructor.
    + apply Z.leb_gt in E.
      replace (Z.to_nat (max_items - Z.of_nat i))
        with (S (Z.to_nat (max_items - Z.of_nat (S i)))) by lia.
      simpl.
      destruct (scrape_release_detail_returns
                  (detail_get i (_normalize_url base_url href))
                  (_normalize_url base_url href) release_type) as (r & Hr & Hd).
      unfold try_except. rewrite Hr. simpl.
      destruct r as [d|].
      * destruct (IH (S i) (data ++ [d])) as (new & Hrun & Hsub & Hall).
        exists (d :: new). rewrite Hrun. split; [now rewrite <- app_assoc|].
        destruct (Hd d eq_refl) as (H1 & H2 & H3). split.
        -- rewrite fmap_cons, H1. now apply sublist_skip.
        -- constructor; auto.
      * destruct (IH (S i) data) as (new & Hrun & Hsub & Hall).
        exists new. rewrite Hrun. split; [reflexivity|].
        split; [now apply sublist_cons | exact Hall].
Qed.

Lemma scrape_listing_bound (listing : Result Response) (data : list ReleaseDetail) :
  scrape_listing base_url listing_links keep release_type detail_get max_items listing
  = Ok data ->
  Z.of_nat (length data) <= Z.max 0 max_items
  /\ Forall (fun d => rd_source d = "SEC" /\ rd_type d = release_type) data.
Proof.
  unfold scrape_listing, try_except.
  destruct listing as [r|e]; simpl.
  - destruct (raise_for_status r) as [[]|e]; simpl.
    + destruct (release_items_spec (unique_links keep (listing_links (content r))) 0 [])
        as (new & Hrun & Hsub & Hall).
      rewrite Hrun. simpl. intros H. injection H as <-. split; [|exact Hall].
      apply sublist_length in Hsub. rewrite !length_fmap, length_take in Hsub. lia.
    + destruct (is_RequestException e); [|discriminate].
      intros H. injection H as <-. split; [simpl; lia | constructor].
  - destruct (is_RequestException e); [|discriminate].
    intros H. injection H as <-. split; [simpl; lia | constructor].
Qed.

Lemma scrape_listing_returns (listing : Result Response) :
  (forall e, listing = Raise e -> is_RequestException e = true) ->
  exists data,
    scrape_listing base_url listing_links keep release_type detail_get max_items listing
    = Ok data.
Proof.
  intros He. unfold scrape_listing, try_except.
  destruct listing as [r|e]; simpl.
  - destruct (raise_for_status r) as [[]|e] eqn:Hs; simpl.
    + destruct (release_items_spec (unique_links keep (listing_links (content r))) 0 [])
        as (new & Hrun & _).
      rewrite Hrun. eauto.
    + assert (He' : e = HTTPError).
      { revert Hs. unfold raise_for_status.
        destruct ((400 <=? status_code r) && (status_code r <? 600));
          intros H; [now injection H | discriminate]. }
      subst e. simpl. eauto.
  - rewrite (He e eq_refl). eauto.
Qed.

(** The listing scrapers of script.py.  A request exception or an error
    status on the listing page gives an empty list, any other exception of
    that request goes to the caller, and nothing that happens on a detail
    page does.  Otherwise the records are details of the distinct hrefs that
    pass the test of the scraper, taken in their order of first appearance,
    each at most once and the first [max_items] of them at most; each
    record carries the normalised URL it was fetched from, the source SEC
    and the type of the scraper. *)
Theorem scrape_listing_spec (listing : Result Response) :
  (forall e, listing = Raise e ->
     scrape_listing base_url listing_links keep release_type detail_get max_items listing
     = if is_RequestException e then Ok [] else Raise e)
  /\ (forall r, listing = Ok r -> 400 <= status_code r < 600 ->
        scrape_listing base_url listing_links keep release_type detail_get max_items listing
        = Ok [])
  /\ (forall r, listing = Ok r -> ~ 400 <= status_code r < 600 ->
        exists data,
          scrape_listing base_url listing_links keep release_type detail_get max_items
                         listing = Ok data
          /\ (rd_url <$> data)
             `sublist_of`
             (_normalize_url base_url
                <$> take (Z.to_nat max_items)
                         (unique_links keep (listing_links (content r))))
          /\ Z.of_nat (length data) <= Z.max 0 max_items
          /\ Forall (fun d => rd_source d = "SEC" /\ rd_type d = release_type) data)
  /\ (forall links,
        NoDup (unique_links keep links)
        /\ forall h, h ∈ unique_links keep links <-> h ∈ links /\ keep h = true).
Proof.
  unfold scrape_listing, try_except. split; [|split; [|split]].
  - intros e ->. simpl. now destruct (is_RequestException e).
  - intros r -> Hs. simpl. unfold raise_for_status.
    replace ((400 <=? status_code r) && (status_code r <? 600)) with true; [reflexivity|].
    symmetry. apply andb_true_iff. split; [apply Z.leb_le | apply Z.ltb_lt]; lia.
  - intros r -> Hs. simpl. unfold raise_for_status.
    replace ((400 <=? status_code r) && (status_code r <? 600)) with false.
    2:{ symmetry. apply andb_false_iff.
        destruct (Z.leb_spec 400 (status_code r)); [|now left].
        right. apply Z.ltb_ge. lia. }
    simpl.
    destruct (release_items_spec (unique_links keep (listing_links (content r))) 0 [])
      as (new & Hrun & Hsub & Hall).
    rewrite Hrun. simpl. exists new. split; [reflexivity|].
    rewrite Z.sub_0_r in Hsub. split; [exact Hsub|]. split; [|exact Hall].
    apply sublist_length in Hsub. rewrite !length_fmap, length_take in Hsub. lia.
  - intros links. destruct (unique_links_fold links [] (NoDup_nil_2)) as [H1 H2].
    split; [exact H1|]. intros h. unfold unique_links. rewrite H2. split.
    + intros [H|H]; [inversion H | exact H].
    + intros H. now right.
Qed.

End ListingsProperties.

(** A listing with a repeated link and a foreign link, scraped with room for
    one item: one detail page only is fetched. *)
Example demo_litigation_listing :
  _scrape_litigation_releases_new "https://www.sec.gov" soup_hrefs
    (fun _ _ => Ok demo_release_page) 1
    (demo_page "Releases"
       ["/litigation/litreleases/2024/lr-1.htm"; "/about";
        "/litigation/litreleases/2024/lr-1.htm";
        "/litigation/litreleases/2024/lr-2.htm"])
  = Ok [{| rd_source := "SEC";
           rd_type := "litigation";
           rd_release_number := "Unknown";
           rd_title := "SEC Charges Example Corp";
           rd_url := "https://www.sec.gov/litigation/litreleases/2024/lr-1.htm";
           rd_content := "The Commission today charged Example Corp.";
           rd_full_content := "The Commission today charged Example Corp." |}].
Proof. vm_compute. reflexivity. Qed.

(** ** The year loop of script.py *)

Section EnforcementProperties.

Variable base_url : string.
Variable litigation_links : Soup -> list string.
Variable admin_links : Soup -> list string.
Variable litigation_get : Z -> Result Response.
Variable admin_get : Z -> Result Response.
Variable detail_get : Z -> string -> nat -> string -> Result Response.
Variable _save_data : list ReleaseDetail -> string -> Result unit.
Variable max_items_per_year : Z.

Local Abbreviation enforcement_years' :=
  (enforcement_years base_url litigation_links admin_links litigation_get admin_get
                     detail_get max_items_per_year).

Lemma enforcement_years_bound (years : list Z) (acc data : list ReleaseDetail) :
  enforcement_years' years acc = Ok data ->
  exists new,
    data = acc ++ new
    /\ Z.of_nat (length new) <= 2 * Z.max 0 max_items_per_year * Z.of_nat (length years)
    /\ Forall (fun d => rd_source d = "SEC"
                        /\ (rd_type d = "litigation" \/ rd_type d = "administrative"))
              new.
Proof.
  revert acc. induction years as [|year years IH]; intros acc H; simpl in H.
  - injection H as <-. exists []. rewrite app_nil_r. repeat split; [simpl; lia | constructor].
  - apply bind_Ok in H as (litig_data & Hl & H).
    apply bind_Ok in H as (admin_data & Ha & H).
    apply scrape_listing_bound in Hl as [Hl1 Hl2].
    apply scrape_listing_bound in Ha as [Ha1 Ha2].
    apply IH in H as (new & -> & Hlen & Hall).
    exists (litig_data ++ admin_data ++ new). rewrite <- !app_assoc.
    split; [reflexivity|]. split.
    + rewrite !length_app. simpl length. lia.
    + repeat (apply Forall_app; split); [| |exact Hall].
      * eapply Forall_impl; [exact Hl2|]. simpl. intros d [H1 H2]. auto.
      * eapply Forall_impl; [exact Ha2|]. simpl. intros d [H1 H2]. auto.
Qed.

Lemma enforcement_years_returns (years : list Z) (acc : list ReleaseDetail) :
  (forall year e, litigation_get year = Raise e \/ admin_get year = Raise e ->
                  is_RequestException e = true) ->
  exists data, enforcement_years' years acc = Ok data.
Proof.
  intros He. revert acc. induction years as [|year years IH]; intros acc; simpl.
  - eauto.
  - unfold _scrape_litigation_releases_new, _scrape_admin_proceedings_new.
    destruct (scrape_listing_returns base_url litigation_links keep_litigation
                "litigation" (detail_get year "litigation") max_items_per_year
                (litigation_get year)) as [litig_data ->].
    { intros e H. apply (He year). now left. }
    destruct (scrape_listing_returns base_url admin_links keep_admin
                "administrative" (detail_get year "administrative") max_items_per_year
                (admin_get year)) as [admin_data ->].
    { intros e H. apply (He year). now right. }
    simpl. apply IH.
Qed.

(** [scrape_enforcement_actions] returns at most [max_items_per_year]
    records of each of the two types for each year, twice that number for a
    year, all of the source SEC, and nothing for an empty range of years.
    It returns whenever the two listing requests of each year end in a
    response or a request exception and the collected data can be saved:
    no detail page can stop it. *)
Theorem scrape_enforcement_actions_budget (start_year end_year : Z) :
  (forall data,
      scrape_enforcement_actions base_url litigation_links admin_links litigation_get
        admin_get detail_get _save_data max_items_per_year start_year end_year = Ok data ->
      Z.of_nat (length data)
      <= 2 * Z.max 0 max_items_per_year * Z.max 0 (end_year + 1 - start_year)
      /\ Forall (fun d => rd_source d = "SEC"
                          /\ (rd_type d = "litigation" \/ rd_type d = "administrative"))
                data)
  /\ ((forall year e, litigation_get year = Raise e \/ admin_get year = Raise e ->
                      is_RequestException e = true) ->
      (forall data, _save_data data "sec_enforcement_actions.json" = Ok tt) ->
      exists data,
        scrape_enforcement_actions base_url litigation_links admin_links litigation_get
          admin_get detail_get _save_data max_items_per_year start_year end_year = Ok data).
Proof.
  unfold scrape_enforcement_actions. split.
  - intros data H. apply bind_Ok in H as (enforcement_data & Hrun & H).
    apply bind_Ok in H as (? & _ & H). injection H as <-.
    apply enforcement_years_bound in Hrun as (new & -> & Hlen & Hall).
    rewrite length_seqZ in Hlen. simpl. split; [lia | exact Hall].
  - intros He Hsave.
    destruct (enforcement_years_returns
                (seqZ start_year (end_year + 1 - start_year)) [] He) as [data ->].
    exists data. simpl. now rewrite Hsave.
Qed.

End EnforcementProperties.

(** One year, one item allowed: the litigation listing and the
    administrative listing give one record each. *)
Example demo_enforcement_year :
  rd_type <$>
    default []
      (match scrape_enforcement_actions "https://www.sec.gov" soup_hrefs soup_hrefs
               (fun _ => demo_page "Releases" ["/litigation/litreleases/lr-1.htm";
                                               "/litigation/litreleases/lr-2.htm"])
               (fun _ => demo_page "Proceedings" ["/litigation/admin/34-1.htm";
                                                  "/litigation/admin/34-2.htm"])
               (fun _ _ _ _ => Ok demo_release_page)
               (fun _ _ => Ok tt) 1 2024 2024 with
       | Ok data => Some data
       | Raise _ => None
       end)
  = ["litigation"; "administrative"].
Proof. vm_compute. reflexivity. Qed.

Lemma scrape_enforcement_actions_budget_witness :
  (forall (year : Z) e,
      demo_page "Releases" ["/litigation/litreleases/lr-1.htm"] = Raise e
      \/ (Raise RequestException : Result Response) = Raise e ->
      is_RequestException e = true)
  /\ exists data,
       scrape_enforcement_actions "https://www.sec.gov" soup_hrefs soup_hrefs
         (fun _ => demo_page "Releases" ["/litigation/litreleases/lr-1.htm"])
         (fun _ => Raise RequestException)
         (fun _ _ _ _ => Ok demo_release_page)
         (fun _ _ => Ok tt) 5 2023 2024 = Ok data.
Proof.
  assert (He : forall (year : Z) e,
             demo_page "Releases" ["/litigation/litreleases/lr-1.htm"] = Raise e
             \/ (Raise RequestException : Result Response) = Raise e ->
             is_RequestException e = true).
  { intros year e [H|H]; [discriminate|]. injection H as <-. reflexivity. }
  split; [exact He|].
  apply (proj2 (scrape_enforcement_actions_budget "https://www.sec.gov"
                  soup_hrefs soup_hrefs
                  (fun _ => demo_page "Releases" ["/litigation/litreleases/lr-1.htm"])
                  (fun _ => Raise RequestException)
                  (fun _ _ _ _ => Ok demo_release_page)
                  (fun _ _ => Ok tt) 5 2023 2024)).
  - exact He.
  - reflexivity.
Defined.

(** ** The notices of script.py *)

Lemma notice_no_at_spec (s g : string) :
  notice_no_at s = Some g ->
  String.length g = 5%nat /\ exists post, s = g +:+ post.
Proof.
  unfold notice_no_at.
  destruct s as [|a [|b [|c [|d [|e post]]]]]; try discriminate.
  destruct (Regex.is_digit a && Regex.is_digit b && Regex.is_char "-" c
            && Regex.is_digit d && Regex.is_digit e); [|discriminate].
  intros H. injection H as <-. split; [reflexivity|]. now exists post.
Qed.

(** The notice number of a regulatory notice is the string "Unknown" or five
    characters taken from the title of the page: two digits, a hyphen and
    two digits. *)
Theorem notice_number_format (title_text : string) :
  notice_number title_text = "Unknown"
  \/ exists a b c d,
       notice_number title_text
       = String a (String b (String "-" (String c (String d ""))))
       /\ Regex.is_digit a = true /\ Regex.is_digit b = true
       /\ Regex.is_digit c = true /\ Regex.is_digit d = true
       /\ substring_of (notice_number title_text) title_text.
Proof.
  unfold notice_number.
  destruct (Regex.search notice_no_at title_text) as [g|] eqn:E; [right | now left].
  apply search_spec in E as (pre & suf & Heq & Hat).
  pose proof (notice_no_at_spec _ _ Hat) as [_ [post Hpost]].
  unfold notice_no_at in Hat.
  destruct suf as [|a [|b [|x [|c [|d rest]]]]]; try discriminate.
  destruct (Regex.is_digit a) eqn:Ha; [|discriminate].
  destruct (Regex.is_digit b) eqn:Hb; [|discriminate].
  unfold Regex.is_char in Hat.
  destruct (ascii_dec "-" x) as [<-|]; [|discriminate].
  destruct (Regex.is_digit c) eqn:Hc; [|discriminate].
  destruct (Regex.is_digit d) eqn:Hd; [|discriminate].
  simpl in Hat. injection Hat as <-.
  exists a, b, c, d. repeat split; auto.
  rewrite Heq, Hpost. apply substring_of_suffix. now exists "", post.
Qed.

Lemma _scrape_notice_detail_returns (get : Result Response) (url : string) :
  exists r,
    _scrape_notice_detail get url = Ok r
    /\ (forall d, r = Some d ->
          nd_url d = url /\ nd_source d = "FINRA" /\ nd_type d = "regulatory_notice")
    /\ ((exists resp, get = Ok resp /\ ~ 400 <= status_code resp < 600) ->
        exists d, r = Some d).
Proof.
  unfold _scrape_notice_detail, try_except, raise_for_status.
  destruct get as [response|e]; simpl.
  - destruct ((400 <=? status_code response) && (status_code response <? 600)) eqn:Hs;
      simpl.
    + exists None. split; [reflexivity|]. split; [discriminate|].
      intros (resp & H & Hn). injection H as <-.
      apply andb_true_iff in Hs as [H1 H2].
      apply Z.leb_le in H1. apply Z.ltb_lt in H2. lia.
    + eexists. split; [reflexivity|]. split; [|eauto].
      intros d H. injection H as <-. auto.
  - exists None. split; [reflexivity|]. split; [discriminate|].
    intros (resp & H & _). discriminate.
Qed.

Lemma py_slice_to_spec {A} (stop : Z) (l : list A) :
  py_slice_to stop l `prefix_of` l
  /\ (0 <= stop -> py_slice_to stop l = take (Z.to_nat stop) l)
  /\ (stop < 0 ->
      Z.of_nat (length (py_slice_to stop l)) = Z.max 0 (Z.of_nat (length l) + stop)).
Proof.
  unfold py_slice_to. destruct (Z.leb_spec 0 stop) as [H|H].
  - split; [apply prefix_take|]. split; [reflexivity | lia].
  - split; [apply prefix_take|]. split; [lia|]. intros _.
    rewrite length_take. lia.
Qed.

Section NoticesProperties.

Variable base_url : string.
Variable notice_links : Soup -> list string.
Variable detail_get : nat -> string -> Result Response.
Variable _save_data : list NoticeDetail -> string -> Result unit.
Variable max_items : Z.

Lemma notice_items_spec (hrefs : list string) (i : nat) (data : list NoticeDetail) :
  exists new,
    notice_items base_url detail_get i hrefs data = Ok (data ++ new)
    /\ (nd_url <$> new) `sublist_of` (_normalize_url base_url <$> hrefs)
    /\ Forall (fun d => nd_source d = "FINRA" /\ nd_type d = "regulatory_notice") new
    /\ ((forall j url, exists resp,
            detail_get j url = Ok resp /\ ~ 400 <= status_code resp < 600) ->
        nd_url <$> new = _normalize_url base_url <$> hrefs).
Proof.
  revert i data. induction hrefs as [|href rest IH]; intros i data; simpl.
  - exists []. rewrite app_nil_r. repeat split; constructor.
  - destruct (_scrape_notice_detail_returns
                (detail_get i (_normalize_url base_url href))
                (_normalize_url base_url href)) as (r & Hr & Hd & Hsome).
    unfold try_except. rewrite Hr. simpl.
    destruct r as [d|].
    + destruct (IH (S i) (data ++ [d])) as (new & Hrun & Hsub & Hall & Hex).
      exists (d :: new). rewrite Hrun. split; [now rewrite <- app_assoc|].
      destruct (Hd d eq_refl) as (H1 & H2 & H3). split; [|split].
      * rewrite fmap_cons, H1. now apply sublist_skip.
      * constructor; auto.
      * intros Hok. rewrite fmap_cons, H1, (Hex Hok). reflexivity.
    + destruct (IH (S i) data) as (new & Hrun & Hsub & Hall & Hex).
      exists new. rewrite Hrun. split; [reflexivity|].
      split; [now apply sublist_cons|]. split; [exact Hall|].
      intros Hok. destruct (Hsome (Hok _ _)) as [d Hd']. discriminate.
Qed.

(** [scrape_regulatory_notices] works through the first [max_items] links of
    the listing, and for a negative [max_items] through all but the last
    [-max_items] of them.  It does not merge repeated links: when every
    detail page answers without an error status and the data can be saved,
    it returns one record for each of these links, in their order, a link
    that stands twice giving two records. *)
Theorem scrape_regulatory_notices_links (r : Response) :
  ~ 400 <= status_code r < 600 ->
  (forall data, _save_data data "finra_regulatory_notices.json" = Ok tt) ->
  exists data,
    scrape_regulatory_notices base_url notice_links detail_get _save_data max_items (Ok r)
    = Ok data
    /\ (nd_url <$> data)
       `sublist_of`
       (_normalize_url base_url <$> py_slice_to max_items (notice_links (content r)))
    /\ Forall (fun d => nd_source d = "FINRA" /\ nd_type d = "regulatory_notice") data
    /\ (0 <= max_items -> Z.of_nat (length data) <= max_items)
    /\ ((forall j url, exists resp,
            detail_get j url = Ok resp /\ ~ 400 <= status_code resp < 600) ->
        nd_url <$> data
        = _normalize_url base_url <$> py_slice_to max_items (notice_links (content r))
        /\ Z.of_nat (length data)
           = if 0 <=? max_items
             then Z.min max_items (Z.of_nat (length (notice_links (content r))))
             else Z.max 0 (Z.of_nat (length (notice_links (content r))) + max_items)).
Proof.
  intros Hs Hsave. unfold scrape_regulatory_notices, try_except, raise_for_status.
  simpl.
  replace ((400 <=? status_code r) && (status_code r <? 600)) with false.
  2:{ symmetry. apply andb_false_iff.
      destruct (Z.leb_spec 400 (status_code r)); [|now left].
      right. apply Z.ltb_ge. lia. }
  simpl.
  destruct (notice_items_spec (py_slice_to max_items (notice_links (content r))) 0 [])
    as (new & Hrun & Hsub & Hall & Hex).
  rewrite Hrun. simpl. rewrite Hsave. simpl. exists new.
  split; [reflexivity|]. split; [exact Hsub|]. split; [exact Hall|].
  destruct (py_slice_to_spec max_items (notice_links (content r))) as (_ & Hpos & Hneg).
  split.
  - intros Hm. apply sublist_length in Hsub.
    rewrite !length_fmap, (Hpos Hm), length_take in Hsub. lia.
  - intros Hok. pose proof (Hex Hok) as Heq. split; [exact Heq|].
    apply (f_equal length) in Heq. rewrite !length_fmap in Heq. rewrite Heq.
    destruct (Z.leb_spec 0 max_items) as [Hm|Hm].
    + rewrite (Hpos Hm), length_take. lia.
    + apply (Hneg Hm).
Qed.

(** A request exception or an error status on the listing of notices gives
    an empty list, which is saved all the same; another exception of that
    request, or a failure to save, goes to the caller. *)
Theorem scrape_regulatory_notices_failures (listing : Result Response) :
  (forall e, listing = Raise e -> is_RequestException e = false ->
     scrape_regulatory_notices base_url notice_links detail_get _save_data max_items
                               listing = Raise e)
  /\ ((exists e, listing = Raise e /\ is_RequestException e = true)
      \/ (exists r, listing = Ok r /\ 400 <= status_code r < 600) ->
      scrape_regulatory_notices base_url notice_links detail_get _save_data max_items
                                listing
      = (_ ← _save_data [] "finra_regulatory_notices.json"; Ok [])).
Proof.
  unfold scrape_regulatory_notices, try_except. split.
  - intros e -> He. simpl. now rewrite He.
  - intros [(e & -> & He) | (r & -> & Hs)]; simpl.
    + now rewrite He.
    + unfold raise_for_status.
      replace ((400 <=? status_code r) && (status_code r <? 600)) with true; [reflexivity|].
      symmetry. apply andb_true_iff. split; [apply Z.leb_le | apply Z.ltb_lt]; lia.
Qed.

End NoticesProperties.

Lemma scrape_regulatory_notices_links_witness :
  ~ 400 <= 200 < 600
  /\ (forall data : list NoticeDetail, (Ok tt : Result unit) = Ok tt)
  /\ exists data,
       scrape_regulatory_notices "https://www.finra.org" soup_hrefs
         (fun _ _ => Ok demo_release_page) (fun _ _ => Ok tt) (-1)
         (Ok {| status_code := 200;
                content := {| soup_text := ""; soup_title := None;
                              soup_meta_description := None;
                              soup_hrefs := ["/rules-guidance/notices/24-01";
                                             "/rules-guidance/notices/24-01";
                                             "/rules-guidance/notices/24-02"] |} |})
       = Ok data
       /\ nd_url <$> data = ["https://www.finra.org/rules-guidance/notices/24-01";
                             "https://www.finra.org/rules-guidance/notices/24-01"].
Proof.
  split; [lia|]. split; [reflexivity|].
  destruct (scrape_regulatory_notices_links "https://www.finra.org" soup_hrefs
              (fun _ _ => Ok demo_release_page) (fun _ _ => Ok tt) (-1)
              {| status_code := 200;
                 content := {| soup_text := ""; soup_title := None;
                               soup_meta_description := None;
                               soup_hrefs := ["/rules-guidance/notices/24-01";
                                              "/rules-guidance/notices/24-01";
                                              "/rules-guidance/notices/24-02"] |} |})
    as (data & Hrun & _ & _ & _ & Hex).
  - simpl. lia.
  - reflexivity.
  - exists data. split; [exact Hrun|].
    destruct Hex as [Heq _].
    + intros j url. exists demo_release_page. split; [reflexivity | simpl; lia].
    + exact Heq.
Defined.

(** ** The litigation releases of scraper.py *)

Lemma length_append (a b : string) :
  String.length (a +:+ b) = (String.length a + String.length b)%nat.
Proof.
  induction a as [|c a IH]; [now rewrite append_nil_l|].
  rewrite append_cons. simpl. now rewrite IH.
Qed.

Section LitigationProperties.

#[local] Set Warnings "-clear-no-such-hyp".

Variable BASE_URL : string.
Variable urljoin : string -> string -> Result string.
Variable list_of_set : gset string -> list string.
Variable listing_get : nat -> Result Response.
Variable detail_get : nat -> nat -> string -> Result Response.
Variable release_anchors : Soup -> list (string * string).
Variable detail_page : Soup -> DetailPage.

Hypothesis list_of_set_perm : forall s, list_of_set s ≡ₚ elements s.

Local Abbreviation litigation_pages' :=
  (litigation_pages BASE_URL urljoin list_of_set listing_get detail_get
                    release_anchors detail_page).

Lemma litigation_pages_stop (n first page : nat) :
  last_page listing_get release_anchors page -> (first <= page < first + n)%nat ->
  litigation_pages' (seq first n) = litigation_pages' (seq first (page - first)).
Proof using Type.
  clear list_of_set_perm.
  intros Hlast. revert first. induction n as [|n IH]; intros first Hp; [lia|].
  destruct (decide (first = page)) as [->|Hne].
  - rewrite Nat.sub_diag. simpl.
    destruct Hlast as [-> | (soup & -> & Hnone)]; simpl; [reflexivity|].
    now rewrite Hnone.
  - replace (page - first)%nat with (S (page - S first)) by lia.
    simpl. rewrite (IH (S first)) by lia. reflexivity.
Qed.

Lemma extract_violations_NoDup (text : string) :
  NoDup (extract_violations list_of_set text).
Proof.
  unfold extract_violations.
  destruct (negb (PyStr.truthy text)); [constructor|].
  rewrite list_of_set_perm. apply NoDup_elements.
Qed.

Lemma litigation_action_fields (title href full_url : string)
    (detail_soup : option DetailPage) :
  litigation_action_ok (litigation_action list_of_set title href full_url detail_soup).
Proof.
  unfold litigation_action_ok, litigation_action.
  cbn [source action_type violations summary raw_text].
  split; [reflexivity|]. split; [reflexivity|].
  split; [apply extract_violations_NoDup|].
  destruct (detail_soup ≫= dp_content_text) as [t|].
  - split; [split; discriminate|]. intros s H.
    apply (inj Some) in H. rewrite <- H.
    destruct (500 <? String.length t)%nat eqn:E.
    + rewrite length_append, (proj1 (take_spec _ _)).
      change (String.length "...") with 3%nat. lia.
    + apply Nat.ltb_ge in E. lia.
  - split; [tauto | discriminate].
Qed.

Lemma page_actions_ok (page : nat) (releases : list (string * string)) (i : nat)
    (actions : list EnforcementAction) :
  page_actions BASE_URL urljoin list_of_set detail_get detail_page page i releases
  = Ok actions ->
  Forall litigation_action_ok actions
  /\ (length actions <= length releases)%nat.
Proof.
  revert i actions. induction releases as [|[href title] rest IH]; intros i actions H;
    simpl in H.
  - injection H as <-. split; [constructor | reflexivity].
  - destruct (negb (PyStr.truthy href)).
    + apply IH in H as [H1 H2]. split; [exact H1 | simpl; lia].
    + apply bind_Ok in H as (full_url & _ & H).
      apply bind_Ok in H as (detail_soup & _ & H).
      apply bind_Ok in H as (more & Hmore & H). injection H as <-.
      apply IH in Hmore as [H1 H2]. split; [|simpl; lia].
      constructor; [apply litigation_action_fields | exact H1].
Qed.

Lemma litigation_pages_ok (pages : list nat) (actions : list EnforcementAction) :
  litigation_pages' pages = Ok actions -> Forall litigation_action_ok actions.
Proof.
  revert actions. induction pages as [|page pages IH]; intros actions H;
    cbn [litigation_pages] in H.
  - injection H as <-. constructor.
  - apply bind_Ok in H as (soup & _ & H).
    destruct soup as [soup|]; [|injection H as <-; constructor].
    destruct (release_anchors soup) as [|r rs]; [injection H as <-; constructor|].
    apply bind_Ok in H as (acts & Ha & H).
    apply bind_Ok in H as (more & Hm & H). injection H as <-.
    apply Forall_app. split; [|now apply IH].
    now apply page_actions_ok in Ha as [Ha _].
Qed.

(** The first listing page that cannot be fetched, or that holds no release
    link, ends the scrape, whatever the pages after it hold: the result is
    that of a scrape limited to the pages before it.  A failure of the very
    first page gives no action at all. *)
Theorem scrape_litigation_releases_stops (max_pages : Z) (page : nat) :
  last_page listing_get release_anchors page -> Z.of_nat page < max_pages ->
  scrape_litigation_releases BASE_URL urljoin list_of_set listing_get detail_get
    release_anchors detail_page max_pages
  = scrape_litigation_releases BASE_URL urljoin list_of_set listing_get detail_get
      release_anchors detail_page (Z.of_nat page)
  /\ (page = 0%nat ->
      scrape_litigation_releases BASE_URL urljoin list_of_set listing_get detail_get
        release_anchors detail_page max_pages = Ok []).
Proof using Type.
  clear list_of_set_perm.
  intros Hlast Hp. unfold scrape_litigation_releases.
  assert (Heq : litigation_pages' (seq 0 (Z.to_nat max_pages))
                = litigation_pages' (seq 0 (Z.to_nat (Z.of_nat page)))).
  { rewrite (litigation_pages_stop (Z.to_nat max_pages) 0 page Hlast) by lia.
    now rewrite Nat.sub_0_r, Nat2Z.id. }
  split; [exact Heq|]. intros ->. rewrite Heq. reflexivity.
Qed.

(** Every action yielded by the litigation scraper has the source SEC and
    the type litigation_release, lists no violation keyword twice, has a
    summary exactly when the detail page gave a text, and that summary has
    503 characters at most: 500 of the text and an ellipsis.  With no page
    allowed nothing is yielded. *)
Theorem scrape_litigation_releases_actions (max_pages : Z) :
  (forall actions,
      scrape_litigation_releases BASE_URL urljoin list_of_set listing_get detail_get
        release_anchors detail_page max_pages = Ok actions ->
      Forall litigation_action_ok actions)
  /\ (max_pages <= 0 ->
      scrape_litigation_releases BASE_URL urljoin list_of_set listing_get detail_get
        release_anchors detail_page max_pages = Ok []).
Proof.
  unfold scrape_litigation_releases. split.
  - intros actions. apply litigation_pages_ok.
  - intros H. replace (Z.to_nat max_pages) with 0%nat by lia. reflexivity.
Qed.

End LitigationProperties.

Lemma scrape_litigation_releases_stops_witness :
  last_page demo_listing_get demo_release_anchors 1
  /\ Z.of_nat 1 < 5
  /\ scrape_litigation_releases "https://www.sec.gov" demo_urljoin demo_list_of_set
       demo_listing_get (fun _ _ _ => Ok demo_release_page)
       demo_release_anchors demo_detail_page 5
     = scrape_litigation_releases "https://www.sec.gov" demo_urljoin demo_list_of_set
         demo_listing_get (fun _ _ _ => Ok demo_release_page)
         demo_release_anchors demo_detail_page (Z.of_nat 1).
Proof.
  assert (Hlast : last_page demo_listing_get demo_release_anchors 1)
    by (left; reflexivity).
  split; [exact Hlast|]. split; [lia|].
  apply (scrape_litigation_releases_stops "https://www.sec.gov" demo_urljoin
           demo_list_of_set demo_listing_get (fun _ _ _ => Ok demo_release_page)
           demo_release_anchors demo_detail_page 5 1 Hlast).
  lia.
Defined.

Lemma scrape_litigation_releases_actions_witness :
  (forall s, demo_list_of_set s ≡ₚ elements s)
  /\ (forall actions,
        scrape_litigation_releases "https://www.sec.gov" demo_urljoin demo_list_of_set
          demo_listing_get (fun _ _ _ => Ok demo_release_page)
          demo_release_anchors demo_detail_page 5 = Ok actions ->
        Forall litigation_action_ok actions).
Proof.
  split; [exact demo_list_of_set_perm|].
  apply (scrape_litigation_releases_actions "https://www.sec.gov" demo_urljoin
           demo_list_of_set demo_listing_get (fun _ _ _ => Ok demo_release_page)
           demo_release_anchors demo_detail_page demo_list_of_set_perm 5).
Defined.

(** The two releases of the first listing page, with their numbers. *)
Example demo_litigation_releases :
  (fun a => (url a, release_number a)) <$>
    default []
      (match scrape_litigation_releases "https://www.sec.gov" demo_urljoin
               demo_list_of_set demo_listing_get (fun _ _ _ => Ok demo_release_page)
               demo_release_anchors demo_detail_page 5 with
       | Ok actions => Some actions
       | Raise _ => None
       end)
  = [("https://www.sec.gov/litigation-releases/lr-26001", Some "LR-26001");
     ("https://www.sec.gov/litigation-releases/lr-26002", Some "LR-26002")].
Proof. vm_compute. reflexivity. Qed.
